(** * Prediction lifecycle engine: live tracker and imported-schedule tracker

    Shallow embedding of the message parser, the trigger policy, the live
    prediction tracker ([main.py]) and the imported-schedule tracker
    ([excel_importer.py] and its driver in [main.py]), followed by the
    properties of the specification that are settled on it. *)

From Stdlib Require Import ZArith NArith QArith List Bool String Ascii Lia.
From Stdlib Require Import Sorted Permutation.
Import ListNotations.
Open Scope Z_scope.

(** ** Python text: sequences of Unicode code points *)

Module Py.

(** A Python [str] is a sequence of code points; [re] character classes and
    the [in] operator work on code points, not on bytes. *)
Definition codepoint := N.
Definition text := list codepoint.

(** Source literals are written as UTF-8 string literals and decoded. *)
Fixpoint bytes_of (s : string) : list N :=
  match s with
  | EmptyString => []
  | String a r => N_of_ascii a :: bytes_of r
  end.

Fixpoint utf8 (bs : list N) : text :=
  match bs with
  | [] => []
  | b0 :: r0 =>
    if (b0 <? 128)%N then b0 :: utf8 r0
    else match r0 with
    | [] => [b0]
    | b1 :: r1 =>
      if (b0 <? 224)%N then ((b0 - 192) * 64 + (b1 - 128))%N :: utf8 r1
      else match r1 with
      | [] => [b0; b1]
      | b2 :: r2 =>
        if (b0 <? 240)%N
        then ((b0 - 224) * 4096 + (b1 - 128) * 64 + (b2 - 128))%N :: utf8 r2
        else match r2 with
        | [] => [b0; b1; b2]
        | b3 :: r3 =>
          ((b0 - 240) * 262144 + (b1 - 128) * 4096
           + (b2 - 128) * 64 + (b3 - 128))%N :: utf8 r3
        end
      end
    end
  end.

Definition lit (s : string) : text := utf8 (bytes_of s).

(** The parts of the Unicode character database that the program reaches
    through [re]'s [\d], [int()], [float()], [str.lower()] and
    [str.strip()].  They are tables of the Python runtime, not of this
    repository, and are taken as an interface. *)
Class Unicode := {
  is_decimal : codepoint -> bool;
  decimal_value : codepoint -> Z;
  lower : text -> text;
  is_space : codepoint -> bool
}.

(** The restriction of those tables to ASCII, used to run the program on
    texts whose digits, letters and blanks are ASCII. *)
Definition ascii_is_decimal (c : codepoint) : bool :=
  ((48 <=? c) && (c <=? 57))%N.
Definition ascii_decimal_value (c : codepoint) : Z := Z.of_N c - 48.
Definition ascii_lower_cp (c : codepoint) : codepoint :=
  if ((65 <=? c) && (c <=? 90))%N then (c + 32)%N else c.
Definition ascii_is_space (c : codepoint) : bool :=
  ((c =? 32) || ((9 <=? c) && (c <=? 13)) || ((28 <=? c) && (c <=? 31)))%N.

#[export] Instance ascii_tables : Unicode := {|
  is_decimal := ascii_is_decimal;
  decimal_value := ascii_decimal_value;
  lower := map ascii_lower_cp;
  is_space := ascii_is_space
|}.

(** [text] equality, prefix test and the [in] operator on strings. *)
Fixpoint text_eqb (a b : text) : bool :=
  match a, b with
  | [], [] => true
  | x :: a', y :: b' => (x =? y)%N && text_eqb a' b'
  | _, _ => false
  end.

Fixpoint starts_with (p s : text) : bool :=
  match p, s with
  | [], _ => true
  | x :: p', y :: s' => (x =? y)%N && starts_with p' s'
  | _ :: _, [] => false
  end.

Fixpoint contains (needle hay : text) : bool :=
  starts_with needle hay ||
  match hay with
  | [] => false
  | _ :: hay' => contains needle hay'
  end.

(** [str(n)] for an integer. *)
Fixpoint digits_of_pos (fuel : nat) (n : Z) (acc : text) : text :=
  match fuel with
  | O => acc
  | S f =>
    let acc' := Z.to_N (48 + n mod 10) :: acc in
    if n / 10 =? 0 then acc' else digits_of_pos f (n / 10) acc'
  end.

Definition str_of_nonneg (n : Z) : text :=
  digits_of_pos (S (Z.to_nat (Z.log2 n))) n [].

Definition str (n : Z) : text :=
  if n <? 0 then 45%N :: str_of_nonneg (- n) else str_of_nonneg n.

(** [s.replace(old, new)] for a non-empty [old]: every non-overlapping
    occurrence, left to right.  [skip] counts the code points of an
    occurrence that are still to be passed over. *)
Fixpoint replace_from (old new s : text) (skip : nat) : text :=
  match s with
  | [] => []
  | c :: s' =>
    match skip with
    | S n => replace_from old new s' n
    | O =>
      if starts_with old s
      then new ++ replace_from old new s' (List.length old - 1)
      else c :: replace_from old new s' 0
    end
  end.

Definition replace (s old new : text) : text := replace_from old new s 0.

(** [s.rsplit(sep, 1)[0]]: the part before the last occurrence of [sep], the
    whole of [s] when [sep] does not occur.  [last_index] is [s.rfind]. *)
Fixpoint last_index (sep s : text) (i : nat) (found : option nat) : option nat :=
  let found' := if starts_with sep s then Some i else found in
  match s with
  | [] => found'
  | _ :: s' => last_index sep s' (S i) found'
  end.

Definition rsplit1_head (s sep : text) : text :=
  match last_index sep s 0 None with
  | Some i => firstn i s
  | None => s
  end.

(** *** The fragment of [re] the program uses

    Greedy quantifiers with backtracking, leftmost match, capture groups in
    the order of their opening parenthesis.  In every pattern of the program
    a repetition is applied to a character class only. *)
Inductive regex :=
| Chr (c : codepoint)
| Class (p : codepoint -> bool)
| Plus (p : codepoint -> bool)
| Opt (r : regex)
| Cat (r1 r2 : regex)
| Alt (r1 r2 : regex)
| Group (r : regex).

Section Matcher.
Context {A : Type}.

  (** [p+] from [s]: as many code points as possible first, one at least. *)
Fixpoint plus_from (p : codepoint -> bool) (s : text)
           (k : text -> option A) : option A :=
    match s with
    | [] => None
    | c :: s' =>
      if p c then
        match plus_from p s' k with
        | Some x => Some x
        | None => k s'
        end
      else None
    end.

Fixpoint run (r : regex) (s : text) (caps : list text)
           (k : text -> list text -> option A) : option A :=
    match r with
    | Chr c =>
      match s with
      | x :: s' => if (x =? c)%N then k s' caps else None
      | [] => None
      end
    | Class p =>
      match s with
      | x :: s' => if p x then k s' caps else None
      | [] => None
      end
    | Plus p => plus_from p s (fun rest => k rest caps)
    | Opt r1 =>
      match run r1 s caps k with
      | Some x => Some x
      | None => k s caps
      end
    | Cat r1 r2 => run r1 s caps (fun rest caps' => run r2 rest caps' k)
    | Alt r1 r2 =>
      match run r1 s caps k with
      | Some x => Some x
      | None => run r2 s caps k
      end
    | Group r1 =>
      run r1 s caps
          (fun rest caps' =>
             k rest (caps' ++ [firstn (List.length s - List.length rest) s]))
    end.
End Matcher.

(** A match anchored at the start of [s]: the groups and the unread rest. *)
Definition match_at (r : regex) (s : text) : option (list text * text) :=
  run r s [] (fun rest caps => Some (caps, rest)).

(** [re.search]: the groups of the leftmost match. *)
Fixpoint search (r : regex) (s : text) : option (list text) :=
  match match_at r s with
  | Some (caps, _) => Some caps
  | None =>
    match s with
    | [] => None
    | _ :: s' => search r s'
    end
  end.

(** [re.findall]: the groups of the successive non-overlapping matches.  No
    pattern of the program matches the empty string. *)
Fixpoint findall_from (r : regex) (s : text) (skip : nat) : list (list text) :=
  match s with
  | [] => []
  | _ :: s' =>
    match skip with
    | S n => findall_from r s' n
    | O =>
      match match_at r s with
      | Some (caps, rest) =>
        caps :: findall_from r s' (List.length s - List.length rest - 1)
      | None => findall_from r s' 0
      end
    end
  end.

Definition findall (r : regex) (s : text) : list (list text) :=
  findall_from r s 0.

Definition one_of (cs : text) (c : codepoint) : bool :=
  existsb (fun x => (x =? c)%N) cs.

Section Conversions.
Context {U : Unicode}.

  (** [int(s)] on a run of decimal digits, without the cap that recent
      interpreters put on the number of digits
      ([sys.set_int_max_str_digits]). *)
Definition int_of (ds : text) : Z :=
    fold_left (fun acc c => 10 * acc + decimal_value c) ds 0.

  (** [str.strip()]. *)
Fixpoint lstrip (s : text) : text :=
    match s with
    | c :: s' => if is_space c then lstrip s' else s
    | [] => []
    end.

Definition strip (s : text) : text := rev (lstrip (rev (lstrip s))).

  (** The decimal that [float(s)] reads from [digits] or [digits.digits],
      as an exact rational. *)
Fixpoint split_dot (s : text) : text * option text :=
    match s with
    | [] => ([], None)
    | c :: s' =>
      if (c =? 46)%N then ([], Some s')
      else let '(a, b) := split_dot s' in (c :: a, b)
    end.

Definition decimal_of (s : text) : Q :=
    match split_dot s with
    | (ip, None) => inject_Z (int_of ip)
    | (ip, Some fp) =>
      Qmake (int_of ip * 10 ^ Z.of_nat (List.length fp) + int_of fp)
            (Z.to_pos (10 ^ Z.of_nat (List.length fp)))
    end.
End Conversions.

End Py.

Import Py.

(** ** excel_importer.py: the imported-schedule tracker *)

Module ExcelImporter.

(** One entry of [ExcelPredictionManager.predictions].  [current_offset] is
    absent until [mark_as_launched]; [verified] and [skipped_consecutive] are
    only ever read through [.get(..., False)] or not at all, so an absent key
    and [False] are one value here.  [imported_at] (the wall-clock time of
    the import) is written once and never read, and is left out. *)
Record excel_pred := {
  numero : Z;
  date_heure : text;
  victoire : text;
  launched : bool;
  message_id : option Z;
  chat_id : option Z;
  channel_id : option Z;
  current_offset : option Z;
  verified : bool;
  skipped_consecutive : bool
}.

(** A Python dict keeps its keys unique and in insertion order. *)
Definition dict (V : Type) := list (text * V).

Fixpoint dict_get {V} (k : text) (d : dict V) : option V :=
  match d with
  | [] => None
  | (k', v) :: d' => if text_eqb k k' then Some v else dict_get k d'
  end.

Fixpoint dict_set {V} (k : text) (v : V) (d : dict V) : dict V :=
  match d with
  | [] => [(k, v)]
  | (k', v') :: d' =>
    if text_eqb k k' then (k', v) :: d' else (k', v') :: dict_set k v d'
  end.

Definition dict_update {V} (d new : dict V) : dict V :=
  fold_left (fun acc kv => dict_set (fst kv) (snd kv) acc) new d.

(** The in-memory state of [ExcelPredictionManager].  [save_predictions]
    writes the whole of [predictions] to the YAML file, reads nothing back
    and catches its own failures, so it leaves this state as it is. *)
Record manager := {
  predictions : dict excel_pred;
  last_launched_numero : option Z
}.

(** A data row of the sheet: the cells of columns 0, 1, 2.  A date cell is
    given by the string the import stores for it, an identifier cell by its
    integer, [None] is an empty cell. *)
Record row := {
  cell_date : option text;
  cell_numero : option Z;
  cell_victoire : option text
}.

Definition text_truthy (c : option text) : bool :=
  match c with Some (_ :: _) => true | _ => false end.

Definition int_truthy (c : option Z) : bool :=
  match c with Some n => negb (n =? 0) | None => false end.

(** The local variables of the loop of [import_excel]. *)
Record import_state := {
  imp_predictions : dict excel_pred;
  last_numero : option Z;
  imported_count : Z;
  skipped_count : Z;
  consecutive_skipped : Z
}.

Section Importer.
Context {U : Unicode}.

  (** One iteration of [for row in sheet.iter_rows(...)]. *)
Definition import_row (replace_mode : bool) (self_predictions : dict excel_pred)
             (st : import_state) (r : row) : import_state :=
    if negb (text_truthy (cell_date r)) || negb (int_truthy (cell_numero r))
       || negb (text_truthy (cell_victoire r))
    then st
    else
      match cell_date r, cell_numero r, cell_victoire r with
      | Some date_str, Some numero_int, Some victoire_cell =>
        let victoire_type := strip victoire_cell in
        let prediction_key := str numero_int in
        if negb replace_mode
           && match dict_get prediction_key self_predictions with
              | Some p => launched p
              | None => false
              end
        then {| imp_predictions := imp_predictions st;
                last_numero := last_numero st;
                imported_count := imported_count st;
                skipped_count := skipped_count st + 1;
                consecutive_skipped := consecutive_skipped st |}
        else if match last_numero st with
                | Some l => numero_int =? l + 1
                | None => false
                end
        then {| imp_predictions := imp_predictions st;
                last_numero := last_numero st;
                imported_count := imported_count st;
                skipped_count := skipped_count st;
                consecutive_skipped := consecutive_skipped st + 1 |}
        else {| imp_predictions :=
                  dict_set prediction_key
                    {| numero := numero_int;
                       date_heure := date_str;
                       victoire := victoire_type;
                       launched := false;
                       message_id := None;
                       chat_id := None;
                       channel_id := None;
                       current_offset := None;
                       verified := false;
                       skipped_consecutive := false |}
                    (imp_predictions st);
                last_numero := Some numero_int;
                imported_count := imported_count st + 1;
                skipped_count := skipped_count st;
                consecutive_skipped := consecutive_skipped st |}
      | _, _, _ => st
      end.

Definition import_init : import_state :=
    {| imp_predictions := []; last_numero := None; imported_count := 0;
       skipped_count := 0; consecutive_skipped := 0 |}.

Definition import_rows (replace_mode : bool) (self_predictions : dict excel_pred)
             (rows : list row) : import_state :=
    fold_left (import_row replace_mode self_predictions) rows import_init.

  (** [import_excel] on a workbook that loads, given by its data rows: the
      manager afterwards and the counters of the returned report. *)
Definition import_excel (self : manager) (rows : list row) (replace_mode : bool)
    : manager * import_state :=
    let st := import_rows replace_mode (predictions self) rows in
    ({| predictions :=
          if replace_mode then imp_predictions st
          else dict_update (predictions self) (imp_predictions st);
        last_launched_numero := last_launched_numero self |}, st).

  (** Python truthiness of [self.last_launched_numero]: [None] and [0] are
      false. *)
Definition is_consecutive_to_last (last : option Z) (pred_numero : Z) : bool :=
    match last with
    | Some l => negb (l =? 0) && (pred_numero =? l + 1)
    | None => false
    end.

Definition mark_skipped (p : excel_pred) : excel_pred :=
    {| numero := numero p; date_heure := date_heure p; victoire := victoire p;
       launched := true;
       message_id := message_id p; chat_id := chat_id p;
       channel_id := channel_id p; current_offset := current_offset p;
       verified := verified p;
       skipped_consecutive := true |}.

  (** The loop of [find_close_prediction] over [self.predictions.items()]:
      the entries as the loop leaves them and the final [closest_pred].
      [min_diff] is [None] for [float('inf')]. *)
Fixpoint find_close_loop (last : option Z) (current_number tolerance : Z)
           (items : dict excel_pred)
           (closest_pred : option (text * excel_pred)) (min_diff : option Z)
    : dict excel_pred * option (text * excel_pred) :=
    match items with
    | [] => ([], closest_pred)
    | (key, pred) :: rest =>
      if launched pred then
        let '(rest', res) :=
          find_close_loop last current_number tolerance rest closest_pred min_diff in
        ((key, pred) :: rest', res)
      else
        let pred_numero := numero pred in
        let diff := pred_numero - current_number in
        if (0 <=? diff) && (diff <=? tolerance) then
          if is_consecutive_to_last last pred_numero then
            let '(rest', res) :=
              find_close_loop last current_number tolerance rest closest_pred min_diff in
            ((key, mark_skipped pred) :: rest', res)
          else if match min_diff with
                  | Some m => diff <? m
                  | None => true
                  end
          then
            let '(rest', res) :=
              find_close_loop last current_number tolerance rest
                              (Some (key, pred)) (Some diff) in
            ((key, pred) :: rest', res)
          else
            let '(rest', res) :=
              find_close_loop last current_number tolerance rest closest_pred min_diff in
            ((key, pred) :: rest', res)
        else
          let '(rest', res) :=
            find_close_loop last current_number tolerance rest closest_pred min_diff in
          ((key, pred) :: rest', res)
    end.

Definition find_close_prediction (self : manager) (current_number tolerance : Z)
    : manager * option (text * excel_pred) :=
    let '(items, res) :=
      find_close_loop (last_launched_numero self) current_number tolerance
                      (predictions self) None None in
    ({| predictions := items;
        last_launched_numero := last_launched_numero self |}, res).

(** The entries the scan looks at: not launched, and between 0 and
    [tolerance] games ahead of the current number. *)
Definition in_window (current_number tolerance : Z) (p : excel_pred) : bool :=
  negb (launched p)
  && ((0 <=? numero p - current_number) && (numero p - current_number <=? tolerance)).

(** Those of them that follow the last launched number, and the others. *)
Definition suppressed (last : option Z) (current_number tolerance : Z)
           (p : excel_pred) : bool :=
  in_window current_number tolerance p && is_consecutive_to_last last (numero p).

Definition candidate (last : option Z) (current_number tolerance : Z)
           (p : excel_pred) : bool :=
  in_window current_number tolerance p
  && negb (is_consecutive_to_last last (numero p)).

(** What the scan leaves in place of an entry. *)
Definition after_scan (last : option Z) (current_number tolerance : Z)
           (kv : text * excel_pred) : text * excel_pred :=
  (fst kv,
   if suppressed last current_number tolerance (snd kv)
   then mark_skipped (snd kv) else snd kv).

Definition set_launched (p : excel_pred) (msg_id chan_id : Z) : excel_pred :=
    {| numero := numero p; date_heure := date_heure p; victoire := victoire p;
       launched := true;
       message_id := Some msg_id; chat_id := chat_id p;
       channel_id := Some chan_id; current_offset := Some 0;
       verified := verified p;
       skipped_consecutive := skipped_consecutive p |}.

Definition mark_as_launched (self : manager) (key : text) (msg_id chan_id : Z)
    : manager :=
    match dict_get key (predictions self) with
    | Some p =>
      {| predictions := dict_set key (set_launched p msg_id chan_id) (predictions self);
         last_launched_numero := Some (numero p) |}
    | None => self
    end.
End Importer.

(** The glyphs of the source channel and of the status line. *)
Definition CONFIRMED : text := lit "✅".
Definition ALT_CONFIRMED : text := lit "🔰".
Definition IN_EDIT_ALARM : text := lit "⏰".
Definition IN_EDIT_CLOCK : text := lit "🕐".
Definition FAILED : text := lit "❌".
Definition OK0 : text := lit "✅0️⃣".
Definition OK1 : text := lit "✅1️⃣".
Definition OK2 : text := lit "✅2️⃣".

Section Verification.
Context {U : Unicode}.

  (** The class [[✅🔰]] and the pattern [[✅🔰]?(\d+)\(]. *)
Definition marker_class : codepoint -> bool := one_of (lit "✅🔰").

Definition first_point_pattern : regex :=
    Cat (Opt (Class marker_class)) (Cat (Group (Plus is_decimal)) (Chr 40%N)).

  (** [extract_points_and_winner]: the first component of the returned pair
      (the second is always [None]). *)
Definition extract_points_and_winner (message_text : text) : option Z :=
    match search first_point_pattern message_text with
    | Some (g1 :: _) => Some (int_of g1)
    | _ => None
    end.

Inductive winner := joueur | banquier.

  (** ["banquier" if "banquier" in expected_winner.lower() else "joueur"]. *)
Definition expected_of (expected_winner : text) : winner :=
    if contains (lit "banquier") (lower expected_winner) then banquier else joueur.

  (** [verify_excel_prediction]: the pair [(status, should_continue)]. *)
Definition verify_excel_prediction (game_number : Z) (message_text : text)
             (predicted_numero : Z) (expected_winner : text) (current_offset : Z)
    : option text * bool :=
    let real_offset_from_game := game_number - predicted_numero in
    if real_offset_from_game <? 0 then (None, true)
    else if real_offset_from_game >? 2 then (Some FAILED, false)
    else
      let current_offset :=
        if negb (current_offset =? real_offset_from_game)
        then real_offset_from_game else current_offset in
      let target_number := predicted_numero + current_offset in
      if negb (game_number =? target_number) then (None, true)
      else if contains IN_EDIT_ALARM message_text
              || contains IN_EDIT_CLOCK message_text
      then (None, true)
      else if negb (contains CONFIRMED message_text
                    || contains ALT_CONFIRMED message_text)
      then (None, true)
      else
        match extract_points_and_winner message_text with
        | None =>
          if contains CONFIRMED message_text
             && negb (contains ALT_CONFIRMED message_text)
          then (Some FAILED, false)
          else (None, true)
        | Some joueur_point =>
          let is_success :=
            match expected_of expected_winner with
            | joueur => joueur_point >=? 7
            | banquier => joueur_point <=? 4
            end in
          if is_success then
            let real_offset := game_number - predicted_numero in
            if real_offset =? 0 then (Some OK0, false)
            else if real_offset =? 1 then (Some OK1, false)
            else if real_offset =? 2 then (Some OK2, false)
            else (Some OK2, false)
          else
            if current_offset <? 2 then (None, true)
            else (Some FAILED, false)
        end.


  (** The message carries a pending marker; it carries a finalization
      marker. *)
Definition in_edit (message_text : text) : bool :=
    contains IN_EDIT_ALARM message_text || contains IN_EDIT_CLOCK message_text.

Definition finalized (message_text : text) : bool :=
    contains CONFIRMED message_text || contains ALT_CONFIRMED message_text.

  (** [get_prediction_format]. *)
Definition get_prediction_format (numero : Z) (victoire : text) : text :=
    let victoire_lower := lower victoire in
    let numero_str := str numero in
    if contains (lit "joueur") victoire_lower
       || contains (lit "player") victoire_lower
    then lit "🔵" ++ numero_str ++ lit ":🅿️+6,5🔵statut :⏳"
    else if contains (lit "banquier") victoire_lower
            || contains (lit "banker") victoire_lower
    then lit "🔵" ++ numero_str ++ lit ":Ⓜ️-4,,5🔵statut :⏳"
    else lit "🔵" ++ numero_str ++ lit ":🅿️+6,5🔵statut :⏳".
End Verification.

(** An entry as the import writes it: keyed by the decimal form of its
    number, which is not 0, not launched, not verified, without message,
    channel or offset. *)
Definition fresh_entry (kv : text * excel_pred) : Prop :=
  fst kv = str (numero (snd kv))
  /\ numero (snd kv) <> 0
  /\ launched (snd kv) = false
  /\ verified (snd kv) = false
  /\ message_id (snd kv) = None
  /\ channel_id (snd kv) = None
  /\ current_offset (snd kv) = None
  /\ skipped_consecutive (snd kv) = false.

(** [key in d and d[key].get("launched")]. *)
Definition launched_in (d : dict excel_pred) (key : text) : bool :=
  match dict_get key d with
  | Some p => launched p
  | None => false
  end.

(** *** Reports on the imported predictions *)

(** A row of the sheet that the loop of [import_excel] does not pass over:
    its three cells are truthy. *)
Definition row_complete (r : row) : bool :=
  text_truthy (cell_date r) && int_truthy (cell_numero r)
  && text_truthy (cell_victoire r).

(** An item of the list that [get_pending_predictions] returns. *)
Record pending_item := {
  item_key : text;
  item_numero : Z;
  item_victoire : text;
  item_date_heure : text
}.

(** [sorted(pending, key=lambda x: x["numero"])]: Python's sort is stable,
    items of equal number keep their order. *)
Fixpoint insert_by_numero (x : pending_item) (l : list pending_item)
  : list pending_item :=
  match l with
  | [] => [x]
  | y :: l' =>
    if item_numero x <=? item_numero y then x :: l
    else y :: insert_by_numero x l'
  end.

Fixpoint sorted_by_numero (l : list pending_item) : list pending_item :=
  match l with
  | [] => []
  | x :: l' => insert_by_numero x (sorted_by_numero l')
  end.

Definition pending_of (kv : text * excel_pred) : pending_item :=
  {| item_key := fst kv;
     item_numero := numero (snd kv);
     item_victoire := victoire (snd kv);
     item_date_heure := date_heure (snd kv) |}.

Definition get_pending_predictions (self : manager) : list pending_item :=
  sorted_by_numero
    (map pending_of (filter (fun kv => negb (launched (snd kv))) (predictions self))).

(** The dict that [get_stats] returns. *)
Record stats := {
  stats_total : Z;
  stats_launched : Z;
  stats_pending : Z
}.

Definition get_stats (self : manager) : stats :=
  let total := Z.of_nat (List.length (predictions self)) in
  let n_launched :=
    Z.of_nat (List.length (filter (fun kv => launched (snd kv)) (predictions self))) in
  {| stats_total := total;
     stats_launched := n_launched;
     stats_pending := total - n_launched |}.

(** [clear_predictions]: [last_launched_numero] is not reset. *)
Definition clear_predictions (self : manager) : manager :=
  {| predictions := []; last_launched_numero := last_launched_numero self |}.

End ExcelImporter.

(** ** main.py: message parser, trigger policy and live tracker *)

Module Main.

(** [VERIFICATION_EMOJIS]. *)
Definition VERIFICATION_EMOJIS : list (Z * text) :=
  [ (0, lit "✅0️⃣"); (1, lit "✅1️⃣"); (2, lit "✅2️⃣"); (3, lit "✅3️⃣");
    (4, lit "✅4️⃣"); (5, lit "✅5️⃣"); (6, lit "✅6️⃣"); (7, lit "✅7️⃣");
    (8, lit "✅8️⃣"); (9, lit "✅9️⃣"); (10, lit "✅🔟") ].

Fixpoint table_get (k : Z) (t : list (Z * text)) : option text :=
  match t with
  | [] => None
  | (k', v) :: t' => if k =? k' then Some v else table_get k t'
  end.

(** [VERIFICATION_EMOJIS.get(current_offset, f"✅{current_offset}")]. *)
Definition status_emoji_of (current_offset : Z) : text :=
  match table_get current_offset VERIFICATION_EMOJIS with
  | Some e => e
  | None => lit "✅" ++ str current_offset
  end.

Definition PENDING_TOKEN : text := lit "statut :⏳".
Definition FAILURE_TOKEN : text := lit "statut :❌".
Definition FAILED : text := lit "❌".

Section Parser.
Context {U : Unicode}.

Definition marker_class : codepoint -> bool := one_of (lit "✅🔰").
Definition not_rparen (c : codepoint) : bool := negb (c =? 41)%N.

  (** [[✅🔰]?\d+\(([^)]+)\)] *)
Definition group_pattern : regex :=
    Cat (Opt (Class marker_class))
        (Cat (Plus is_decimal)
             (Cat (Chr 40%N) (Cat (Group (Plus not_rparen)) (Chr 41%N)))).

  (** [[✅🔰]?(\d+)\(([^)]+)\)] *)
Definition total_pattern : regex :=
    Cat (Opt (Class marker_class))
        (Cat (Group (Plus is_decimal))
             (Cat (Chr 40%N) (Cat (Group (Plus not_rparen)) (Chr 41%N)))).

  (** [(\d+|[AKQJ])[♠️♥️♦️♣️♠♥♦♣]] *)
Definition card_pattern : regex :=
    Cat (Group (Alt (Plus is_decimal) (Class (one_of (lit "AKQJ")))))
        (Class (one_of (lit "♠️♥️♦️♣️♠♥♦♣"))).

  (** [#T(\d+(?:\.\d+)?)] *)
Definition t_pattern : regex :=
    Cat (Chr 35%N)
        (Cat (Chr 84%N)
             (Group (Cat (Plus is_decimal)
                         (Opt (Cat (Chr 46%N) (Plus is_decimal)))))).

  (** The first group of each match, as [re.findall] lists them for a
      pattern with one group. *)
Definition group1 (m : list text) : text := hd [] m.

Definition card_values (group : text) : list text :=
    map group1 (findall card_pattern group).

Definition is_six (card_value : text) : bool := text_eqb card_value (lit "6").

Definition has_six_in_first_group (message_text : text) : bool :=
    match map group1 (findall group_pattern message_text) with
    | first_group :: _ => existsb is_six (card_values first_group)
    | [] => false
    end.

Definition has_six_in_both_groups (message_text : text) : bool :=
    match map group1 (findall group_pattern message_text) with
    | first_group :: second_group :: _ =>
      existsb is_six (card_values first_group)
      && existsb is_six (card_values second_group)
    | _ => false
    end.

Definition count_sixes_in_groups (message_text : text) : Z :=
    fold_left
      (fun total_sixes group =>
         total_sixes + Z.of_nat (List.length (filter is_six (card_values group))))
      (map group1 (findall group_pattern message_text)) 0.

Definition get_first_group_total (message_text : text) : Z :=
    match findall total_pattern message_text with
    | (total :: _) :: _ => int_of total
    | _ => -1
    end.

  (** [extract_t_value]: the decimal after [#T], [-1] when there is none.
      Python holds the binary64 nearest to that decimal. *)
Definition extract_t_value (message_text : text) : Q :=
    match search t_pattern message_text with
    | Some (g :: _) => decimal_of g
    | _ => inject_Z (-1)
    end.

Definition is_tie_game (message_text : text) : bool :=
    contains (lit "🟣#X") message_text.

Definition should_skip_prediction (message_text : text) : bool :=
    if is_tie_game message_text then true
    else if has_six_in_both_groups message_text then true
    else if count_sixes_in_groups message_text >=? 2 then true
    else
      let first_group_total := get_first_group_total message_text in
      let has_six := has_six_in_first_group message_text in
      if (first_group_total =? 6) && has_six then true else false.

Definition is_finalized_message (message_text : text) : bool :=
    contains (lit "✅") message_text || contains (lit "🔰") message_text.
End Parser.

(** *** State of the process

    One entry of [active_predictions].  [status] and [attempts] are absent
    from a newly registered entry; [verified] and [base_text] are read with
    [.get(..., False)] and [.get(..., "")].  [t_value] holds the decimal
    that was read.  [created_at] (wall-clock time) is never read and is left
    out. *)
Record live_pred := {
  message_id : option Z;
  channel_id : option Z;
  expected : text;
  base_text : text;
  source_game : Z;
  t_value : Q;
  verified : bool;
  status : option text;
  attempts : option Z
}.

(** A call [client.edit_message(channel_id, msg_id, new_text)]. *)
Definition edit_request : Type := Z * Z * text.

(** What [bot_config.json] holds after a successful [save_config]
    ([prediction_interval] plays no part in the trackers and is left out). *)
Record saved_config := {
  saved_stat_channel : option Z;
  saved_display_channel : option Z;
  saved_a_offset : Z;
  saved_r_offset : Z;
  saved_active_predictions : list (Z * live_pred)
}.

(** The module-level variables of [main.py], the configuration file, and
    the list of the edit requests made so far (oldest first).
    [active_predictions] is keyed by [str(predicted_numero)] and read back
    with [int(...)]; the entries are keyed here by the integer itself, in
    insertion order. *)
Record world := {
  detected_stat_channel : option Z;
  detected_display_channel : option Z;
  a_offset : Z;
  r_offset : Z;
  active_predictions : list (Z * live_pred);
  excel_manager : ExcelImporter.manager;
  config_file : option saved_config;
  edits : list edit_request
}.

(** The collaborators outside the repository's sources: the chat transport
    ([edit_message] is [false] and [send_message] is [None] when the call
    raises), the file system under [save_config], and
    [predictor.extract_game_number] of the [predictor] module. *)
Record collaborators := {
  edit_message : Z -> Z -> text -> bool;
  send_message : Z -> text -> option Z;
  config_writable : bool;
  extract_game_number : text -> option Z
}.

(** Python truthiness of an optional integer: [None] and [0] are false. *)
Definition truthy (o : option Z) : bool :=
  match o with
  | Some n => negb (n =? 0)
  | None => false
  end.

Definition get_id (o : option Z) : Z :=
  match o with Some n => n | None => 0 end.

Definition snapshot (w : world) : saved_config :=
  {| saved_stat_channel := detected_stat_channel w;
     saved_display_channel := detected_display_channel w;
     saved_a_offset := a_offset w;
     saved_r_offset := r_offset w;
     saved_active_predictions := active_predictions w |}.

(** [save_config]: [db] is [None] in [main.py] (it is imported before
    [init_database] rebinds it), so only the JSON file is written; a failed
    write is caught and reported. *)
Definition save_config (env : collaborators) (w : world) : world :=
  if config_writable env then
    {| detected_stat_channel := detected_stat_channel w;
       detected_display_channel := detected_display_channel w;
       a_offset := a_offset w;
       r_offset := r_offset w;
       active_predictions := active_predictions w;
       excel_manager := excel_manager w;
       config_file := Some (snapshot w);
       edits := edits w |}
  else w.

Definition with_active (w : world) (preds : list (Z * live_pred)) : world :=
  {| detected_stat_channel := detected_stat_channel w;
     detected_display_channel := detected_display_channel w;
     a_offset := a_offset w;
     r_offset := r_offset w;
     active_predictions := preds;
     excel_manager := excel_manager w;
     config_file := config_file w;
     edits := edits w |}.

Definition with_edits (w : world) (reqs : list edit_request) : world :=
  {| detected_stat_channel := detected_stat_channel w;
     detected_display_channel := detected_display_channel w;
     a_offset := a_offset w;
     r_offset := r_offset w;
     active_predictions := active_predictions w;
     excel_manager := excel_manager w;
     config_file := config_file w;
     edits := edits w ++ reqs |}.

Definition with_r_offset (w : world) (value : Z) : world :=
  {| detected_stat_channel := detected_stat_channel w;
     detected_display_channel := detected_display_channel w;
     a_offset := a_offset w;
     r_offset := value;
     active_predictions := active_predictions w;
     excel_manager := excel_manager w;
     config_file := config_file w;
     edits := edits w |}.

Definition with_excel (w : world) (m : ExcelImporter.manager) : world :=
  {| detected_stat_channel := detected_stat_channel w;
     detected_display_channel := detected_display_channel w;
     a_offset := a_offset w;
     r_offset := r_offset w;
     active_predictions := active_predictions w;
     excel_manager := m;
     config_file := config_file w;
     edits := edits w |}.

Definition set_attempts (p : live_pred) (n : Z) : live_pred :=
  {| message_id := message_id p; channel_id := channel_id p;
     expected := expected p; base_text := base_text p;
     source_game := source_game p; t_value := t_value p;
     verified := verified p; status := status p;
     attempts := Some n |}.

Definition set_terminal (p : live_pred) (s : text) : live_pred :=
  {| message_id := message_id p; channel_id := channel_id p;
     expected := expected p; base_text := base_text p;
     source_game := source_game p; t_value := t_value p;
     verified := true; status := Some s;
     attempts := attempts p |}.

(** *** The live tracker *)

(** What the body of the loop of [verify_active_predictions] does with one
    entry: the entry afterwards, the edit requests it made, and whether it
    reached a call of [save_config]. *)
Record step_result := {
  new_data : live_pred;
  requests : list edit_request;
  saves : bool
}.

Definition unchanged (p : live_pred) : step_result :=
  {| new_data := p; requests := []; saves := false |}.

Section LiveTracker.
Context {U : Unicode}.
Variable env : collaborators.

Definition verify_step (r_offset game_number : Z) (message_text : text)
             (pred_numero : Z) (pred_data : live_pred) : step_result :=
    if verified pred_data then unchanged pred_data
    else
      let attempts_done :=
        match attempts pred_data with Some n => n | None => 0 end in
      if game_number <? pred_numero then unchanged pred_data
      else
        let current_offset := game_number - pred_numero in
        if current_offset >? r_offset then
          let msg_id := message_id pred_data in
          let chan_id := channel_id pred_data in
          {| new_data :=
               set_attempts (set_terminal pred_data FAILED) (r_offset + 1);
             requests :=
               if truthy msg_id && truthy chan_id
               then [(get_id chan_id, get_id msg_id,
                      replace (base_text pred_data) PENDING_TOKEN FAILURE_TOKEN)]
               else [];
             saves := true |}
        else if current_offset >? attempts_done then
          let msg_id := message_id pred_data in
          let chan_id := channel_id pred_data in
          if negb (truthy msg_id) || negb (truthy chan_id)
          then unchanged pred_data
          else
            match ExcelImporter.extract_points_and_winner message_text with
            | None => unchanged pred_data
            | Some premier_groupe_point =>
              (* an integer against the floats 6.5 and 4.5 *)
              let is_success :=
                if text_eqb (expected pred_data) (lit "joueur")
                then 2 * premier_groupe_point >? 13
                else if text_eqb (expected pred_data) (lit "banquier")
                then 2 * premier_groupe_point <? 9
                else false in
              let pred_data := set_attempts pred_data current_offset in
              if is_success then
                let status_emoji := status_emoji_of current_offset in
                let new_text :=
                  replace (base_text pred_data) PENDING_TOKEN
                          (lit "statut :" ++ status_emoji) in
                let req := (get_id chan_id, get_id msg_id, new_text) in
                if edit_message env (get_id chan_id) (get_id msg_id) new_text
                then {| new_data := set_terminal pred_data status_emoji;
                        requests := [req]; saves := true |}
                else {| new_data := pred_data;
                        requests := [req]; saves := false |}
              else if current_offset >=? r_offset then
                let new_text :=
                  replace (base_text pred_data) PENDING_TOKEN FAILURE_TOKEN in
                let req := (get_id chan_id, get_id msg_id, new_text) in
                if edit_message env (get_id chan_id) (get_id msg_id) new_text
                then {| new_data := set_terminal pred_data FAILED;
                        requests := [req]; saves := true |}
                else {| new_data := pred_data;
                        requests := [req]; saves := false |}
              else {| new_data := pred_data; requests := []; saves := true |}
            end
        else unchanged pred_data.

  (** [for pred_numero_str in list(active_predictions.keys())]: [done] are
      the entries already visited, [todo] those still to visit.  The entries
      are mutated in place, so a [save_config] in the middle of the loop
      writes the visited entries as they are now and the others as they
      were. *)
Fixpoint verify_loop (game_number : Z) (message_text : text)
           (done todo : list (Z * live_pred)) (w : world) : world :=
    match todo with
    | [] => w
    | (pred_numero, pred_data) :: rest =>
      let r := verify_step (r_offset w) game_number message_text
                           pred_numero pred_data in
      let done' := done ++ [(pred_numero, new_data r)] in
      let w1 := with_edits (with_active w (done' ++ rest)) (requests r) in
      let w2 := if saves r then save_config env w1 else w1 in
      verify_loop game_number message_text done' rest w2
    end.

Definition verify_active_predictions (game_number : Z) (message_text : text)
             (w : world) : world :=
    if negb (is_finalized_message message_text) then w
    else verify_loop game_number message_text [] (active_predictions w) w.

  (** The entry that a pass leaves in place of [(k, p)]. *)
Definition step_entry (r g : Z) (t : text) (kv : Z * live_pred) : Z * live_pred :=
    (fst kv, new_data (verify_step r g t (fst kv) (snd kv))).

  (** The life of one entry under a sequence of finalized messages, each
      given with the value of [r_offset] at its arrival, its game number and
      its text. *)
Definition run_messages (msgs : list (Z * Z * text)) (k : Z) (p : live_pred)
    : live_pred :=
    fold_left
      (fun q m => new_data (verify_step (fst (fst m)) (snd (fst m)) (snd m) k q))
      msgs p.

  (** [attempts] is absent or not negative. *)
Definition attempts_nonneg (p : live_pred) : Prop :=
    match attempts p with
    | Some n => 0 <= n
    | None => True
    end.

  (** *** The trigger path of [handle_new_message] *)

Record event := {
    is_channel : bool;
    chat_id : Z;
    raw_text : text
  }.

  (** [t_value > 10.5] on the binary64 that [float()] returns for the
      decimal [t]: 10.5 is a binary64 with an even significand and the next
      one is 10.5 + 2^-49, so the rounded value exceeds 10.5 exactly when
      [t] exceeds the midpoint 10.5 + 2^-50. *)
Definition float_gt_10_5 (t : Q) : bool :=
    negb (Qle_bool t (Qmake (21 * 2 ^ 49 + 1) (2 ^ 50))).

  (** The entry that [handle_new_message] stores for a prediction it has
      just sent: it has no ["attempts"] and no ["status"] key. *)
Definition new_prediction (sent_id display : Z) (prediction_type : text)
             (prediction_text : text) (game_number : Z) (t : Q) : live_pred :=
    {| message_id := Some sent_id;
       channel_id := Some display;
       expected := prediction_type;
       base_text := prediction_text;
       source_game := game_number;
       t_value := t;
       verified := false;
       status := None;
       attempts := None |}.

Definition register (w : world) (predicted_numero : Z) (p : live_pred) : world :=
    with_active w (active_predictions w ++ [(predicted_numero, p)]).

Definition has_key (k : Z) (d : list (Z * live_pred)) : bool :=
    existsb (fun kv => fst kv =? k) d.

Definition handle_new_message (ev : event) (w : world) : world :=
    if negb (truthy (detected_stat_channel w)) then w
    else if negb (is_channel ev
                  && (chat_id ev =? get_id (detected_stat_channel w))) then w
    else
      let message_text := raw_text ev in
      let game := extract_game_number env message_text in
      if negb (truthy game) then w
      else
        let game_number := get_id game in
        let w := verify_active_predictions game_number message_text w in
        if negb (truthy (detected_display_channel w)) then w
        else if negb (is_finalized_message message_text) then w
        else if should_skip_prediction message_text then w
        else if negb (has_six_in_first_group message_text) then w
        else
          let t := extract_t_value message_text in
          if negb (Qle_bool 0 t) then w
          else
            let predicted_numero := game_number + a_offset w in
            if has_key predicted_numero (active_predictions w) then w
            else
              let '(prediction_type, prediction_text) :=
                if float_gt_10_5 t
                then (lit "joueur",
                      lit "🔵" ++ str predicted_numero ++ lit ":🅿️+6,5🔵statut :⏳")
                else (lit "banquier",
                      lit "🔵" ++ str predicted_numero ++ lit ":Ⓜ️-4,,5🔵statut :⏳") in
              let display := get_id (detected_display_channel w) in
              match send_message env display prediction_text with
              | Some sent_id =>
                save_config env
                  (register w predicted_numero
                     (new_prediction sent_id display prediction_type
                                     prediction_text game_number t))
              | None => w
              end.

  (** *** The [/r] command *)

Inductive reply :=
  | NotAdministrator
  | InvalidValue
  | Updated (r : Z)
  | Current (r : Z).

  (** [set_r_offset]: [new_value] is [match.group(1)], the digits after
      [/r] when there are some.  The new state and the kind of answer
      handed to [event.respond]; the state is settled before the answer is
      sent. *)
Definition set_r_offset (ADMIN_ID : option Z) (sender_id : Z)
             (new_value : option text) (w : world) : world * reply :=
    if truthy ADMIN_ID && negb (sender_id =? get_id ADMIN_ID)
    then (w, NotAdministrator)
    else
      match new_value with
      | Some (d :: ds) =>
        let value := int_of (d :: ds) in
        if (value <? 0) || (value >? 10) then (w, InvalidValue)
        else (save_config env (with_r_offset w value), Updated value)
      | _ => (w, Current (r_offset w))
      end.
End LiveTracker.

(** *** The driver of the imported-schedule tracker *)

Section ExcelDriver.
Context {U : Unicode}.
Variable env : collaborators.

Definition set_verified (p : ExcelImporter.excel_pred) (v : bool)
    : ExcelImporter.excel_pred :=
    {| ExcelImporter.numero := ExcelImporter.numero p;
       ExcelImporter.date_heure := ExcelImporter.date_heure p;
       ExcelImporter.victoire := ExcelImporter.victoire p;
       ExcelImporter.launched := ExcelImporter.launched p;
       ExcelImporter.message_id := ExcelImporter.message_id p;
       ExcelImporter.chat_id := ExcelImporter.chat_id p;
       ExcelImporter.channel_id := ExcelImporter.channel_id p;
       ExcelImporter.current_offset := ExcelImporter.current_offset p;
       ExcelImporter.verified := v;
       ExcelImporter.skipped_consecutive := ExcelImporter.skipped_consecutive p |}.

Definition set_current_offset (p : ExcelImporter.excel_pred) (n : Z)
    : ExcelImporter.excel_pred :=
    {| ExcelImporter.numero := ExcelImporter.numero p;
       ExcelImporter.date_heure := ExcelImporter.date_heure p;
       ExcelImporter.victoire := ExcelImporter.victoire p;
       ExcelImporter.launched := ExcelImporter.launched p;
       ExcelImporter.message_id := ExcelImporter.message_id p;
       ExcelImporter.chat_id := ExcelImporter.chat_id p;
       ExcelImporter.channel_id := ExcelImporter.channel_id p;
       ExcelImporter.current_offset := Some n;
       ExcelImporter.verified := ExcelImporter.verified p;
       ExcelImporter.skipped_consecutive := ExcelImporter.skipped_consecutive p |}.

  (** [update_prediction_status]: the entry afterwards and the edit request
      made, if any.  The entry is marked only after the edit went through. *)
Definition update_prediction_status (pred : ExcelImporter.excel_pred)
             (numero : Z) (winner : text) (status : text) (verified : bool)
    : ExcelImporter.excel_pred * list edit_request :=
    let msg_id := ExcelImporter.message_id pred in
    let chan_id := ExcelImporter.channel_id pred in
    if truthy msg_id && truthy chan_id then
      let full_base_text_with_placeholder :=
        ExcelImporter.get_prediction_format numero winner in
      let base_format :=
        rsplit1_head full_base_text_with_placeholder PENDING_TOKEN in
      let new_text := base_format ++ lit "statut :" ++ status in
      let req := (get_id chan_id, get_id msg_id, new_text) in
      if edit_message env (get_id chan_id) (get_id msg_id) new_text
      then (set_verified pred verified, [req])
      else (pred, [req])
    else (pred, []).

  (** [while current_offset <= 2 and game_number > pred_numero +
      current_offset: current_offset += 1], run for at most [fuel] turns. *)
Fixpoint skip_loop (fuel : nat) (game_number pred_numero current_offset : Z) : Z :=
    match fuel with
    | O => current_offset
    | S f =>
      if (current_offset <=? 2) && (game_number >? pred_numero + current_offset)
      then skip_loop f game_number pred_numero (current_offset + 1)
      else current_offset
    end.

  (** The loop stops once [current_offset] is 3, so [3 - current_offset]
      turns are enough (see [skip_loop_exits]). *)
Definition skip_fuel (current_offset : Z) : nat := Z.to_nat (3 - current_offset).

  (** The part of the loop body of [verify_excel_predictions] after the
      jump detection. *)
Definition excel_check (game_number : Z) (message_text : text)
             (pred : ExcelImporter.excel_pred) (current_offset : Z)
    : ExcelImporter.excel_pred * list edit_request :=
    let pred_numero := ExcelImporter.numero pred in
    let expected_winner := ExcelImporter.victoire pred in
    let '(status, should_continue) :=
      ExcelImporter.verify_excel_prediction
        game_number message_text pred_numero expected_winner current_offset in
    match status with
    | Some (c :: s) =>
      update_prediction_status pred pred_numero expected_winner (c :: s) true
    | _ =>
      if should_continue && (game_number =? pred_numero + current_offset) then
        let new_offset := current_offset + 1 in
        if new_offset <=? 2 then (set_current_offset pred new_offset, [])
        else update_prediction_status pred pred_numero expected_winner
                                      ExcelImporter.FAILED true
      else (pred, [])
    end.

  (** One turn of the loop of [verify_excel_predictions]. *)
Definition excel_step (game_number : Z) (message_text : text)
             (pred : ExcelImporter.excel_pred)
    : ExcelImporter.excel_pred * list edit_request :=
    if negb (ExcelImporter.launched pred) || ExcelImporter.verified pred
    then (pred, [])
    else
      let pred_numero := ExcelImporter.numero pred in
      let expected_winner := ExcelImporter.victoire pred in
      let current_offset :=
        match ExcelImporter.current_offset pred with Some n => n | None => 0 end in
      let target_number := pred_numero + current_offset in
      if game_number >? target_number then
        let current_offset :=
          skip_loop (skip_fuel current_offset) game_number pred_numero
                    current_offset in
        if current_offset >? 2
        then update_prediction_status pred pred_numero expected_winner
                                      ExcelImporter.FAILED true
        else excel_check game_number message_text
                         (set_current_offset pred current_offset) current_offset
      else excel_check game_number message_text pred current_offset.

Fixpoint excel_loop (game_number : Z) (message_text : text)
           (items : ExcelImporter.dict ExcelImporter.excel_pred)
    : ExcelImporter.dict ExcelImporter.excel_pred * list edit_request :=
    match items with
    | [] => ([], [])
    | (key, pred) :: rest =>
      let '(pred', reqs) := excel_step game_number message_text pred in
      let '(rest', reqs') := excel_loop game_number message_text rest in
      ((key, pred') :: rest', reqs ++ reqs')
    end.

Definition verify_excel_predictions (game_number : Z) (message_text : text)
             (w : world) : world :=
    let '(items, reqs) :=
      excel_loop game_number message_text
                 (ExcelImporter.predictions (excel_manager w)) in
    with_edits
      (with_excel w
         {| ExcelImporter.predictions := items;
            ExcelImporter.last_launched_numero :=
              ExcelImporter.last_launched_numero (excel_manager w) |})
      reqs.
End ExcelDriver.

(** The type and the text of the prediction that [handle_new_message]
    sends for the metric [t]. *)
Definition prediction_of (predicted_numero : Z) (t : Q) : text * text :=
  if float_gt_10_5 t
  then (lit "joueur",
        lit "🔵" ++ str predicted_numero ++ lit ":🅿️+6,5🔵statut :⏳")
  else (lit "banquier",
        lit "🔵" ++ str predicted_numero ++ lit ":Ⓜ️-4,,5🔵statut :⏳").

(** [pred_data.get("attempts", 0)]. *)
Definition attempts_done (p : live_pred) : Z :=
  match attempts p with Some n => n | None => 0 end.

(** The configuration file holds the state in memory. *)
Definition in_sync (w : world) : Prop := config_file w = Some (snapshot w).

(** The marks of the two prediction texts, between the number and the
    status. *)
Definition JOUEUR_MARK : text := lit ":🅿️+6,5🔵".
Definition BANQUIER_MARK : text := lit ":Ⓜ️-4,,5🔵".

(** [pred.get("current_offset", 0)]. *)
Definition stored_offset (p : ExcelImporter.excel_pred) : Z :=
  match ExcelImporter.current_offset p with Some n => n | None => 0 end.

(** Two entries that differ at most by [verified], [current_offset] and
    the fields that no pass reads. *)
Definition same_identity (p p' : ExcelImporter.excel_pred) : Prop :=
  ExcelImporter.numero p' = ExcelImporter.numero p
  /\ ExcelImporter.victoire p' = ExcelImporter.victoire p
  /\ ExcelImporter.launched p' = ExcelImporter.launched p
  /\ ExcelImporter.message_id p' = ExcelImporter.message_id p
  /\ ExcelImporter.channel_id p' = ExcelImporter.channel_id p.

(** The mark that [get_prediction_format] chooses for a winner. *)
Definition mark_of `{U : Unicode} (victoire : text) : text :=
  if contains (lit "joueur") (lower victoire)
     || contains (lit "player") (lower victoire)
  then JOUEUR_MARK
  else if contains (lit "banquier") (lower victoire)
          || contains (lit "banker") (lower victoire)
  then BANQUIER_MARK
  else JOUEUR_MARK.

(** *** Other commands *)

Definition with_a_offset (w : world) (value : Z) : world :=
  {| detected_stat_channel := detected_stat_channel w;
     detected_display_channel := detected_display_channel w;
     a_offset := value;
     r_offset := r_offset w;
     active_predictions := active_predictions w;
     excel_manager := excel_manager w;
     config_file := config_file w;
     edits := edits w |}.

Definition with_display_channel (w : world) (c : option Z) : world :=
  {| detected_stat_channel := detected_stat_channel w;
     detected_display_channel := c;
     a_offset := a_offset w;
     r_offset := r_offset w;
     active_predictions := active_predictions w;
     excel_manager := excel_manager w;
     config_file := config_file w;
     edits := edits w |}.

Section Commands.
Context {U : Unicode}.
Variable env : collaborators.

(** [set_a_offset]: [new_value] is [match.group(1)] of [/a\s*(\d+)?].  There
    is no range check. *)
Definition set_a_offset (ADMIN_ID : option Z) (sender_id : Z)
           (new_value : option text) (w : world) : world * reply :=
  if truthy ADMIN_ID && negb (sender_id =? get_id ADMIN_ID)
  then (w, NotAdministrator)
  else
    match new_value with
    | Some (d :: ds) =>
      let value := int_of (d :: ds) in
      (save_config env (with_a_offset w value), Updated value)
    | _ => (w, Current (a_offset w))
    end.

(** [load_config]: the JSON file is read when it exists; otherwise, [db]
    being [None], only the display channel is set, to the [DISPLAY_CHANNEL]
    of the environment. *)
Definition load_config (DISPLAY_CHANNEL : Z) (w : world) : world :=
  match config_file w with
  | Some c =>
    {| detected_stat_channel := saved_stat_channel c;
       detected_display_channel := saved_display_channel c;
       a_offset := saved_a_offset c;
       r_offset := saved_r_offset c;
       active_predictions := saved_active_predictions c;
       excel_manager := excel_manager w;
       config_file := config_file w;
       edits := edits w |}
  | None => with_display_channel w (Some DISPLAY_CHANNEL)
  end.
End Commands.

End Main.

(** ** yaml_manager.py: the configuration store *)

Module YamlManager.

Section Database.
Variable V : Type.

(** [YamlDatabase.data]: a dict whose ["config"] entry is a dict.
    [save_data] writes it to the file and changes nothing in memory. *)
Record YamlDatabase := {
  data : ExcelImporter.dict (ExcelImporter.dict V)
}.

Definition CONFIG : text := lit "config".

(** [self.data.get('config', {}).get(key)] *)
Definition get_config (self : YamlDatabase) (key : text) : option V :=
  match ExcelImporter.dict_get CONFIG (data self) with
  | Some config => ExcelImporter.dict_get key config
  | None => None
  end.

Definition set_config (self : YamlDatabase) (key : text) (value : V)
  : YamlDatabase :=
  let data1 :=
    match ExcelImporter.dict_get CONFIG (data self) with
    | Some _ => data self
    | None => ExcelImporter.dict_set CONFIG [] (data self)
    end in
  match ExcelImporter.dict_get CONFIG data1 with
  | Some config =>
    {| data := ExcelImporter.dict_set CONFIG
                 (ExcelImporter.dict_set key value config) data1 |}
  | None => {| data := data1 |}
  end.

Definition reset_all_data (self : YamlDatabase) : YamlDatabase :=
  {| data := [] |}.
End Database.

End YamlManager.

(** ** The scenario of the specification *)

Module Scenario.
Import Main.

(** Modelled from the spec: [predictor.extract_game_number], whose module
    [predictor] is not among the sources.  The spec asks for the leading
    numeric token of the game-number pattern; the messages of the source
    channel write it [#N<digits>]. *)
Definition extract_game_number_spec (message_text : text) : option Z :=
  match search (Cat (Chr 35%N) (Cat (Chr 78%N) (Group (Plus ascii_is_decimal))))
               message_text with
  | Some (g :: _) => Some (int_of g)
  | _ => None
  end.

(** A transport that accepts every call, the sent message getting id 5001,
    and a writable configuration file. *)
Definition env_ok : collaborators :=
  {| edit_message := fun _ _ _ => true;
     send_message := fun _ _ => Some 5001;
     config_writable := true;
     extract_game_number := extract_game_number_spec |}.

(** The same with a transport whose edits raise. *)
Definition env_edit_fails : collaborators :=
  {| edit_message := fun _ _ _ => false;
     send_message := fun _ _ => Some 5001;
     config_writable := true;
     extract_game_number := extract_game_number_spec |}.

Definition stat_channel : Z := -1001.
Definition display_channel : Z := -1002.

(** Both channels configured, [a_offset = 1], [r_offset = 2], nothing
    registered. *)
Definition world0 : world :=
  {| detected_stat_channel := Some stat_channel;
     detected_display_channel := Some display_channel;
     a_offset := 1;
     r_offset := 2;
     active_predictions := [];
     excel_manager :=
       {| ExcelImporter.predictions := [];
          ExcelImporter.last_launched_numero := None |};
     config_file := None;
     edits := [] |}.

Definition from_source (t : text) : event :=
  {| is_channel := true; chat_id := stat_channel; raw_text := t |}.

Definition msg_881 : text := lit "#N881. 6(A♠6♠) ✅ 7(3♦4♣) #T12 ".
Definition msg_881_total7 : text := lit "#N881. 7(A♠6♠) ✅ 7(3♦4♣) #T12 ".
Definition msg_882_point8 : text := lit "#N882. 8(K♠8♠) ✅ 5(2♦3♣) #T13 ".
Definition msg_883_point8 : text := lit "#N883. 8(K♠8♠) ✅ 5(2♦3♣) #T13 ".
Definition msg_884_point3 : text := lit "#N884. 3(K♠3♠) ✅ 5(2♦3♣) #T8 ".

(** The entry registered for 882 from [msg_881_total7]. *)
Definition pred_882 : live_pred :=
  new_prediction 5001 display_channel (lit "joueur")
                 (lit "🔵882:🅿️+6,5🔵statut :⏳") 881 (12 # 1).

(** An imported prediction for 100, launched, at offset 0. *)
Definition excel_100 : ExcelImporter.excel_pred :=
  {| ExcelImporter.numero := 100;
     ExcelImporter.date_heure := lit "2025-01-01 10:00:00";
     ExcelImporter.victoire := lit "Joueur";
     ExcelImporter.launched := true;
     ExcelImporter.message_id := Some 7001;
     ExcelImporter.chat_id := None;
     ExcelImporter.channel_id := Some display_channel;
     ExcelImporter.current_offset := Some 0;
     ExcelImporter.verified := false;
     ExcelImporter.skipped_consecutive := false |}.

Definition msg_100_no_point : text := lit "#N100. ✅".
Definition msg_100_point8 : text := lit "#N100. ✅8(K♠8♠) - 5(2♦3♣) #T13".
Definition msg_103 : text := lit "#N103. ✅9(K♠9♠) - 5(2♦3♣) #T14".

(** The sheet with the identifiers 56, 57, 59, 60, 61. *)
Definition sheet_row (n : Z) : ExcelImporter.row :=
  {| ExcelImporter.cell_date := Some (lit "2025-01-01 10:00:00");
     ExcelImporter.cell_numero := Some n;
     ExcelImporter.cell_victoire := Some (lit "Joueur") |}.

Definition sheet : list ExcelImporter.row := map sheet_row [56; 57; 59; 60; 61].

Definition empty_manager : ExcelImporter.manager :=
  {| ExcelImporter.predictions := [];
     ExcelImporter.last_launched_numero := None |}.

(** Not launched entries for the given identifiers, the last launched
    number being [last]. *)
Definition pending (n : Z) : text * ExcelImporter.excel_pred :=
  (str n,
   {| ExcelImporter.numero := n;
      ExcelImporter.date_heure := lit "2025-01-01 10:00:00";
      ExcelImporter.victoire := lit "Joueur";
      ExcelImporter.launched := false;
      ExcelImporter.message_id := None;
      ExcelImporter.chat_id := None;
      ExcelImporter.channel_id := None;
      ExcelImporter.current_offset := None;
      ExcelImporter.verified := false;
      ExcelImporter.skipped_consecutive := false |}).

Definition manager_after (last : Z) (ns : list Z) : ExcelImporter.manager :=
  {| ExcelImporter.predictions := map pending ns;
     ExcelImporter.last_launched_numero := Some last |}.

End Scenario.

(** * Properties *)

Import Main.

(** ** The live tracker: what one pass does to each entry *)

Section LiveFacts.
Context {U : Unicode}.
Variable env : collaborators.

Lemma save_config_active (w : world) :
    active_predictions (save_config env w) = active_predictions w.
  Proof. unfold save_config; destruct (config_writable env); reflexivity. Qed.

Lemma save_config_r_offset (w : world) :
    r_offset (save_config env w) = r_offset w.
  Proof. unfold save_config; destruct (config_writable env); reflexivity. Qed.

Lemma save_config_edits (w : world) :
    edits (save_config env w) = edits w.
  Proof. unfold save_config; destruct (config_writable env); reflexivity. Qed.

  (** The loop treats the entries one by one, each by [verify_step]. *)
Lemma verify_loop_active (g : Z) (t : text) :
    forall todo done w,
      active_predictions w = done ++ todo ->
      active_predictions (verify_loop env g t done todo w)
      = done ++ map (step_entry env (r_offset w) g t) todo.
  Proof.
    induction todo as [| [k p] rest IH]; intros done w Hw; simpl.
    - now rewrite app_nil_r in *.
    - set (r := verify_step env (r_offset w) g t k p).
      set (w1 := with_edits (with_active w ((done ++ [(k, new_data r)]) ++ rest))
                            (requests r)).
      assert (Ha : active_predictions (if saves r then save_config env w1 else w1)
                   = (done ++ [(k, new_data r)]) ++ rest).
      { destruct (saves r); [rewrite save_config_active |]; reflexivity. }
      assert (Hr : r_offset (if saves r then save_config env w1 else w1)
                   = r_offset w).
      { destruct (saves r); [rewrite save_config_r_offset |]; reflexivity. }
      rewrite (IH _ _ Ha), Hr, <- app_assoc. reflexivity.
  Qed.

Lemma verify_pass_active (g : Z) (t : text) (w : world) :
    is_finalized_message t = true ->
    active_predictions (verify_active_predictions env g t w)
    = map (step_entry env (r_offset w) g t) (active_predictions w).
  Proof.
    intros Hf. unfold verify_active_predictions. rewrite Hf. simpl.
    now rewrite (verify_loop_active g t (active_predictions w) [] w).
  Qed.

  (** A verified entry is skipped. *)
Lemma verify_step_verified (r g : Z) (t : text) (k : Z) (p : live_pred) :
    verified p = true -> verify_step env r g t k p = unchanged p.
  Proof. intros H. unfold verify_step. now rewrite H. Qed.

  (** A message for the predicted number itself is never evaluated. *)
Lemma verify_step_at_target (r : Z) (t : text) (k : Z) (p : live_pred) :
    0 <= r -> attempts_nonneg p ->
    verify_step env r k t k p = unchanged p.
  Proof.
    intros Hr Hp. unfold verify_step.
    destruct (verified p); [reflexivity |].
    rewrite Z.ltb_irrefl, Z.sub_diag.
    destruct (0 >? r) eqn:E; [lia |].
    unfold attempts_nonneg in Hp.
    destruct (attempts p) as [n |].
    - destruct (0 >? n) eqn:E'; [lia | reflexivity].
    - reflexivity.
  Qed.

Lemma verify_step_attempts_nonneg (r g : Z) (t : text) (k : Z) (p : live_pred) :
    0 <= r -> attempts_nonneg p ->
    attempts_nonneg (new_data (verify_step env r g t k p)).
  Proof.
    intros Hr Hp. unfold verify_step.
    destruct (verified p); [exact Hp |].
    destruct (g <? k) eqn:Hlt; [exact Hp |].
    destruct (g - k >? r) eqn:Hexp.
    { unfold attempts_nonneg; simpl; lia. }
    assert (Hd : 0 <= match attempts p with Some n => n | None => 0 end).
    { unfold attempts_nonneg in Hp. destruct (attempts p); lia. }
    destruct (g - k >? match attempts p with Some n => n | None => 0 end) eqn:Hnew;
      [| exact Hp].
    destruct (negb (truthy (message_id p)) || negb (truthy (channel_id p)));
      [exact Hp |].
    destruct (ExcelImporter.extract_points_and_winner t) as [pt |]; [| exact Hp].
    assert (Hs : attempts_nonneg (set_attempts p (g - k))).
    { unfold attempts_nonneg; simpl; lia. }
    repeat match goal with
           | |- context [if ?b then _ else _] => destruct b
           end; simpl; exact Hs.
  Qed.
End LiveFacts.

(** ** Status tokens *)

Lemma digits_of_pos_ascii (fuel : nat) :
  forall n acc,
    Forall (fun c => (c <= 57)%N) acc ->
    Forall (fun c => (c <= 57)%N) (digits_of_pos fuel n acc).
Proof.
  induction fuel as [| f IH]; intros n acc Hacc; simpl; [exact Hacc |].
  assert (Hd : (Z.to_N (48 + n mod 10) <= 57)%N).
  { pose proof (Z.mod_pos_bound n 10 ltac:(lia)). lia. }
  destruct (n / 10 =? 0); [| apply IH]; constructor; assumption.
Qed.

Lemma str_ascii (n : Z) : Forall (fun c => (c <= 57)%N) (str n).
Proof.
  unfold str, str_of_nonneg.
  destruct (n <? 0); [constructor; [lia |] |]; apply digits_of_pos_ascii; constructor.
Qed.

(** The token of attempt index 0 is the token of no other index. *)
Lemma status_emoji_of_zero (n : Z) :
  n <> 0 -> status_emoji_of n <> status_emoji_of 0.
Proof.
  intros Hn. unfold status_emoji_of at 1.
  unfold VERIFICATION_EMOJIS, table_get.
  repeat match goal with
         | |- context [n =? ?c] =>
           destruct (Z.eqb_spec n c);
             [first [contradiction | subst n; vm_compute; discriminate] |]
         end.
  change (status_emoji_of 0) with [9989%N; 48%N; 65039%N; 8419%N].
  change (lit "✅") with [9989%N]. simpl. intros E.
  pose proof (str_ascii n) as Hs.
  injection E as E. rewrite E in Hs.
  inversion Hs as [| ? ? _ Hs1]; inversion Hs1 as [| ? ? Hbad _]. lia.
Qed.

Lemma failed_not_success0 : Main.FAILED <> status_emoji_of 0.
Proof. vm_compute. discriminate. Qed.

Section LiveStatus.
Context {U : Unicode}.
Variable env : collaborators.

(** The status that one step can leave: the one that was there, the failure
    token, or the success token of an offset above [attempts], hence above
    0. *)
Lemma verify_step_status (r g : Z) (t : text) (k : Z) (p : live_pred) :
  attempts_nonneg p ->
  let q := new_data (verify_step env r g t k p) in
  status q = status p
  \/ status q = Some Main.FAILED
  \/ exists n, 0 < n /\ status q = Some (status_emoji_of n).
Proof.
  intros Hp q. subst q. unfold verify_step.
  destruct (verified p); [now left |].
  destruct (g <? k); [now left |].
  destruct (g - k >? r); [right; left; reflexivity |].
  assert (Hd : 0 <= match attempts p with Some n => n | None => 0 end).
  { unfold attempts_nonneg in Hp. destruct (attempts p); lia. }
  destruct (g - k >? match attempts p with Some n => n | None => 0 end) eqn:Hnew;
    [| now left].
  destruct (negb (truthy (message_id p)) || negb (truthy (channel_id p)));
    [now left |].
  destruct (ExcelImporter.extract_points_and_winner t) as [pt |]; [| now left].
  match goal with
  | |- context [if ?b then _ else if (g - k >=? r) then _ else _] => destruct b
  end.
  - match goal with
    | |- context [if ?b then _ else _] => destruct b
    end; simpl; [right; right; exists (g - k); split; [lia | reflexivity] | now left].
  - destruct (g - k >=? r); [| now left].
    match goal with
    | |- context [if ?b then _ else _] => destruct b
    end; simpl; [right; left; reflexivity | now left].
Qed.

(** No sequence of messages brings a new entry to the success token of
    attempt index 0. *)
Lemma run_messages_invariant (k : Z) :
  forall msgs p,
    Forall (fun m => 0 <= fst (fst m)) msgs ->
    attempts_nonneg p ->
    status p <> Some (status_emoji_of 0) ->
    attempts_nonneg (run_messages env msgs k p)
    /\ status (run_messages env msgs k p) <> Some (status_emoji_of 0).
Proof.
  induction msgs as [| [[r g] t] msgs IH]; intros p Hall Hp Hs; [now split |].
  inversion Hall as [| ? ? Hr Hall']; subst. simpl in Hr.
  unfold run_messages. simpl. apply IH; [assumption | |].
  - now apply verify_step_attempts_nonneg.
  - pose proof (verify_step_status r g t k p Hp) as Hst. simpl in Hst.
    destruct Hst as [E | [E | (n & Hn & E)]]; rewrite E.
    + exact Hs.
    + intros E'; injection E' as E'. now apply failed_not_success0.
    + intros E'; injection E' as E'. apply (status_emoji_of_zero n); [lia | exact E'].
Qed.
End LiveStatus.

(** ** C1: the end-to-end scenario *)

(** C1, as stated, fails on the code: for the text
    ["#N881. 6(A♠6♠) ✅ 7(3♦4♣) #T12 "] with [a_offset = 1] and nothing
    registered, [handle_new_message] registers no prediction for 882; and an
    entry for 882 expecting joueur is not brought to the success token of
    attempt index 0 by a finalized message for 882 whose first-group point
    is 8. *)
Lemma scenario_881_as_stated_fails :
  ~ (exists p,
        In (882, p)
           (active_predictions
              (handle_new_message Scenario.env_ok
                 (Scenario.from_source Scenario.msg_881) Scenario.world0))
        /\ expected p = lit "joueur")
  /\ status (new_data (verify_step Scenario.env_ok 2 882 Scenario.msg_882_point8
                                   882 Scenario.pred_882))
     <> Some (status_emoji_of 0).
Proof.
  split.
  - intros (p & Hin & _). vm_compute in Hin. exact Hin.
  - vm_compute. discriminate.
Qed.

(** C1, amended: the text of the scenario is skipped by the trigger policy,
    because its first group has total 6 and holds a card of rank 6, and
    [handle_new_message] leaves the state as it was; the text that differs
    from it only by a first-group total of 7 makes [handle_new_message]
    register one live prediction, for 882 (881 + [a_offset]), expecting
    joueur because the metric 12 exceeds 10.5. *)
Theorem scenario_881_trigger_policy :
  get_first_group_total Scenario.msg_881 = 6
  /\ has_six_in_first_group Scenario.msg_881 = true
  /\ should_skip_prediction Scenario.msg_881 = true
  /\ handle_new_message Scenario.env_ok (Scenario.from_source Scenario.msg_881)
                        Scenario.world0
     = Scenario.world0
  /\ should_skip_prediction Scenario.msg_881_total7 = false
  /\ float_gt_10_5 (extract_t_value Scenario.msg_881_total7) = true
  /\ active_predictions
       (handle_new_message Scenario.env_ok
          (Scenario.from_source Scenario.msg_881_total7) Scenario.world0)
     = [(882, Scenario.pred_882)]
  /\ expected Scenario.pred_882 = lit "joueur"
  /\ verified Scenario.pred_882 = false.
Proof. repeat apply conj; vm_compute; reflexivity. Qed.

(** ** C3: an edit that raises *)

(** The expiry path marks the entry whatever the transport does: the edit
    is tried inside its own [try], the entry is marked after it. *)
Lemma expiry_ignores_edit_failure `{U : Unicode} (env : collaborators)
      (r g : Z) (t : text) (k : Z) (p : live_pred) :
  verified p = false -> k <= g -> r < g - k ->
  let s := verify_step env r g t k p in
  verified (new_data s) = true
  /\ status (new_data s) = Some Main.FAILED
  /\ saves s = true.
Proof.
  intros Hv Hk Hr. unfold verify_step. rewrite Hv.
  destruct (g <? k) eqn:E; [lia |].
  destruct (g - k >? r) eqn:E'; [| lia].
  simpl. repeat split.
Qed.

(** C3 at a failing input: the entry for 882 expecting joueur, with
    [r_offset = 2], receives the finalized message of game 883 whose
    first-group point is 8, and the edit raises.  The pass decides a success
    at offset 1 (it asks for the status [✅1️⃣]), yet the entry ends the pass
    not verified, without status, with [attempts = 1], and nothing is
    written to the configuration file; with a working transport the same
    pass records the success.  The entry is then evaluated again: a message
    of game 884 with point 3 turns it into a failure. *)
Theorem edit_failure_loses_decided_success :
  let w := with_active Scenario.world0 [(882, Scenario.pred_882)] in
  let w' := verify_active_predictions Scenario.env_edit_fails 883
                                      Scenario.msg_883_point8 w in
  edits w' = [(Scenario.display_channel, 5001, lit "🔵882:🅿️+6,5🔵statut :✅1️⃣")]
  /\ active_predictions w' = [(882, set_attempts Scenario.pred_882 1)]
  /\ verified (set_attempts Scenario.pred_882 1) = false
  /\ status (set_attempts Scenario.pred_882 1) = None
  /\ config_file w' = None
  /\ active_predictions
       (verify_active_predictions Scenario.env_ok 883 Scenario.msg_883_point8 w)
     = [(882, set_terminal (set_attempts Scenario.pred_882 1) (status_emoji_of 1))]
  /\ active_predictions
       (verify_active_predictions Scenario.env_ok 884 Scenario.msg_884_point3 w')
     = [(882, set_terminal (set_attempts Scenario.pred_882 2) Main.FAILED)].
Proof. repeat apply conj; vm_compute; reflexivity. Qed.

(** ** C10: offset 0 in the live tracker *)

(** C10: a newly registered entry has no [attempts]; for every entry whose
    [attempts] is absent or not negative and every [r_offset >= 0], a
    message for the predicted number itself leaves the entry as it is, asks
    for no edit and saves nothing, whatever its text; no sequence of
    messages brings a newly registered entry to the success token of attempt
    index 0; and offset 1 is evaluated: a first-group point of at least 7 at
    the predicted number plus one resolves a new joueur entry to the token
    of index 1 when the edit goes through. *)
Theorem live_offset_zero_never_evaluated `{U : Unicode} (env : collaborators) :
  (forall sent display ty txt g t,
      attempts (new_prediction sent display ty txt g t) = None)
  /\ (forall r t k p,
         0 <= r -> attempts_nonneg p ->
         verify_step env r k t k p = unchanged p)
  /\ (forall msgs k sent display ty txt g t,
         Forall (fun m => 0 <= fst (fst m)) msgs ->
         status (run_messages env msgs k (new_prediction sent display ty txt g t))
         <> Some (status_emoji_of 0))
  /\ (forall r t k sent display txt g tv pt,
         1 <= r -> sent <> 0 -> display <> 0 ->
         ExcelImporter.extract_points_and_winner t = Some pt -> 7 <= pt ->
         edit_message env display sent
                      (replace txt PENDING_TOKEN (lit "statut :" ++ status_emoji_of 1))
         = true ->
         status (new_data (verify_step env r (k + 1) t k
                             (new_prediction sent display (lit "joueur") txt g tv)))
         = Some (status_emoji_of 1)).
Proof.
  split; [reflexivity |].
  split; [intros; now apply verify_step_at_target |].
  split.
  - intros msgs k sent display ty txt g t Hall.
    apply (run_messages_invariant env k msgs); [assumption | exact I |].
    simpl. discriminate.
  - intros r t k sent display txt g tv pt Hr Hs Hd He Hpt Hedit.
    unfold verify_step, new_prediction.
    cbn [verified attempts message_id channel_id expected base_text
         set_attempts set_terminal truthy get_id].
    destruct (k + 1 <? k) eqn:E1; [lia |].
    replace (k + 1 - k) with 1 by lia.
    destruct (1 >? r) eqn:E2; [lia |].
    change (1 >? 0) with true. cbv iota.
    destruct (sent =? 0) eqn:E3; [lia |].
    destruct (display =? 0) eqn:E4; [lia |].
    cbn [negb orb]. rewrite He.
    change (text_eqb (lit "joueur") (lit "joueur")) with true. cbv iota.
    destruct (2 * pt >? 13) eqn:E5; [| lia].
    rewrite Hedit. reflexivity.
Qed.

Lemma live_offset_zero_never_evaluated_witness :
  verify_step Scenario.env_ok 2 882 Scenario.msg_882_point8 882 Scenario.pred_882
  = unchanged Scenario.pred_882
  /\ status (run_messages Scenario.env_ok
               [(2, 882, Scenario.msg_882_point8); (2, 883, Scenario.msg_883_point8)]
               882 Scenario.pred_882)
     <> Some (status_emoji_of 0)
  /\ status (new_data (verify_step Scenario.env_ok 2 (882 + 1)
                                   Scenario.msg_883_point8 882 Scenario.pred_882))
     = Some (status_emoji_of 1).
Proof.
  destruct (live_offset_zero_never_evaluated Scenario.env_ok)
    as (_ & Hnoop & Hnever & Hone).
  split; [| split].
  - apply Hnoop; [lia | exact I].
  - apply (Hnever [(2, 882, Scenario.msg_882_point8); (2, 883, Scenario.msg_883_point8)]
                  882 5001 Scenario.display_channel (lit "joueur")
                  (lit "🔵882:🅿️+6,5🔵statut :⏳") 881 (12 # 1)).
    repeat constructor; simpl; lia.
  - apply (Hone 2 Scenario.msg_883_point8 882 5001 Scenario.display_channel
                (lit "🔵882:🅿️+6,5🔵statut :⏳") 881 (12 # 1) 8);
      [lia | lia | unfold Scenario.display_channel; lia
       | vm_compute; reflexivity | lia | reflexivity].
Defined.

(** ** The imported-schedule tracker *)

(** The jump loop always leaves through its test: [skip_fuel] turns are
    enough. *)
Lemma skip_loop_exits (g pn : Z) :
  forall fuel off,
    (Z.to_nat (3 - off) <= fuel)%nat ->
    let r := skip_loop fuel g pn off in
    (r <=? 2) && (g >? pn + r) = false.
Proof.
  induction fuel as [| f IH]; intros off Hf; simpl.
  - destruct (off <=? 2) eqn:E; [lia | reflexivity].
  - destruct ((off <=? 2) && (g >? pn + off)) eqn:E; [| exact E].
    apply IH. apply andb_prop in E. lia.
Qed.

(** At the target, [verify_excel_prediction] reaches the extraction as soon
    as the message is finalized and not in edit. *)
Lemma verify_excel_prediction_at_target `{U : Unicode}
      (g : Z) (t : text) (pn : Z) (w : text) (off : Z) :
  0 <= g - pn <= 2 ->
  ExcelImporter.in_edit t = false ->
  ExcelImporter.finalized t = true ->
  ExcelImporter.verify_excel_prediction g t pn w off
  = match ExcelImporter.extract_points_and_winner t with
    | None =>
      if contains ExcelImporter.CONFIRMED t
         && negb (contains ExcelImporter.ALT_CONFIRMED t)
      then (Some ExcelImporter.FAILED, false)
      else (None, true)
    | Some joueur_point =>
      if match ExcelImporter.expected_of w with
         | ExcelImporter.joueur => joueur_point >=? 7
         | ExcelImporter.banquier => joueur_point <=? 4
         end
      then (Some (if g - pn =? 0 then ExcelImporter.OK0
                  else if g - pn =? 1 then ExcelImporter.OK1
                  else ExcelImporter.OK2), false)
      else if g - pn <? 2 then (None, true)
           else (Some ExcelImporter.FAILED, false)
    end.
Proof.
  intros Hr He Hf. unfold ExcelImporter.verify_excel_prediction.
  unfold ExcelImporter.in_edit in He. unfold ExcelImporter.finalized in Hf.
  destruct (g - pn <? 0) eqn:E1; [lia |].
  destruct (g - pn >? 2) eqn:E2; [lia |].
  assert (Hoff : (if negb (off =? g - pn) then g - pn else off) = g - pn).
  { destruct (Z.eqb_spec off (g - pn)); simpl; lia. }
  rewrite Hoff.
  replace (pn + (g - pn)) with g by lia.
  rewrite Z.eqb_refl, He, Hf. cbn [negb].
  destruct (ExcelImporter.extract_points_and_winner t) as [pt |]; [| reflexivity].
  destruct (match ExcelImporter.expected_of w with
            | ExcelImporter.joueur => pt >=? 7
            | ExcelImporter.banquier => pt <=? 4
            end); [| reflexivity].
  destruct (g - pn =? 0); [reflexivity |].
  destruct (g - pn =? 1); [reflexivity |].
  destruct (g - pn =? 2); reflexivity.
Qed.

(** ** C2: parse-miss *)

(** C2, as stated, fails on the code: on the finalized text ["#N100. ✅"],
    from which no first-group point can be extracted,
    [verify_excel_prediction] returns the failure status for a prediction on
    100, and the pass marks the launched entry verified after asking for the
    status [❌]. *)
Lemma parse_miss_fails_imported_prediction :
  ExcelImporter.extract_points_and_winner Scenario.msg_100_no_point = None
  /\ ExcelImporter.verify_excel_prediction
       100 Scenario.msg_100_no_point 100 (lit "Joueur") 0
     = (Some ExcelImporter.FAILED, false)
  /\ excel_step Scenario.env_ok 100 Scenario.msg_100_no_point Scenario.excel_100
     = (set_verified Scenario.excel_100 true,
        [(Scenario.display_channel, 7001, lit "🔵100:🅿️+6,5🔵statut :❌")]).
Proof. repeat apply conj; vm_compute; reflexivity. Qed.

(** C2, amended: when no first-group point can be extracted from the
    message, the live tracker leaves an entry as it is (no edit, nothing
    saved) as long as the game number is not beyond the predicted number
    plus [r_offset]; and [verify_excel_prediction], at a game number between
    the predicted number and the predicted number plus 2, returns the
    failure status when the message is not in edit and carries [✅] without
    [🔰], and returns no status with "keep waiting" otherwise. *)
Theorem parse_miss_live_noop_imported_guard `{U : Unicode} (env : collaborators)
        (t : text) :
  ExcelImporter.extract_points_and_winner t = None ->
  (forall r g k p, g - k <= r -> verify_step env r g t k p = unchanged p)
  /\ (forall g pn w off,
         0 <= g - pn <= 2 ->
         ExcelImporter.verify_excel_prediction g t pn w off
         = if negb (ExcelImporter.in_edit t)
              && contains ExcelImporter.CONFIRMED t
              && negb (contains ExcelImporter.ALT_CONFIRMED t)
           then (Some ExcelImporter.FAILED, false)
           else (None, true)).
Proof.
  intros Hx. split.
  - intros r g k p Hr. unfold verify_step. rewrite Hx.
    destruct (verified p); [reflexivity |].
    destruct (g <? k); [reflexivity |].
    destruct (g - k >? r) eqn:E; [lia |].
    destruct (g - k >? match attempts p with Some n => n | None => 0 end);
      [| reflexivity].
    destruct (negb (truthy (message_id p)) || negb (truthy (channel_id p)));
      reflexivity.
  - intros g pn w off Hr.
    destruct (ExcelImporter.in_edit t) eqn:He.
    + unfold ExcelImporter.verify_excel_prediction.
      unfold ExcelImporter.in_edit in He.
      destruct (g - pn <? 0) eqn:E1; [lia |].
      destruct (g - pn >? 2) eqn:E2; [lia |].
      destruct (negb (g =? _)); [reflexivity |].
      rewrite He. reflexivity.
    + destruct (ExcelImporter.finalized t) eqn:Hf.
      * rewrite (verify_excel_prediction_at_target g t pn w off Hr He Hf), Hx.
        reflexivity.
      * unfold ExcelImporter.verify_excel_prediction.
        unfold ExcelImporter.in_edit in He.
        destruct (g - pn <? 0) eqn:E1; [lia |].
        destruct (g - pn >? 2) eqn:E2; [lia |].
        destruct (negb (g =? _)).
        { unfold ExcelImporter.finalized in Hf.
          apply orb_false_elim in Hf. destruct Hf as [Hc _]. rewrite Hc.
          reflexivity. }
        rewrite He.
        unfold ExcelImporter.finalized in Hf. rewrite Hf. cbn [negb].
        apply orb_false_elim in Hf. destruct Hf as [Hc _]. rewrite Hc.
        reflexivity.
Qed.

Lemma parse_miss_live_noop_imported_guard_witness :
  verify_step Scenario.env_ok 2 883 Scenario.msg_100_no_point 882 Scenario.pred_882
  = unchanged Scenario.pred_882
  /\ ExcelImporter.verify_excel_prediction 100 Scenario.msg_100_no_point 100
                                           (lit "Joueur") 0
     = (Some ExcelImporter.FAILED, false).
Proof.
  destruct (parse_miss_live_noop_imported_guard
              Scenario.env_ok Scenario.msg_100_no_point)
    as [Hlive Himp]; [vm_compute; reflexivity |].
  split.
  - apply Hlive. lia.
  - rewrite Himp; [vm_compute; reflexivity | lia].
Defined.

(** ** C4: thresholds of the imported tracker *)



(** ** C5: a jump over the whole window *)



(** ** C6: consecutive identifiers at import *)

(** C6: a row whose identifier is the last retained identifier plus one is
    dropped by the loop of [import_excel]: the imported entries and the
    comparison point [last_numero] stay as they were and only the counter of
    consecutive rows moves; and the sheet with the identifiers 56, 57, 59,
    60, 61, imported in replacement mode, yields entries for 56, 59 and 61
    only: none for 57, one for 59. *)
Theorem consecutive_dropped_at_import `{U : Unicode} :
  (forall replace_mode self st r d n v l,
      ExcelImporter.cell_date r = Some d -> d <> [] ->
      ExcelImporter.cell_numero r = Some n -> n <> 0 ->
      ExcelImporter.cell_victoire r = Some v -> v <> [] ->
      ExcelImporter.last_numero st = Some l -> n = l + 1 ->
      (replace_mode = true
       \/ match ExcelImporter.dict_get (str n) self with
          | Some q => ExcelImporter.launched q
          | None => false
          end = false) ->
      let st' := ExcelImporter.import_row replace_mode self st r in
      ExcelImporter.imp_predictions st' = ExcelImporter.imp_predictions st
      /\ ExcelImporter.last_numero st' = Some l
      /\ ExcelImporter.imported_count st' = ExcelImporter.imported_count st
      /\ ExcelImporter.consecutive_skipped st'
         = ExcelImporter.consecutive_skipped st + 1)
  /\ (let m := fst (ExcelImporter.import_excel Scenario.empty_manager
                      Scenario.sheet true) in
      ExcelImporter.dict_get (str 57) (ExcelImporter.predictions m) = None
      /\ (exists q, ExcelImporter.dict_get (str 59) (ExcelImporter.predictions m)
                    = Some q
                    /\ ExcelImporter.numero q = 59
                    /\ ExcelImporter.launched q = false)
      /\ map fst (ExcelImporter.predictions m) = [str 56; str 59; str 61]).
Proof.
  split.
  - intros replace_mode self st r d n v l Hd Hd' Hn Hn' Hv Hv' Hl He Hm st'.
    subst st'. unfold ExcelImporter.import_row.
    rewrite Hd, Hn, Hv, Hl.
    destruct d as [| c d]; [contradiction |].
    destruct v as [| c' v]; [contradiction |].
    cbn [ExcelImporter.text_truthy ExcelImporter.int_truthy negb orb].
    destruct (n =? 0) eqn:E0; [lia |]. cbn [negb orb].
    assert (Hskip : negb replace_mode
                    && match ExcelImporter.dict_get (str n) self with
                       | Some q => ExcelImporter.launched q
                       | None => false
                       end = false).
    { destruct Hm as [-> | ->]; [reflexivity | apply andb_false_r]. }
    rewrite Hskip.
    destruct (n =? l + 1) eqn:E1; [| lia].
    cbn. repeat split; assumption.
  - cbv zeta. repeat apply conj.
    + vm_compute. reflexivity.
    + eexists. split; [vm_compute; reflexivity | split; reflexivity].
    + vm_compute. reflexivity.
Qed.

Lemma consecutive_dropped_at_import_witness :
  let st := {| ExcelImporter.imp_predictions := [];
               ExcelImporter.last_numero := Some 56;
               ExcelImporter.imported_count := 1;
               ExcelImporter.skipped_count := 0;
               ExcelImporter.consecutive_skipped := 0 |} in
  let st' := ExcelImporter.import_row true [] st (Scenario.sheet_row 57) in
  ExcelImporter.imp_predictions st' = []
  /\ ExcelImporter.last_numero st' = Some 56
  /\ ExcelImporter.imported_count st' = 1
  /\ ExcelImporter.consecutive_skipped st' = 0 + 1.
Proof.
  intros st st'.
  apply (proj1 consecutive_dropped_at_import true [] st (Scenario.sheet_row 57)
               (lit "2025-01-01 10:00:00") 57 (lit "Joueur") 56);
    first [reflexivity | lia | (vm_compute; discriminate) | (left; reflexivity)].
Defined.

(** ** C7: the scan for the next prediction to launch *)

Section FindClose.
Variable last : option Z.
Variables current_number tolerance : Z.

Let loop := ExcelImporter.find_close_loop last current_number tolerance.
Let cand := ExcelImporter.candidate last current_number tolerance.

Ltac split_loops :=
  repeat match goal with
         | |- context [ExcelImporter.find_close_loop ?a ?b ?c ?d ?e ?f] =>
           destruct (ExcelImporter.find_close_loop a b c d e f)
         end.

(** One turn of the loop, seen from the entries it leaves. *)
Lemma find_close_loop_cons_fst key pred rest c m :
  fst (loop ((key, pred) :: rest) c m)
  = ExcelImporter.after_scan last current_number tolerance (key, pred)
    :: fst (loop rest
              (if cand pred
                  && match m with
                     | Some x => ExcelImporter.numero pred - current_number <? x
                     | None => true
                     end
               then Some (key, pred) else c)
              (if cand pred
                  && match m with
                     | Some x => ExcelImporter.numero pred - current_number <? x
                     | None => true
                     end
               then Some (ExcelImporter.numero pred - current_number) else m)).
Proof.
  unfold loop, cand, ExcelImporter.after_scan, ExcelImporter.suppressed,
    ExcelImporter.candidate, ExcelImporter.in_window.
  cbn [ExcelImporter.find_close_loop fst snd].
  destruct (ExcelImporter.launched pred); cbn [negb andb].
  { split_loops; reflexivity. }
  destruct ((0 <=? ExcelImporter.numero pred - current_number)
            && (ExcelImporter.numero pred - current_number <=? tolerance));
    cbn [andb]; [| split_loops; reflexivity].
  destruct (ExcelImporter.is_consecutive_to_last last (ExcelImporter.numero pred));
    cbn [negb andb]; [split_loops; reflexivity |].
  destruct (match m with
            | Some x => ExcelImporter.numero pred - current_number <? x
            | None => true
            end); split_loops; reflexivity.
Qed.

(** One turn of the loop, seen from [closest_pred] and [min_diff]. *)
Lemma find_close_loop_cons_snd key pred rest c m :
  snd (loop ((key, pred) :: rest) c m)
  = snd (loop rest
              (if cand pred
                  && match m with
                     | Some x => ExcelImporter.numero pred - current_number <? x
                     | None => true
                     end
               then Some (key, pred) else c)
              (if cand pred
                  && match m with
                     | Some x => ExcelImporter.numero pred - current_number <? x
                     | None => true
                     end
               then Some (ExcelImporter.numero pred - current_number) else m)).
Proof.
  unfold loop, cand, ExcelImporter.candidate, ExcelImporter.in_window.
  cbn [ExcelImporter.find_close_loop fst snd].
  destruct (ExcelImporter.launched pred); cbn [negb andb].
  { split_loops; reflexivity. }
  destruct ((0 <=? ExcelImporter.numero pred - current_number)
            && (ExcelImporter.numero pred - current_number <=? tolerance));
    cbn [andb]; [| split_loops; reflexivity].
  destruct (ExcelImporter.is_consecutive_to_last last (ExcelImporter.numero pred));
    cbn [negb andb]; [split_loops; reflexivity |].
  destruct (match m with
            | Some x => ExcelImporter.numero pred - current_number <? x
            | None => true
            end); split_loops; reflexivity.
Qed.

(** The scan marks the suppressed entries and touches no other. *)
Lemma find_close_loop_entries :
  forall items c m,
    fst (loop items c m)
    = map (ExcelImporter.after_scan last current_number tolerance) items.
Proof.
  induction items as [| [key pred] rest IH]; intros c m; [reflexivity |].
  rewrite find_close_loop_cons_fst, IH. reflexivity.
Qed.

(** The scan returns the candidate nearest to the current number, and none
    only if there is no candidate. *)
Lemma find_close_loop_result :
  forall items c m,
    match c, m with
    | None, None => True
    | Some (_, p0), Some x =>
      x = ExcelImporter.numero p0 - current_number /\ cand p0 = true
    | _, _ => False
    end ->
    match snd (loop items c m) with
    | None =>
      c = None /\ forall kv, In kv items -> cand (snd kv) = false
    | Some (k, p) =>
      cand p = true
      /\ (c = Some (k, p) \/ In (k, p) items)
      /\ (forall kv, In kv items -> cand (snd kv) = true ->
                     ExcelImporter.numero p <= ExcelImporter.numero (snd kv))
      /\ (forall k0 p0, c = Some (k0, p0) ->
                        ExcelImporter.numero p <= ExcelImporter.numero p0)
    end.
Proof.
  induction items as [| [key pred] rest IH]; intros c m Hacc.
  - cbn. destruct c as [[k p] |], m as [x |]; try contradiction.
    + destruct Hacc as [_ Hc]. repeat split; auto.
      * intros kv [].
      * intros k0 p0 E. injection E as <- <-. lia.
    + split; [reflexivity | intros kv []].
  - rewrite find_close_loop_cons_snd.
    destruct (cand pred) eqn:Hcand; cbn [andb].
    + destruct (match m with
                | Some x => ExcelImporter.numero pred - current_number <? x
                | None => true
                end) eqn:Hbetter.
      * specialize (IH (Some (key, pred))
                       (Some (ExcelImporter.numero pred - current_number))
                       (conj eq_refl Hcand)).
        destruct (snd (loop rest _ _)) as [[k p] |].
        -- destruct IH as (Hp & Hin & Hmin & Hle).
           specialize (Hle key pred eq_refl).
           repeat split; auto.
           ++ right. destruct Hin as [E | Hin]; [injection E as <- <-; now left
                                                | now right].
           ++ intros kv [<- | Hkv] Hk; [exact Hle | now apply Hmin].
           ++ intros k0 p0 ->. destruct m as [x |]; [| contradiction].
              destruct Hacc as [-> _]. lia.
        -- destruct IH as [E _]. discriminate.
      * destruct m as [x |]; [| discriminate].
        destruct c as [[k0 p0] |]; [| contradiction].
        destruct Hacc as [Hx Hc0].
        specialize (IH (Some (k0, p0)) (Some x) (conj Hx Hc0)).
        destruct (snd (loop rest _ _)) as [[k p] |].
        -- destruct IH as (Hp & Hin & Hmin & Hle).
           pose proof (Hle k0 p0 eq_refl) as Hle0.
           repeat split; auto.
           ++ destruct Hin as [E | Hin]; [now left | right; now right].
           ++ intros kv [<- | Hkv] Hk; [cbn; lia | now apply Hmin].
        -- destruct IH as [E _]. discriminate.
    + specialize (IH c m Hacc).
      destruct (snd (loop rest c m)) as [[k p] |].
      * destruct IH as (Hp & Hin & Hmin & Hle).
        repeat split; auto.
        -- destruct Hin as [E | Hin]; [now left | right; now right].
        -- intros kv [<- | Hkv] Hk; [cbn in Hk; congruence | now apply Hmin].
      * destruct IH as [E Hnone]. split; [exact E |].
        intros kv [<- | Hkv]; [exact Hcand | now apply Hnone].
Qed.
End FindClose.

Lemma find_close_prediction_unfold (self : ExcelImporter.manager) (cur tol : Z) :
  ExcelImporter.find_close_prediction self cur tol
  = ({| ExcelImporter.predictions :=
          fst (ExcelImporter.find_close_loop
                 (ExcelImporter.last_launched_numero self) cur tol
                 (ExcelImporter.predictions self) None None);
        ExcelImporter.last_launched_numero :=
          ExcelImporter.last_launched_numero self |},
     snd (ExcelImporter.find_close_loop
            (ExcelImporter.last_launched_numero self) cur tol
            (ExcelImporter.predictions self) None None)).
Proof.
  unfold ExcelImporter.find_close_prediction.
  destruct (ExcelImporter.find_close_loop _ _ _ _ _ _). reflexivity.
Qed.

(** A scan only ever returns an entry that is not launched. *)
Lemma find_close_prediction_unlaunched (m : ExcelImporter.manager) (cur tol : Z)
      (k : text) (p : ExcelImporter.excel_pred) :
  snd (ExcelImporter.find_close_prediction m cur tol) = Some (k, p) ->
  ExcelImporter.launched p = false.
Proof.
  rewrite find_close_prediction_unfold. cbn [snd]. intros E.
  pose proof (find_close_loop_result (ExcelImporter.last_launched_numero m) cur tol
                (ExcelImporter.predictions m) None None I) as Hres.
  rewrite E in Hres. destruct Hres as (Hc & _).
  unfold ExcelImporter.candidate, ExcelImporter.in_window in Hc.
  destruct (ExcelImporter.launched p); [discriminate | reflexivity].
Qed.

(** C7: with a last launched number [l] (a game number, not 0), every entry
    of [find_close_prediction]'s scan that is not launched, lies in
    the window [0 <= numero - current_number <= tolerance] and has number
    [l + 1] is left marked as launched with [skipped_consecutive], so that
    a later scan passes over it and never returns it; the prediction
    returned is never such an entry: it is a not launched entry of the
    window whose number is not [l + 1]; and whenever the window holds such
    an entry, one is returned, with the smallest gap to the current
    number. *)
Theorem consecutive_to_last_launched_suppressed
        (self : ExcelImporter.manager) (cur tol l : Z) :
  ExcelImporter.last_launched_numero self = Some l -> l <> 0 ->
  let self' := fst (ExcelImporter.find_close_prediction self cur tol) in
  let res := snd (ExcelImporter.find_close_prediction self cur tol) in
  (forall i key pred,
      nth_error (ExcelImporter.predictions self) i = Some (key, pred) ->
      ExcelImporter.launched pred = false ->
      0 <= ExcelImporter.numero pred - cur <= tol ->
      ExcelImporter.numero pred = l + 1 ->
      nth_error (ExcelImporter.predictions self') i
      = Some (key, ExcelImporter.mark_skipped pred)
      /\ ExcelImporter.launched (ExcelImporter.mark_skipped pred) = true
      /\ ExcelImporter.skipped_consecutive (ExcelImporter.mark_skipped pred) = true
      /\ res <> Some (key, pred))
  /\ (forall k p,
         res = Some (k, p) ->
         In (k, p) (ExcelImporter.predictions self)
         /\ ExcelImporter.launched p = false
         /\ 0 <= ExcelImporter.numero p - cur <= tol
         /\ ExcelImporter.numero p <> l + 1)
  /\ (forall key pred,
         In (key, pred) (ExcelImporter.predictions self) ->
         ExcelImporter.launched pred = false ->
         0 <= ExcelImporter.numero pred - cur <= tol ->
         ExcelImporter.numero pred <> l + 1 ->
         exists k p,
           res = Some (k, p)
           /\ ExcelImporter.numero p - cur <= ExcelImporter.numero pred - cur)
  /\ ExcelImporter.last_launched_numero self' = Some l
  /\ (forall cur2 tol2 k p,
         snd (ExcelImporter.find_close_prediction self' cur2 tol2) = Some (k, p) ->
         ExcelImporter.launched p = false).
Proof.
  intros Hl Hl0 self' res. subst self' res.
  rewrite find_close_prediction_unfold. cbn [fst snd ExcelImporter.predictions
                                            ExcelImporter.last_launched_numero].
  rewrite find_close_loop_entries, Hl.
  assert (Hcons : forall n,
             ExcelImporter.is_consecutive_to_last (Some l) n = (n =? l + 1)).
  { intros n. unfold ExcelImporter.is_consecutive_to_last.
    destruct (l =? 0) eqn:E; [lia | reflexivity]. }
  assert (Hcand : forall p,
             ExcelImporter.candidate (Some l) cur tol p = true <->
             ExcelImporter.launched p = false
             /\ 0 <= ExcelImporter.numero p - cur <= tol
             /\ ExcelImporter.numero p <> l + 1).
  { intros p. unfold ExcelImporter.candidate, ExcelImporter.in_window.
    rewrite Hcons. destruct (ExcelImporter.launched p); cbn [negb andb].
    - split; [discriminate | intros [E _]; discriminate].
    - rewrite !andb_true_iff, negb_true_iff, Z.eqb_neq, !Z.leb_le. tauto. }
  pose proof (find_close_loop_result (Some l) cur tol
                (ExcelImporter.predictions self) None None I) as Hres.
  destruct (snd (ExcelImporter.find_close_loop (Some l) cur tol
                   (ExcelImporter.predictions self) None None))
    as [[k0 p0] |].
  - destruct Hres as (Hc0 & Hin0 & Hmin & _).
    destruct Hin0 as [E | Hin0]; [discriminate |].
    apply Hcand in Hc0. repeat apply conj.
    + intros i key pred Hi Hla Hw Hn.
      rewrite nth_error_map, Hi. cbn [option_map].
      unfold ExcelImporter.after_scan, ExcelImporter.suppressed,
        ExcelImporter.in_window. cbn [fst snd].
      rewrite Hcons, Hla. cbn [negb andb].
      destruct ((0 <=? ExcelImporter.numero pred - cur)
                && (ExcelImporter.numero pred - cur <=? tol)) eqn:E; [| lia].
      destruct (ExcelImporter.numero pred =? l + 1) eqn:E'; [| lia].
      cbn [andb]. repeat split.
      intros E0. injection E0 as <- <-. tauto.
    + intros k p E. injection E as <- <-. tauto.
    + intros key pred Hin Hla Hw Hn. exists k0, p0. split; [reflexivity |].
      assert (ExcelImporter.numero p0 <= ExcelImporter.numero pred); [| lia].
      apply (Hmin (key, pred) Hin). apply Hcand. tauto.
    + reflexivity.
    + intros cur2 tol2 k p. apply find_close_prediction_unlaunched.
  - destruct Hres as [_ Hnone]. repeat apply conj.
    + intros i key pred Hi Hla Hw Hn.
      rewrite nth_error_map, Hi. cbn [option_map].
      unfold ExcelImporter.after_scan, ExcelImporter.suppressed,
        ExcelImporter.in_window. cbn [fst snd].
      rewrite Hcons, Hla. cbn [negb andb].
      destruct ((0 <=? ExcelImporter.numero pred - cur)
                && (ExcelImporter.numero pred - cur <=? tol)) eqn:E; [| lia].
      destruct (ExcelImporter.numero pred =? l + 1) eqn:E'; [| lia].
      cbn [andb]. repeat split. discriminate.
    + intros k p E. discriminate.
    + intros key pred Hin Hla Hw Hn. exfalso.
      specialize (Hnone (key, pred) Hin). cbn [snd] in Hnone.
      assert (Ht : ExcelImporter.candidate (Some l) cur tol pred = true)
        by (apply Hcand; tauto).
      congruence.
    + reflexivity.
    + intros cur2 tol2 k p. apply find_close_prediction_unlaunched.
Qed.

Lemma consecutive_to_last_launched_suppressed_witness :
  let self := Scenario.manager_after 56 [57; 59; 58] in
  nth_error
    (ExcelImporter.predictions (fst (ExcelImporter.find_close_prediction self 55 4)))
    0
  = Some (str 57, ExcelImporter.mark_skipped (snd (Scenario.pending 57)))
  /\ exists k p,
      snd (ExcelImporter.find_close_prediction self 55 4) = Some (k, p)
      /\ ExcelImporter.numero p - 55 <= 59 - 55.
Proof.
  intros self.
  destruct (consecutive_to_last_launched_suppressed self 55 4 56 eq_refl
              ltac:(lia)) as (Hmark & _ & Hnext & _).
  split.
  - apply (Hmark 0%nat (str 57) (snd (Scenario.pending 57)));
      [reflexivity | reflexivity | (cbn; lia) | reflexivity].
  - apply (Hnext (str 59) (snd (Scenario.pending 59)));
      [(cbn; tauto) | reflexivity | (cbn; lia) | (cbn; lia)].
Defined.

(** ** C8: terminal finality *)

(** The pass over the imported predictions treats the entries one by one,
    each by [excel_step]. *)
Lemma excel_loop_entries `{U : Unicode} (env : collaborators) (g : Z) (t : text) :
  forall items,
    fst (excel_loop env g t items)
    = map (fun kv => (fst kv, fst (excel_step env g t (snd kv)))) items.
Proof.
  induction items as [| [key pred] rest IH]; [reflexivity |].
  cbn [excel_loop map fst snd].
  destruct (excel_step env g t pred) as [pred' reqs].
  destruct (excel_loop env g t rest) as [rest' reqs'].
  cbn [fst] in *. now rewrite IH.
Qed.

Lemma excel_pass_entries `{U : Unicode} (env : collaborators) (g : Z) (t : text)
      (w : world) :
  ExcelImporter.predictions (excel_manager (verify_excel_predictions env g t w))
  = map (fun kv => (fst kv, fst (excel_step env g t (snd kv))))
        (ExcelImporter.predictions (excel_manager w)).
Proof.
  unfold verify_excel_predictions.
  rewrite <- excel_loop_entries.
  destruct (excel_loop env g t _) as [items reqs]. reflexivity.
Qed.

(** C8: an entry whose [verified] flag is set is skipped by both passes:
    after [verify_active_predictions] and after [verify_excel_predictions],
    whatever the message, the entry is at its place with all its fields
    (status, attempts or offset, verified) as before, and the turn of the
    loop that meets it asks for no edit and saves nothing. *)
Theorem terminal_finality `{U : Unicode} (env : collaborators)
        (g : Z) (t : text) (w : world) :
  (forall i k p,
      nth_error (active_predictions w) i = Some (k, p) ->
      verified p = true ->
      nth_error (active_predictions (verify_active_predictions env g t w)) i
      = Some (k, p)
      /\ verify_step env (r_offset w) g t k p = unchanged p)
  /\ (forall i k p,
         nth_error (ExcelImporter.predictions (excel_manager w)) i = Some (k, p) ->
         ExcelImporter.verified p = true ->
         nth_error
           (ExcelImporter.predictions
              (excel_manager (verify_excel_predictions env g t w))) i
         = Some (k, p)
         /\ excel_step env g t p = (p, [])).
Proof.
  split.
  - intros i k p Hi Hv. split; [| now apply verify_step_verified].
    destruct (is_finalized_message t) eqn:Hf.
    + rewrite verify_pass_active by exact Hf.
      rewrite nth_error_map, Hi. cbn [option_map].
      unfold step_entry. cbn [fst snd].
      now rewrite verify_step_verified.
    + unfold verify_active_predictions. rewrite Hf. exact Hi.
  - intros i k p Hi Hv.
    assert (Hs : excel_step env g t p = (p, [])).
    { unfold excel_step. rewrite Hv, orb_true_r. reflexivity. }
    split; [| exact Hs].
    rewrite excel_pass_entries, nth_error_map, Hi. cbn [option_map fst snd].
    now rewrite Hs.
Qed.

Lemma terminal_finality_witness :
  let done := set_terminal (set_attempts Scenario.pred_882 1) (status_emoji_of 1) in
  let w := with_excel
             (with_active Scenario.world0 [(882, done)])
             {| ExcelImporter.predictions :=
                  [(str 100, set_verified Scenario.excel_100 true)];
                ExcelImporter.last_launched_numero := Some 100 |} in
  nth_error
    (active_predictions
       (verify_active_predictions Scenario.env_ok 884 Scenario.msg_884_point3 w)) 0
  = Some (882, done)
  /\ nth_error
       (ExcelImporter.predictions
          (excel_manager
             (verify_excel_predictions Scenario.env_ok 103 Scenario.msg_103 w))) 0
     = Some (str 100, set_verified Scenario.excel_100 true).
Proof.
  intros done w. split.
  - apply (proj1 (terminal_finality Scenario.env_ok 884 Scenario.msg_884_point3 w)
                 0%nat 882 done); reflexivity.
  - apply (proj2 (terminal_finality Scenario.env_ok 103 Scenario.msg_103 w)
                 0%nat (str 100) (set_verified Scenario.excel_100 true));
      reflexivity.
Defined.

(** ** C9: the [/r] command *)

(** C9: when the sender may configure and [/r] is given digits, a value
    outside 0..10 is answered as invalid and leaves the whole state, with
    [r_offset], as it was; a value inside 0..10 becomes [r_offset], nothing
    else of the state in memory changes, and the configuration file holds it
    once the write goes through. *)
Theorem r_offset_range_enforced `{U : Unicode} (env : collaborators)
        (ADMIN_ID : option Z) (sender_id : Z) (digits : text) (w : world) :
  digits <> [] ->
  truthy ADMIN_ID = false \/ sender_id = get_id ADMIN_ID ->
  let value := int_of digits in
  let w' := fst (set_r_offset env ADMIN_ID sender_id (Some digits) w) in
  let answer := snd (set_r_offset env ADMIN_ID sender_id (Some digits) w) in
  (value < 0 \/ 10 < value -> w' = w /\ answer = InvalidValue)
  /\ (0 <= value <= 10 ->
      r_offset w' = value
      /\ answer = Updated value
      /\ a_offset w' = a_offset w
      /\ active_predictions w' = active_predictions w
      /\ (config_writable env = true ->
          option_map saved_r_offset (config_file w') = Some value)
      /\ (config_writable env = false -> config_file w' = config_file w)).
Proof.
  intros Hd Hadmin value w' answer. subst w' answer.
  unfold set_r_offset.
  assert (Hgate : truthy ADMIN_ID && negb (sender_id =? get_id ADMIN_ID) = false).
  { destruct Hadmin as [-> | ->]; [reflexivity |].
    rewrite Z.eqb_refl. apply andb_false_r. }
  rewrite Hgate. destruct digits as [| d ds]; [contradiction |].
  fold value. split.
  - intros Hout.
    destruct ((value <? 0) || (value >? 10)) eqn:E; [now split |].
    apply orb_false_elim in E. lia.
  - intros Hin.
    destruct ((value <? 0) || (value >? 10)) eqn:E.
    { apply orb_prop in E. lia. }
    cbn [fst snd]. unfold save_config.
    destruct (config_writable env); cbn; repeat split; auto; discriminate.
Qed.

Lemma r_offset_range_enforced_witness :
  fst (set_r_offset Scenario.env_ok None 42 (Some (lit "11")) Scenario.world0)
  = Scenario.world0
  /\ r_offset (fst (set_r_offset Scenario.env_ok None 42 (Some (lit "5"))
                                 Scenario.world0)) = 5.
Proof.
  split.
  - apply (proj1 (r_offset_range_enforced Scenario.env_ok None 42 (lit "11")
                    Scenario.world0 ltac:(vm_compute; discriminate)
                    (or_introl eq_refl))).
    right. vm_compute. reflexivity.
  - apply (proj2 (r_offset_range_enforced Scenario.env_ok None 42 (lit "5")
                    Scenario.world0 ltac:(vm_compute; discriminate)
                    (or_introl eq_refl))).
    vm_compute. split; discriminate.
Defined.

(** * Further properties of the code *)

(** ** Text and dictionaries *)

Lemma text_eqb_eq (a b : text) : text_eqb a b = true <-> a = b.
Proof.
  revert b. induction a as [| x a IH]; intros [| y b]; simpl;
    try (split; [discriminate | discriminate]); [tauto |].
  rewrite andb_true_iff, N.eqb_eq, IH.
  split; [intros [-> ->]; reflexivity | intros E; injection E; auto].
Qed.

Lemma text_eqb_refl (a : text) : text_eqb a a = true.
Proof. now apply text_eqb_eq. Qed.

Lemma text_eqb_neq (a b : text) : a <> b -> text_eqb a b = false.
Proof.
  intros H. destruct (text_eqb a b) eqn:E; [| reflexivity].
  apply text_eqb_eq in E. contradiction.
Qed.

Section DictFacts.
Context {V : Type}.

Lemma dict_get_set_same (k : text) (v : V) (d : ExcelImporter.dict V) :
  ExcelImporter.dict_get k (ExcelImporter.dict_set k v d) = Some v.
Proof.
  induction d as [| [k' v'] d IH]; simpl.
  - now rewrite text_eqb_refl.
  - destruct (text_eqb k k') eqn:E; simpl; rewrite E; [reflexivity | exact IH].
Qed.

Lemma dict_get_set_other (k k' : text) (v : V) (d : ExcelImporter.dict V) :
  k' <> k ->
  ExcelImporter.dict_get k' (ExcelImporter.dict_set k v d)
  = ExcelImporter.dict_get k' d.
Proof.
  intros Hne. induction d as [| [k0 v0] d IH]; simpl.
  - now rewrite (text_eqb_neq k' k Hne).
  - destruct (text_eqb k k0) eqn:E; simpl.
    + apply text_eqb_eq in E. subst k0.
      now rewrite (text_eqb_neq k' k Hne).
    + now rewrite IH.
Qed.

Lemma dict_set_keys_present (k : text) (v v0 : V) (d : ExcelImporter.dict V) :
  ExcelImporter.dict_get k d = Some v0 ->
  map fst (ExcelImporter.dict_set k v d) = map fst d.
Proof.
  induction d as [| [k' v'] d IH]; simpl; [discriminate |].
  destruct (text_eqb k k') eqn:E; simpl; [reflexivity |].
  intros H. now rewrite IH.
Qed.

Lemma dict_get_In (k : text) (v : V) (d : ExcelImporter.dict V) :
  ExcelImporter.dict_get k d = Some v -> In (k, v) d.
Proof.
  induction d as [| [k' v'] d IH]; simpl; [discriminate |].
  destruct (text_eqb k k') eqn:E.
  - apply text_eqb_eq in E. subst k'. intros H; injection H as ->. now left.
  - intros H. right. now apply IH.
Qed.

Lemma dict_get_None_keys (k : text) (d : ExcelImporter.dict V) :
  ExcelImporter.dict_get k d = None <-> ~ In k (map fst d).
Proof.
  induction d as [| [k' v'] d IH]; simpl; [tauto |].
  destruct (text_eqb k k') eqn:E.
  - apply text_eqb_eq in E. subst k'. split; [discriminate | tauto].
  - rewrite IH. split.
    + intros H [E' | H']; [subst k'; now rewrite text_eqb_refl in E | tauto].
    + tauto.
Qed.

(** A property of all entries survives [dict_set] when the new value has it
    under every key equal to its own. *)
Lemma dict_set_Forall (P : text * V -> Prop) (k : text) (v : V)
      (d : ExcelImporter.dict V) :
  P (k, v) -> Forall P d -> Forall P (ExcelImporter.dict_set k v d).
Proof.
  intros Hk. induction 1 as [| [k' v'] d Hx Hd IH]; simpl.
  - now constructor.
  - destruct (text_eqb k k') eqn:E.
    + apply text_eqb_eq in E. subst k'. now constructor.
    + now constructor.
Qed.
End DictFacts.

(** ** The trigger policy *)

Lemma existsb_filter_length {A : Type} (f : A -> bool) (l : list A) :
  existsb f l = true -> (1 <= List.length (filter f l))%nat.
Proof.
  induction l as [| x l IH]; simpl; [discriminate |].
  destruct (f x); simpl; [lia | exact IH].
Qed.

Lemma fold_left_add_ge {A : Type} (f : A -> Z) (l : list A) :
  (forall x, 0 <= f x) ->
  forall a, a <= fold_left (fun total x => total + f x) l a.
Proof.
  intros Hf. induction l as [| x l IH]; intros a; simpl; [lia |].
  specialize (IH (a + f x)). specialize (Hf x). lia.
Qed.

Lemma has_key_false (k : Z) (d : list (Z * live_pred)) :
  has_key k d = false <-> ~ In k (map fst d).
Proof.
  unfold has_key. induction d as [| [k' p] d IH]; simpl; [tauto |].
  rewrite orb_false_iff, IH, Z.eqb_neq. tauto.
Qed.

Section TriggerFacts.
Context {U : Unicode}.
Variable env : collaborators.

(** The verification pass touches the registry of live predictions and the
    list of edit requests, nothing else in memory. *)
Lemma verify_loop_frame (g : Z) (t : text) :
  forall todo done w,
    let w' := verify_loop env g t done todo w in
    detected_stat_channel w' = detected_stat_channel w
    /\ detected_display_channel w' = detected_display_channel w
    /\ a_offset w' = a_offset w
    /\ r_offset w' = r_offset w
    /\ excel_manager w' = excel_manager w.
Proof.
  induction todo as [| [k p] rest IH]; intros done w; [now repeat split |].
  cbn [verify_loop].
  set (r := verify_step env (r_offset w) g t k p).
  set (w1 := with_edits (with_active w ((done ++ [(k, new_data r)]) ++ rest))
                        (requests r)).
  specialize (IH (done ++ [(k, new_data r)])
                 (if saves r then save_config env w1 else w1)).
  cbv zeta in IH. destruct IH as (H1 & H2 & H3 & H4 & H5).
  rewrite H1, H2, H3, H4, H5.
  destruct (saves r); unfold save_config;
    destruct (config_writable env); now repeat split.
Qed.

Lemma verify_pass_frame (g : Z) (t : text) (w : world) :
  let w' := verify_active_predictions env g t w in
  detected_stat_channel w' = detected_stat_channel w
  /\ detected_display_channel w' = detected_display_channel w
  /\ a_offset w' = a_offset w
  /\ r_offset w' = r_offset w
  /\ excel_manager w' = excel_manager w.
Proof.
  unfold verify_active_predictions.
  destruct (is_finalized_message t); [apply verify_loop_frame | now repeat split].
Qed.

Lemma verify_pass_keys (g : Z) (t : text) (w : world) :
  map fst (active_predictions (verify_active_predictions env g t w))
  = map fst (active_predictions w).
Proof.
  destruct (is_finalized_message t) eqn:Hf.
  - rewrite verify_pass_active by exact Hf. rewrite map_map. reflexivity.
  - unfold verify_active_predictions. now rewrite Hf.
Qed.

(** What [handle_new_message] can do: nothing; the verification pass only;
    or the pass followed by the registration of one new prediction. *)
Lemma handle_new_message_outcome (ev : event) (w : world) :
  handle_new_message env ev w = w
  \/ exists g,
      extract_game_number env (raw_text ev) = Some g /\ g <> 0
      /\ let w1 := verify_active_predictions env g (raw_text ev) w in
         handle_new_message env ev w = w1
         \/ exists sent_id display,
             let t := extract_t_value (raw_text ev) in
             let predicted := g + a_offset w1 in
             detected_display_channel w1 = Some display
             /\ is_finalized_message (raw_text ev) = true
             /\ should_skip_prediction (raw_text ev) = false
             /\ has_six_in_first_group (raw_text ev) = true
             /\ has_key predicted (active_predictions w1) = false
             /\ send_message env display (snd (prediction_of predicted t))
                = Some sent_id
             /\ handle_new_message env ev w
                = save_config env
                    (register w1 predicted
                       (new_prediction sent_id display
                          (fst (prediction_of predicted t))
                          (snd (prediction_of predicted t)) g t)).
Proof.
  unfold handle_new_message.
  destruct (negb (truthy (detected_stat_channel w))); [now left |].
  destruct (negb (is_channel ev
                  && (chat_id ev =? get_id (detected_stat_channel w))));
    [now left |].
  destruct (extract_game_number env (raw_text ev)) as [g |] eqn:Hg;
    cbn [truthy negb get_id]; [| now left].
  destruct (g =? 0) eqn:Hg0; cbn [negb]; [now left |].
  right. exists g. split; [reflexivity |]. split; [lia |].
  cbv zeta.
  set (w1 := verify_active_predictions env g (raw_text ev) w).
  destruct (detected_display_channel w1) as [display |] eqn:Hd;
    cbn [truthy negb get_id]; [| now left].
  destruct (display =? 0) eqn:Hd0; cbn [negb]; [now left |].
  destruct (is_finalized_message (raw_text ev)) eqn:Hf; cbn [negb]; [| now left].
  destruct (should_skip_prediction (raw_text ev)) eqn:Hs; [now left |].
  destruct (has_six_in_first_group (raw_text ev)) eqn:H6; cbn [negb]; [| now left].
  destruct (Qle_bool 0 (extract_t_value (raw_text ev))); cbn [negb]; [| now left].
  destruct (has_key (g + a_offset w1) (active_predictions w1)) eqn:Hk; [now left |].
  unfold prediction_of.
  destruct (float_gt_10_5 (extract_t_value (raw_text ev))); cbn [fst snd];
    (destruct (send_message env display _) as [sent_id |] eqn:Hsend; [| now left]);
    right; exists sent_id, display; repeat apply conj; auto.
Qed.
End TriggerFacts.

Lemma has_six_in_first_group_counts `{U : Unicode} (t : text) :
  has_six_in_first_group t = true -> 1 <= count_sixes_in_groups t.
Proof.
  unfold has_six_in_first_group, count_sixes_in_groups.
  destruct (map group1 (findall group_pattern t)) as [| g1 gs]; [discriminate |].
  intros H. apply existsb_filter_length in H. cbn [fold_left].
  pose proof (fold_left_add_ge
                (fun g => Z.of_nat (List.length (filter is_six (@card_values U g))))
                gs ltac:(intros; cbv beta; lia)
                (0 + Z.of_nat (List.length (filter is_six (card_values g1)))))
    as Hge.
  cbv beta in Hge. lia.
Qed.

(** X1. Whatever the message and the state, [handle_new_message] either
    leaves the keys of [active_predictions] as they are or appends exactly
    one entry, and it does the latter only for a finalized message without
    the tie marker, with exactly one card of rank 6 over all groups, that
    card in the first group, a first-group total other than 6, and a number
    [game + a_offset] that has no entry yet; the entry is not verified and
    expects joueur when the metric exceeds 10.5, banquier otherwise. *)
Theorem trigger_only_on_single_six `{U : Unicode} (env : collaborators)
        (ev : event) (w : world) :
  let w' := handle_new_message env ev w in
  map fst (active_predictions w') = map fst (active_predictions w)
  \/ exists g sent_id display,
      let t := extract_t_value (raw_text ev) in
      extract_game_number env (raw_text ev) = Some g
      /\ active_predictions w'
         = active_predictions
             (verify_active_predictions env g (raw_text ev) w)
           ++ [(g + a_offset w,
                new_prediction sent_id display
                  (if float_gt_10_5 t then lit "joueur" else lit "banquier")
                  (snd (prediction_of (g + a_offset w) t)) g t)]
      /\ ~ In (g + a_offset w) (map fst (active_predictions w))
      /\ is_finalized_message (raw_text ev) = true
      /\ is_tie_game (raw_text ev) = false
      /\ count_sixes_in_groups (raw_text ev) = 1
      /\ has_six_in_first_group (raw_text ev) = true
      /\ get_first_group_total (raw_text ev) <> 6.
Proof.
  intros w'. subst w'.
  destruct (handle_new_message_outcome env ev w) as [E | (g & Hg & Hg0 & Hout)].
  { left. now rewrite E. }
  cbv zeta in Hout.
  destruct Hout as [E | (sent_id & display & Hd & Hf & Hs & H6 & Hk & Hsend & E)].
  { left. rewrite E. apply verify_pass_keys. }
  right. exists g, sent_id, display. cbv zeta.
  destruct (verify_pass_frame env g (raw_text ev) w) as (_ & _ & Ha & _ & _).
  rewrite Ha in *.
  split; [exact Hg |]. split.
  { rewrite E, save_config_active. unfold register. cbn [active_predictions with_active].
    unfold prediction_of. destruct (float_gt_10_5 _); reflexivity. }
  split.
  { apply has_key_false in Hk. now rewrite verify_pass_keys in Hk. }
  split; [exact Hf |].
  unfold should_skip_prediction in Hs.
  destruct (is_tie_game (raw_text ev)); [discriminate |].
  destruct (has_six_in_both_groups (raw_text ev)); [discriminate |].
  destruct (count_sixes_in_groups (raw_text ev) >=? 2) eqn:Hc; [discriminate |].
  rewrite H6, andb_true_r in Hs.
  destruct (get_first_group_total (raw_text ev) =? 6) eqn:Ht; [discriminate |].
  pose proof (has_six_in_first_group_counts _ H6).
  repeat apply conj; first [reflexivity | exact H6 | lia].
Qed.

(** X2. A card of rank 6 in each of the first two groups means at least two
    cards of rank 6 over all groups, so the rule "a 6 in both groups" of
    [should_skip_prediction] never decides a message that the rule "two 6 or
    more" would let through; and a 6 in the first group is counted. *)
Theorem six_in_both_groups_counts_two `{U : Unicode} (t : text) :
  (has_six_in_both_groups t = true -> 2 <= count_sixes_in_groups t)
  /\ (has_six_in_first_group t = true -> 1 <= count_sixes_in_groups t).
Proof.
  split; [| apply has_six_in_first_group_counts].
  unfold has_six_in_both_groups, count_sixes_in_groups.
  destruct (map group1 (findall group_pattern t)) as [| g1 [| g2 gs]];
    try discriminate.
  intros H. apply andb_prop in H. destruct H as [H1 H2].
  apply existsb_filter_length in H1, H2. cbn [fold_left].
  pose proof (fold_left_add_ge
                (fun g => Z.of_nat (List.length (filter is_six (@card_values U g))))
                gs ltac:(intros; cbv beta; lia)
                (0 + Z.of_nat (List.length (filter is_six (card_values g1)))
                 + Z.of_nat (List.length (filter is_six (card_values g2)))))
    as Hge.
  cbv beta in Hge. lia.
Qed.

Lemma six_in_both_groups_counts_two_witness :
  2 <= count_sixes_in_groups (lit "#N5. 7(6♠A♠) ✅ 9(6♦3♣) #T16")
  /\ 1 <= count_sixes_in_groups Scenario.msg_881.
Proof.
  split.
  - apply (proj1 (six_in_both_groups_counts_two
                    (lit "#N5. 7(6♠A♠) ✅ 9(6♦3♣) #T16"))).
    vm_compute. reflexivity.
  - apply (proj2 (six_in_both_groups_counts_two Scenario.msg_881)).
    vm_compute. reflexivity.
Defined.

(** X3. [handle_new_message] keeps the keys of [active_predictions]
    distinct: it never registers a second entry for a number that has
    one. *)
Theorem registry_keys_stay_distinct `{U : Unicode} (env : collaborators)
        (ev : event) (w : world) :
  NoDup (map fst (active_predictions w)) ->
  NoDup (map fst (active_predictions (handle_new_message env ev w))).
Proof.
  intros Hnd.
  destruct (handle_new_message_outcome env ev w) as [E | (g & Hg & Hg0 & Hout)].
  { now rewrite E. }
  cbv zeta in Hout.
  destruct Hout as [E | (sent_id & display & Hd & Hf & Hs & H6 & Hk & Hsend & E)].
  { rewrite E, verify_pass_keys. exact Hnd. }
  rewrite E, save_config_active. unfold register.
  cbn [active_predictions with_active].
  rewrite map_app. cbn [map fst].
  apply has_key_false in Hk.
  rewrite verify_pass_keys in *.
  apply NoDup_app; [exact Hnd | repeat constructor; intros [] | ].
  intros x Hx [<- | []]. contradiction.
Qed.

Lemma registry_keys_stay_distinct_witness :
  NoDup (map fst (active_predictions
                    (handle_new_message Scenario.env_ok
                       (Scenario.from_source Scenario.msg_881_total7)
                       (with_active Scenario.world0 [(882, Scenario.pred_882)])))).
Proof.
  apply registry_keys_stay_distinct.
  cbn. repeat constructor. intros [].
Defined.

(** X4. A message that carries neither [✅] nor [🔰] is ignored altogether:
    no entry is verified, nothing is registered, nothing is saved or
    edited. *)
Theorem unfinalized_message_ignored `{U : Unicode} (env : collaborators)
        (ev : event) (w : world) :
  is_finalized_message (raw_text ev) = false ->
  handle_new_message env ev w = w.
Proof.
  intros Hf. unfold handle_new_message.
  destruct (negb (truthy (detected_stat_channel w))); [reflexivity |].
  destruct (negb (is_channel ev
                  && (chat_id ev =? get_id (detected_stat_channel w))));
    [reflexivity |].
  destruct (negb (truthy (extract_game_number env (raw_text ev))));
    [reflexivity |].
  unfold verify_active_predictions. rewrite Hf. cbn [negb].
  destruct (negb (truthy (detected_display_channel w))); reflexivity.
Qed.

Lemma unfinalized_message_ignored_witness :
  handle_new_message Scenario.env_ok
    (Scenario.from_source (lit "#N883. ⏰8(K♠8♠) - 5(2♦3♣)"))
    (with_active Scenario.world0 [(882, Scenario.pred_882)])
  = with_active Scenario.world0 [(882, Scenario.pred_882)].
Proof.
  apply unfinalized_message_ignored. vm_compute. reflexivity.
Defined.

(** ** The live tracker, further *)

Lemma verify_loop_edits `{U : Unicode} (env : collaborators) (g : Z) (t : text) :
  forall todo done w,
  exists reqs, edits (verify_loop env g t done todo w) = edits w ++ reqs.
Proof.
  induction todo as [| [k p] rest IH]; intros done w; cbn [verify_loop].
  - exists []. now rewrite app_nil_r.
  - set (r := verify_step env (r_offset w) g t k p).
    set (w1 := with_edits (with_active w ((done ++ [(k, new_data r)]) ++ rest))
                          (requests r)).
    destruct (IH (done ++ [(k, new_data r)])
                 (if saves r then save_config env w1 else w1)) as [reqs E].
    exists (requests r ++ reqs). rewrite E.
    destruct (saves r); [rewrite save_config_edits |];
      subst w1; cbn [edits with_edits with_active]; now rewrite app_assoc.
Qed.

(** X5. A verification pass of the live tracker never adds, removes or
    reorders an entry of [active_predictions], never changes the channels,
    [a_offset], [r_offset] or the imported predictions, and only appends to
    the edit requests made so far. *)
Theorem live_pass_only_updates_entries `{U : Unicode} (env : collaborators)
        (g : Z) (t : text) (w : world) :
  let w' := verify_active_predictions env g t w in
  map fst (active_predictions w') = map fst (active_predictions w)
  /\ detected_stat_channel w' = detected_stat_channel w
  /\ detected_display_channel w' = detected_display_channel w
  /\ a_offset w' = a_offset w
  /\ r_offset w' = r_offset w
  /\ excel_manager w' = excel_manager w
  /\ exists reqs, edits w' = edits w ++ reqs.
Proof.
  intros w'. subst w'.
  split; [apply verify_pass_keys |].
  destruct (verify_pass_frame env g t w) as (H1 & H2 & H3 & H4 & H5).
  repeat (split; [assumption |]).
  unfold verify_active_predictions.
  destruct (is_finalized_message t); [apply verify_loop_edits |].
  exists []. now rewrite app_nil_r.
Qed.

(** X6. After the pass for a finalized message of game [g], no entry is left
    pending whose predicted number lies more than [r_offset] games back:
    every such entry has been closed, whatever the text of the message and
    whether the edits went through or not. *)
Theorem no_pending_entry_beyond_window `{U : Unicode} (env : collaborators)
        (g : Z) (t : text) (w : world) (k : Z) (p : live_pred) :
  is_finalized_message t = true ->
  In (k, p) (active_predictions (verify_active_predictions env g t w)) ->
  verified p = false ->
  g < k \/ g - k <= r_offset w.
Proof.
  intros Hf Hin Hv. rewrite verify_pass_active in Hin by exact Hf.
  apply in_map_iff in Hin. destruct Hin as ([k0 p0] & E & _).
  unfold step_entry in E. cbn [fst snd] in E. injection E as -> <-.
  unfold verify_step in Hv.
  destruct (verified p0) eqn:Hv0; [cbn in Hv; congruence |].
  destruct (g <? k) eqn:Hlt; [left; lia |].
  destruct (g - k >? r_offset w) eqn:Hexp; [cbn in Hv; discriminate |].
  right. lia.
Qed.

Lemma no_pending_entry_beyond_window_witness :
  883 < 882
  \/ 883 - 882
     <= r_offset (with_active Scenario.world0 [(882, Scenario.pred_882)]).
Proof.
  apply (no_pending_entry_beyond_window Scenario.env_edit_fails 883
           Scenario.msg_100_no_point
           (with_active Scenario.world0 [(882, Scenario.pred_882)])
           882 Scenario.pred_882);
    [vm_compute; reflexivity | vm_compute; left; reflexivity | reflexivity].
Defined.

(** X7. When an entry is evaluated (a finalized message at an offset above
    [attempts] and not above [r_offset], with message and channel ids, a
    first-group point [pt]) and the edit goes through: the entry is closed
    with the success token of that offset exactly when joueur is expected
    and [pt >= 7] or banquier is expected and [pt <= 4]; otherwise it is
    closed with [❌] if the offset is [r_offset] and stays pending if it is
    below; in all cases [attempts] becomes the offset.  An entry expecting
    anything else can never succeed. *)
Theorem live_thresholds `{U : Unicode} (env : collaborators)
        (r g : Z) (t : text) (k : Z) (p : live_pred) (pt : Z) :
  verified p = false ->
  k <= g ->
  match attempts p with Some n => n | None => 0 end < g - k <= r ->
  truthy (message_id p) = true -> truthy (channel_id p) = true ->
  ExcelImporter.extract_points_and_winner t = Some pt ->
  (forall c m x, edit_message env c m x = true) ->
  let q := new_data (verify_step env r g t k p) in
  let success :=
    (expected p = lit "joueur" /\ 7 <= pt)
    \/ (expected p = lit "banquier" /\ pt <= 4) in
  attempts q = Some (g - k)
  /\ (success ->
      verified q = true /\ status q = Some (status_emoji_of (g - k)))
  /\ (~ success -> g - k = r ->
      verified q = true /\ status q = Some Main.FAILED)
  /\ (~ success -> g - k < r ->
      verified q = false /\ status q = status p).
Proof.
  intros Hv Hkg Hw Hm Hc Hx Hedit q success. subst q.
  unfold verify_step. rewrite Hv, Hm, Hc, Hx. cbn [negb orb].
  destruct (g <? k) eqn:E1; [lia |].
  destruct (g - k >? r) eqn:E2; [lia |].
  destruct (g - k >? match attempts p with Some n => n | None => 0 end) eqn:E3;
    [| lia].
  rewrite !Hedit.
  assert (Hdec :
            (if text_eqb (expected p) (lit "joueur")
             then 2 * pt >? 13
             else if text_eqb (expected p) (lit "banquier")
                  then 2 * pt <? 9 else false) = true <-> success).
  { subst success.
    destruct (text_eqb (expected p) (lit "joueur")) eqn:Ej.
    - apply text_eqb_eq in Ej. rewrite Ej.
      split.
      + intros H. left. split; [reflexivity | lia].
      + intros [[_ H] | [H _]]; [lia | vm_compute in H; discriminate].
    - destruct (text_eqb (expected p) (lit "banquier")) eqn:Eb.
      + apply text_eqb_eq in Eb. rewrite Eb.
        split.
        * intros H. right. split; [reflexivity | lia].
        * intros [[H _] | [_ H]]; [vm_compute in H; discriminate | lia].
      + split; [discriminate |].
        intros [[H _] | [H _]]; rewrite H in *;
          [rewrite text_eqb_refl in Ej | rewrite text_eqb_refl in Eb];
          discriminate. }
  match goal with
  | H : ?b = true <-> success |- _ => destruct b eqn:Eb
  end.
  - assert (Hs : success) by (apply Hdec; reflexivity).
    cbn. repeat split; tauto.
  - assert (Hs : ~ success) by (intros H; apply Hdec in H; discriminate).
    destruct (g - k >=? r) eqn:E4; cbn; repeat split;
      first [tauto | intros; lia | reflexivity].
Qed.

Lemma live_thresholds_witness :
  let q := new_data (verify_step Scenario.env_ok 2 883 Scenario.msg_883_point8
                                 882 Scenario.pred_882) in
  attempts q = Some (883 - 882)
  /\ verified q = true /\ status q = Some (status_emoji_of (883 - 882)).
Proof.
  intros q.
  destruct (live_thresholds (U := ascii_tables) Scenario.env_ok 2 883 Scenario.msg_883_point8 882
              Scenario.pred_882 8 eq_refl ltac:(lia) ltac:(cbn; lia)
              eq_refl eq_refl
              ltac:(vm_compute; reflexivity) ltac:(reflexivity))
    as (Ha & Hs & _).
  split; [exact Ha |]. apply Hs. left. split; [reflexivity | lia].
Defined.

(** What one turn of the loop can make of an entry: leave it, close it, or
    record the offset as tried. *)
Lemma verify_step_cases `{U : Unicode} (env : collaborators)
      (r g : Z) (t : text) (k : Z) (p : live_pred) :
  let q := new_data (verify_step env r g t k p) in
  q = p
  \/ verified q = true
  \/ (q = set_attempts p (g - k)
      /\ verified p = false /\ k <= g /\ attempts_done p < g - k <= r).
Proof.
  cbv zeta. unfold verify_step, attempts_done.
  destruct (verified p) eqn:Hv; [now left |].
  destruct (g <? k) eqn:E1; [now left |].
  destruct (g - k >? r) eqn:E2; [right; left; reflexivity |].
  destruct (g - k >? match attempts p with Some n => n | None => 0 end) eqn:E3;
    [| now left].
  destruct (negb (truthy (message_id p)) || negb (truthy (channel_id p)));
    [now left |].
  destruct (ExcelImporter.extract_points_and_winner t) as [pt |]; [| now left].
  assert (Hthird : set_attempts p (g - k) = set_attempts p (g - k)
                   /\ false = false /\ k <= g
                   /\ match attempts p with Some n => n | None => 0 end
                      < g - k <= r) by (repeat split; lia).
  repeat match goal with
         | |- context [if ?b then _ else _] => destruct b
         end; cbn [new_data verified set_terminal];
    first [right; left; reflexivity | right; right; exact Hthird].
Qed.

(** X8. Once a turn of the loop has changed an entry on a message of game
    [g], no further message of the same game number changes it (a message
    that is delivered again, or edited, is not evaluated a second time), the
    value of [r_offset] being the same. *)
Theorem same_game_never_evaluated_twice `{U : Unicode}
        (env env' : collaborators) (r g : Z) (t t' : text) (k : Z) (p : live_pred) :
  let q := new_data (verify_step env r g t k p) in
  q <> p ->
  verify_step env' r g t' k q = unchanged q.
Proof.
  intros q Hne.
  destruct (verify_step_cases env r g t k p) as [E | [E | (E & Hv & Hk & Hw)]];
    fold q in E.
  - contradiction.
  - now apply verify_step_verified.
  - rewrite E. unfold verify_step. cbn [verified attempts set_attempts].
    rewrite Hv.
    destruct (g <? k) eqn:E1; [lia |].
    destruct (g - k >? r) eqn:E2; [lia |].
    destruct (g - k >? g - k) eqn:E3; [lia | reflexivity].
Qed.

Lemma same_game_never_evaluated_twice_witness :
  let q := new_data (verify_step Scenario.env_edit_fails 2 883
                                 Scenario.msg_883_point8 882 Scenario.pred_882) in
  verify_step Scenario.env_ok 2 883 Scenario.msg_883_point8 882 q = unchanged q.
Proof.
  intros q.
  apply (same_game_never_evaluated_twice Scenario.env_edit_fails Scenario.env_ok
           2 883 Scenario.msg_883_point8 Scenario.msg_883_point8 882
           Scenario.pred_882).
  vm_compute. discriminate.
Defined.

(** X9. The count of attempts of an entry never goes down and never exceeds
    [r_offset + 1], provided it did not exceed it before; and an entry that
    is verified stays verified. *)
Theorem attempts_monotone_and_bounded `{U : Unicode} (env : collaborators)
        (r g : Z) (t : text) (k : Z) (p : live_pred) :
  attempts_done p <= r + 1 ->
  let q := new_data (verify_step env r g t k p) in
  attempts_done p <= attempts_done q <= r + 1
  /\ (verified p = true -> verified q = true).
Proof.
  intros Ha q. split.
  - subst q. unfold verify_step.
    destruct (verified p); [cbn; lia |].
    destruct (g <? k); [cbn; lia |].
    destruct (g - k >? r) eqn:E2; [cbn; unfold attempts_done in *; cbn; lia |].
    unfold attempts_done in *.
    destruct (g - k >? match attempts p with Some n => n | None => 0 end) eqn:E3;
      [| cbn; lia].
    destruct (negb (truthy (message_id p)) || negb (truthy (channel_id p)));
      [cbn; lia |].
    destruct (ExcelImporter.extract_points_and_winner t) as [pt |]; [| cbn; lia].
    repeat match goal with
           | |- context [if ?b then _ else _] => destruct b
           end; cbn; lia.
  - intros Hv. subst q. now rewrite verify_step_verified.
Qed.

Lemma attempts_monotone_and_bounded_witness :
  let q := new_data (verify_step Scenario.env_ok 2 885 Scenario.msg_100_no_point
                                 882 Scenario.pred_882) in
  attempts_done Scenario.pred_882 <= attempts_done q <= 2 + 1.
Proof.
  intros q.
  apply (attempts_monotone_and_bounded Scenario.env_ok 2 885
           Scenario.msg_100_no_point 882 Scenario.pred_882).
  vm_compute. discriminate.
Defined.

(** ** Persistence of the live tracker *)

Section Persistence.
Context {U : Unicode}.
Variable env : collaborators.
Hypothesis writable : config_writable env = true.
Hypothesis edits_succeed : forall c m x, edit_message env c m x = true.

(** With a working transport, a turn of the loop that does not save has
    not changed the entry. *)
Lemma unsaved_step_is_noop (r g : Z) (t : text) (k : Z) (p : live_pred) :
  saves (verify_step env r g t k p) = false ->
  new_data (verify_step env r g t k p) = p.
Proof.
  unfold verify_step.
  repeat match goal with
         | |- context [edit_message env ?c ?m ?x] =>
           rewrite (edits_succeed c m x)
         end.
  repeat match goal with
         | |- context [if ?b then _ else _] => destruct b
         | |- context [match ?o with Some _ => _ | None => _ end] => destruct o
         end; cbn; first [discriminate | reflexivity].
Qed.

Lemma save_config_in_sync (w : world) : in_sync (save_config env w).
Proof. unfold save_config, in_sync. now rewrite writable. Qed.

Lemma verify_loop_in_sync (g : Z) (t : text) :
  forall todo done w,
    active_predictions w = done ++ todo ->
    in_sync w ->
    in_sync (verify_loop env g t done todo w).
Proof.
  induction todo as [| [k p] rest IH]; intros done w Hact Hsync; [exact Hsync |].
  cbn [verify_loop].
  set (r := verify_step env (r_offset w) g t k p).
  set (w1 := with_edits (with_active w ((done ++ [(k, new_data r)]) ++ rest))
                        (requests r)).
  apply IH.
  - destruct (saves r); [rewrite save_config_active |]; reflexivity.
  - destruct (saves r) eqn:Hs; [apply save_config_in_sync |].
    pose proof (unsaved_step_is_noop (r_offset w) g t k p Hs) as Hsame.
    fold r in Hsame. unfold in_sync in *. subst w1.
    cbn [config_file with_edits with_active]. rewrite Hsync.
    unfold snapshot.
    cbn [detected_stat_channel detected_display_channel a_offset r_offset
         active_predictions with_edits with_active].
    rewrite Hact, Hsame, <- app_assoc. reflexivity.
Qed.
End Persistence.

(** X10. When the configuration file can be written and the edits go
    through, the file keeps up with the memory: if it held the state before
    a message, it holds the state after the verification pass and after
    [handle_new_message], so that [load_config] (which [/status] and [/sta]
    run) gives the state back unchanged. *)
Theorem config_file_follows_memory `{U : Unicode} (env : collaborators)
        (ev : event) (g : Z) (t : text) (DISPLAY_CHANNEL : Z) (w : world) :
  config_writable env = true ->
  (forall c m x, edit_message env c m x = true) ->
  in_sync w ->
  in_sync (verify_active_predictions env g t w)
  /\ in_sync (handle_new_message env ev w)
  /\ load_config DISPLAY_CHANNEL (handle_new_message env ev w)
     = handle_new_message env ev w.
Proof.
  intros Hw He Hs.
  assert (Hpass : forall g t, in_sync (verify_active_predictions env g t w)).
  { intros g0 t0. unfold verify_active_predictions.
    destruct (is_finalized_message t0); [| exact Hs].
    now apply verify_loop_in_sync. }
  assert (Hh : in_sync (handle_new_message env ev w)).
  { destruct (handle_new_message_outcome env ev w) as [E | (g0 & _ & _ & Hout)].
    { now rewrite E. }
    cbv zeta in Hout.
    destruct Hout as [E | (sent_id & display & _ & _ & _ & _ & _ & _ & E)];
      rewrite E; [apply Hpass | now apply save_config_in_sync]. }
  repeat split; [apply Hpass | exact Hh |].
  unfold in_sync in Hh. unfold load_config. rewrite Hh.
  destruct (handle_new_message env ev w) as [sc dc a r ap em cf ed].
  unfold snapshot in *. cbn in *. subst cf. reflexivity.
Qed.

Lemma config_file_follows_memory_witness :
  let w := save_config Scenario.env_ok Scenario.world0 in
  load_config (-1002999811353)
    (handle_new_message Scenario.env_ok
       (Scenario.from_source Scenario.msg_881_total7) w)
  = handle_new_message Scenario.env_ok
      (Scenario.from_source Scenario.msg_881_total7) w.
Proof.
  intros w.
  apply (config_file_follows_memory Scenario.env_ok
           (Scenario.from_source Scenario.msg_881_total7) 881
           Scenario.msg_881_total7 (-1002999811353) w);
    reflexivity.
Defined.

(** ** The text of the edits *)

Lemma replace_from_prefix (old0 : codepoint) (old' new pre tail : text) :
  Forall (fun c => c <> old0) pre ->
  replace_from (old0 :: old') new (pre ++ tail) 0
  = pre ++ replace_from (old0 :: old') new tail 0.
Proof.
  induction 1 as [| c pre Hc Hpre IH]; [reflexivity |].
  cbn [app replace_from starts_with].
  destruct (N.eqb_spec old0 c) as [-> | _]; [contradiction |].
  cbn [andb]. now rewrite IH.
Qed.

Lemma last_index_prefix (sep0 : codepoint) (sep' pre tail : text) :
  Forall (fun c => c <> sep0) pre ->
  forall i found,
    last_index (sep0 :: sep') (pre ++ tail) i found
    = last_index (sep0 :: sep') tail (i + List.length pre)%nat found.
Proof.
  induction 1 as [| c pre Hc Hpre IH]; intros i found.
  - cbn [app List.length]. now rewrite Nat.add_0_r.
  - cbn [app last_index starts_with List.length].
    destruct (N.eqb_spec sep0 c) as [-> | _]; [contradiction |].
    cbn [andb]. rewrite IH. f_equal. lia.
Qed.

Lemma firstn_prefix {A : Type} (pre tail : list A) :
  firstn (List.length pre) (pre ++ tail) = pre.
Proof. induction pre as [| x pre IH]; cbn; [reflexivity | now rewrite IH]. Qed.

(** The part of a prediction text before the status holds no [s]. *)
Lemma prediction_prefix_no_s (n : Z) (mark : text) :
  Forall (fun c => c <> 115%N) mark ->
  Forall (fun c => c <> 115%N) (lit "🔵" ++ str n ++ mark).
Proof.
  intros Hm. apply Forall_app. split.
  - repeat constructor. vm_compute. discriminate.
  - apply Forall_app. split; [| exact Hm].
    eapply Forall_impl; [| apply str_ascii]. cbv beta. intros c Hc. lia.
Qed.

Lemma marks_no_s :
  Forall (fun c => c <> 115%N) JOUEUR_MARK
  /\ Forall (fun c => c <> 115%N) BANQUIER_MARK.
Proof.
  split; apply Forall_forall; intros c Hc; vm_compute in Hc;
    repeat (destruct Hc as [<- | Hc]; [discriminate |]); contradiction.
Qed.

(** X11. The text that the live tracker sends to [edit_message] is the text of
    the prediction with the pending token replaced and nothing else
    touched: for the text registered for the number [n] and every new
    status line, [base_text.replace("statut :⏳", new)] is the mark, the
    number and the joueur or banquier sign followed by [new]. *)
Theorem live_edit_replaces_status_only (n : Z) (t : Q) (new : text) :
  replace (snd (prediction_of n t)) PENDING_TOKEN new
  = lit "🔵" ++ str n
    ++ (if float_gt_10_5 t then JOUEUR_MARK else BANQUIER_MARK) ++ new.
Proof.
  unfold prediction_of, replace.
  change PENDING_TOKEN with (115%N :: lit "tatut :⏳").
  destruct marks_no_s as [Hj Hb].
  destruct (float_gt_10_5 t); cbn [snd].
  - change (lit ":🅿️+6,5🔵statut :⏳") with (JOUEUR_MARK ++ 115%N :: lit "tatut :⏳").
    rewrite !app_assoc, replace_from_prefix.
    + cbn. now rewrite app_nil_r.
    + rewrite <- app_assoc. now apply prediction_prefix_no_s.
  - change (lit ":Ⓜ️-4,,5🔵statut :⏳") with (BANQUIER_MARK ++ 115%N :: lit "tatut :⏳").
    rewrite !app_assoc, replace_from_prefix.
    + cbn. now rewrite app_nil_r.
    + rewrite <- app_assoc. now apply prediction_prefix_no_s.
Qed.

(** ** The imported-schedule tracker, further *)

Section ExcelVerdict.
Context {U : Unicode}.

(** [verify_excel_prediction] replaces the offset it is given by the
    distance between the game number and the predicted number. *)
Lemma verify_excel_prediction_realigns (g : Z) (t : text) (pn : Z) (w : text)
      (off : Z) :
  ExcelImporter.verify_excel_prediction g t pn w off
  = ExcelImporter.verify_excel_prediction g t pn w (g - pn).
Proof.
  unfold ExcelImporter.verify_excel_prediction.
  destruct (g - pn <? 0); [reflexivity |].
  destruct (g - pn >? 2); [reflexivity |].
  assert (Hoff : (if negb (off =? g - pn) then g - pn else off) = g - pn).
  { destruct (Z.eqb_spec off (g - pn)); simpl; lia. }
  rewrite Hoff, Z.eqb_refl. reflexivity.
Qed.

Lemma verify_excel_prediction_waits (g : Z) (t : text) (pn : Z) (w : text)
      (off : Z) :
  0 <= g - pn <= 2 ->
  ExcelImporter.in_edit t = true \/ ExcelImporter.finalized t = false ->
  ExcelImporter.verify_excel_prediction g t pn w off = (None, true).
Proof.
  intros Hr Hwait. rewrite verify_excel_prediction_realigns.
  unfold ExcelImporter.verify_excel_prediction.
  destruct (g - pn <? 0) eqn:E1; [lia |].
  destruct (g - pn >? 2) eqn:E2; [lia |].
  rewrite Z.eqb_refl. cbn [negb].
  replace (pn + (g - pn)) with g by lia. rewrite Z.eqb_refl. cbn [negb].
  fold (ExcelImporter.in_edit t). fold (ExcelImporter.finalized t).
  destruct (ExcelImporter.in_edit t); [reflexivity |].
  destruct Hwait as [H | ->]; [discriminate | reflexivity].
Qed.
End ExcelVerdict.

(** X12. [verify_excel_prediction] does not depend on the offset it is
    given; it answers either no status with "continue", or a status with
    "stop", and that status is [❌] or the success token whose index is the
    distance from the predicted number, between 0 and 2.  Before the
    predicted number it waits; more than 2 games after it, it fails
    whatever the message; in the window, a message in edit or without
    finalization marker is waited on. *)
Theorem imported_verdict_shape `{U : Unicode} (g : Z) (t : text) (pn : Z)
        (w : text) (off off' : Z) :
  let v := ExcelImporter.verify_excel_prediction g t pn w off in
  v = ExcelImporter.verify_excel_prediction g t pn w off'
  /\ (v = (None, true)
      \/ v = (Some ExcelImporter.FAILED, false)
      \/ (0 <= g - pn <= 2
          /\ v = (Some (if g - pn =? 0 then ExcelImporter.OK0
                        else if g - pn =? 1 then ExcelImporter.OK1
                        else ExcelImporter.OK2), false)))
  /\ (g < pn -> v = (None, true))
  /\ (pn + 2 < g -> v = (Some ExcelImporter.FAILED, false))
  /\ (0 <= g - pn <= 2 ->
      ExcelImporter.in_edit t = true \/ ExcelImporter.finalized t = false ->
      v = (None, true)).
Proof.
  intros v. subst v.
  assert (Hbefore : g < pn ->
                    ExcelImporter.verify_excel_prediction g t pn w off
                    = (None, true)).
  { intros H. unfold ExcelImporter.verify_excel_prediction.
    destruct (g - pn <? 0) eqn:E; [reflexivity | lia]. }
  assert (Hbeyond : pn + 2 < g ->
                    ExcelImporter.verify_excel_prediction g t pn w off
                    = (Some ExcelImporter.FAILED, false)).
  { intros H. unfold ExcelImporter.verify_excel_prediction.
    destruct (g - pn <? 0) eqn:E; [lia |].
    destruct (g - pn >? 2) eqn:E'; [reflexivity | lia]. }
  split; [| split; [| split; [exact Hbefore | split; [exact Hbeyond |]]]].
  - rewrite (verify_excel_prediction_realigns g t pn w off).
    now rewrite (verify_excel_prediction_realigns g t pn w off').
  - destruct (Z_lt_dec g pn) as [H | H]; [left; now apply Hbefore |].
    destruct (Z_lt_dec (pn + 2) g) as [H' | H']; [right; left; now apply Hbeyond |].
    assert (Hr : 0 <= g - pn <= 2) by lia.
    destruct (ExcelImporter.in_edit t) eqn:He.
    { left. apply verify_excel_prediction_waits; [exact Hr | now left]. }
    destruct (ExcelImporter.finalized t) eqn:Hf.
    2:{ left. apply verify_excel_prediction_waits; [exact Hr | now right]. }
    rewrite (verify_excel_prediction_at_target g t pn w off Hr He Hf).
    destruct (ExcelImporter.extract_points_and_winner t) as [pt |].
    + destruct (match ExcelImporter.expected_of w with
                | ExcelImporter.joueur => pt >=? 7
                | ExcelImporter.banquier => pt <=? 4
                end).
      * right. right. split; [exact Hr | reflexivity].
      * destruct (g - pn <? 2); [now left | right; now left].
    + destruct (contains ExcelImporter.CONFIRMED t
                && negb (contains ExcelImporter.ALT_CONFIRMED t));
        [right; now left | now left].
  - intros Hr Hwait. now apply verify_excel_prediction_waits.
Qed.

Lemma imported_verdict_shape_witness :
  ExcelImporter.verify_excel_prediction 99 Scenario.msg_103 100 (lit "Joueur") 0
  = (None, true)
  /\ ExcelImporter.verify_excel_prediction 103 Scenario.msg_103 100 (lit "Joueur") 0
     = (Some ExcelImporter.FAILED, false)
  /\ ExcelImporter.verify_excel_prediction
       101 (lit "#N101. ⏰8(K♠8♠) - 5(2♦3♣)") 100 (lit "Joueur") 1
     = (None, true).
Proof.
  destruct (imported_verdict_shape 99 Scenario.msg_103 100 (lit "Joueur") 0 0)
    as (_ & _ & Hbefore & _).
  destruct (imported_verdict_shape 103 Scenario.msg_103 100 (lit "Joueur") 0 0)
    as (_ & _ & _ & Hbeyond & _).
  destruct (imported_verdict_shape 101 (lit "#N101. ⏰8(K♠8♠) - 5(2♦3♣)") 100
                                   (lit "Joueur") 1 1)
    as (_ & _ & _ & _ & Hwait).
  split; [apply Hbefore; lia | split; [apply Hbeyond; lia |]].
  apply Hwait; [lia | left; vm_compute; reflexivity].
Defined.

Lemma skip_loop_ge (g pn : Z) :
  forall fuel off, off <= skip_loop fuel g pn off.
Proof.
  induction fuel as [| f IH]; intros off; simpl; [lia |].
  destruct ((off <=? 2) && (g >? pn + off)); [| lia].
  specialize (IH (off + 1)). lia.
Qed.

Section ExcelDriverFacts.
Context {U : Unicode}.
Variable env : collaborators.

Lemma update_prediction_status_fields (p : ExcelImporter.excel_pred)
      (n : Z) (w s : text) (v : bool) :
  let p' := fst (update_prediction_status env p n w s v) in
  same_identity p p' /\ stored_offset p' = stored_offset p.
Proof.
  cbv zeta. unfold update_prediction_status, same_identity.
  destruct (truthy (ExcelImporter.message_id p)
            && truthy (ExcelImporter.channel_id p)); [| now repeat split].
  destruct (edit_message env _ _ _); now repeat split.
Qed.

Lemma excel_check_fields (g : Z) (t : text) (p : ExcelImporter.excel_pred) :
  stored_offset p <= 2 ->
  let p' := fst (excel_check env g t p (stored_offset p)) in
  same_identity p p' /\ stored_offset p <= stored_offset p' <= 2.
Proof.
  intros Ho. cbv zeta. unfold excel_check.
  destruct (ExcelImporter.verify_excel_prediction _ _ _ _ _) as [[[| c s] |] cont].
  - destruct (cont && (g =? ExcelImporter.numero p + stored_offset p)).
    + destruct (stored_offset p + 1 <=? 2) eqn:E.
      * unfold same_identity, stored_offset. cbn. unfold stored_offset in *.
        repeat split; lia.
      * destruct (update_prediction_status_fields
                    p (ExcelImporter.numero p) (ExcelImporter.victoire p)
                    ExcelImporter.FAILED true) as [Hi Hs].
        split; [exact Hi | lia].
    + unfold same_identity. cbn. repeat split; lia.
  - destruct (update_prediction_status_fields
                p (ExcelImporter.numero p) (ExcelImporter.victoire p)
                (c :: s) true) as [Hi Hs].
    split; [exact Hi | lia].
  - destruct (cont && (g =? ExcelImporter.numero p + stored_offset p)).
    + destruct (stored_offset p + 1 <=? 2) eqn:E.
      * unfold same_identity, stored_offset. cbn. unfold stored_offset in *.
        repeat split; lia.
      * destruct (update_prediction_status_fields
                    p (ExcelImporter.numero p) (ExcelImporter.victoire p)
                    ExcelImporter.FAILED true) as [Hi Hs].
        split; [exact Hi | lia].
    + unfold same_identity. cbn. repeat split; lia.
Qed.
End ExcelDriverFacts.

(** X13. A turn of [verify_excel_predictions] on an entry whose stored
    offset is at most 2 never lowers the offset and never takes it above 2,
    and leaves the number, the winner, the launch flag and the message and
    channel ids as they are: only [current_offset] and [verified] move. *)
Theorem imported_offset_monotone_and_capped `{U : Unicode} (env : collaborators)
        (g : Z) (t : text) (p : ExcelImporter.excel_pred) :
  stored_offset p <= 2 ->
  let p' := fst (excel_step env g t p) in
  same_identity p p' /\ stored_offset p <= stored_offset p' <= 2.
Proof.
  intros Ho. cbv zeta. unfold excel_step.
  destruct (negb (ExcelImporter.launched p) || ExcelImporter.verified p).
  { unfold same_identity. cbn. repeat split; lia. }
  fold (stored_offset p).
  destruct (g >? ExcelImporter.numero p + stored_offset p).
  - pose proof (skip_loop_ge g (ExcelImporter.numero p)
                             (skip_fuel (stored_offset p)) (stored_offset p)) as Hge.
    set (c := skip_loop (skip_fuel (stored_offset p)) g (ExcelImporter.numero p)
                        (stored_offset p)) in *.
    destruct (c >? 2) eqn:Ec.
    + destruct (update_prediction_status_fields env
                  p (ExcelImporter.numero p) (ExcelImporter.victoire p)
                  ExcelImporter.FAILED true) as [Hi Hs].
      split; [exact Hi | lia].
    + pose proof (excel_check_fields env g t (set_current_offset p c)) as Hc.
      unfold stored_offset at 1 2 3 in Hc.
      cbn [ExcelImporter.current_offset set_current_offset] in Hc.
      specialize (Hc ltac:(lia)).
      cbn [ExcelImporter.numero ExcelImporter.victoire set_current_offset].
      destruct Hc as [Hi Hb].
      split; [| lia].
      unfold same_identity in *. cbn in Hi. exact Hi.
  - now apply excel_check_fields.
Qed.

Lemma imported_offset_monotone_and_capped_witness :
  let p' := fst (excel_step Scenario.env_ok 101 Scenario.msg_100_point8
                            Scenario.excel_100) in
  same_identity Scenario.excel_100 p'
  /\ stored_offset Scenario.excel_100 <= stored_offset p' <= 2.
Proof.
  apply (imported_offset_monotone_and_capped Scenario.env_ok 101
           Scenario.msg_100_point8 Scenario.excel_100).
  vm_compute. discriminate.
Defined.

(** X14. A message for the very number an imported prediction waits on,
    when it is in edit or carries no finalization marker, is not evaluated
    by [verify_excel_prediction] (no status, "continue"); the pass
    nevertheless moves the entry on: it stores the next offset when the
    offset is below 2, and at offset 2 it hands the entry to
    [update_prediction_status] with [❌]. *)
Theorem waiting_message_moves_offset_on `{U : Unicode} (env : collaborators)
        (g : Z) (t : text) (p : ExcelImporter.excel_pred) :
  ExcelImporter.launched p = true ->
  ExcelImporter.verified p = false ->
  0 <= stored_offset p <= 2 ->
  g = ExcelImporter.numero p + stored_offset p ->
  ExcelImporter.in_edit t = true \/ ExcelImporter.finalized t = false ->
  ExcelImporter.verify_excel_prediction
    g t (ExcelImporter.numero p) (ExcelImporter.victoire p) (stored_offset p)
  = (None, true)
  /\ (stored_offset p < 2 ->
      excel_step env g t p = (set_current_offset p (stored_offset p + 1), []))
  /\ (stored_offset p = 2 ->
      excel_step env g t p
      = update_prediction_status env p (ExcelImporter.numero p)
                                 (ExcelImporter.victoire p)
                                 ExcelImporter.FAILED true).
Proof.
  intros Hl Hv Ho Hg Hwait.
  assert (Hverdict :
            ExcelImporter.verify_excel_prediction
              g t (ExcelImporter.numero p) (ExcelImporter.victoire p)
              (stored_offset p) = (None, true)).
  { apply verify_excel_prediction_waits; [lia | exact Hwait]. }
  split; [exact Hverdict |].
  assert (Hstep : excel_step env g t p
                  = if stored_offset p + 1 <=? 2
                    then (set_current_offset p (stored_offset p + 1), [])
                    else update_prediction_status env p (ExcelImporter.numero p)
                           (ExcelImporter.victoire p) ExcelImporter.FAILED true).
  { unfold excel_step. rewrite Hl, Hv. cbn [negb orb].
    fold (stored_offset p).
    destruct (g >? ExcelImporter.numero p + stored_offset p) eqn:E; [lia |].
    unfold excel_check. rewrite Hverdict.
    destruct (g =? ExcelImporter.numero p + stored_offset p) eqn:E'; [| lia].
    reflexivity. }
  rewrite Hstep. split; intros H.
  - destruct (stored_offset p + 1 <=? 2) eqn:E; [reflexivity | lia].
  - destruct (stored_offset p + 1 <=? 2) eqn:E; [lia | reflexivity].
Qed.

Lemma waiting_message_moves_offset_on_witness :
  excel_step Scenario.env_ok 100 (lit "#N100. ⏰8(K♠8♠) - 5(2♦3♣)")
             Scenario.excel_100
  = (set_current_offset Scenario.excel_100 (0 + 1), []).
Proof.
  refine (proj1 (proj2 (waiting_message_moves_offset_on
                          (U := ascii_tables) Scenario.env_ok 100
                          (lit "#N100. ⏰8(K♠8♠) - 5(2♦3♣)") Scenario.excel_100
                          eq_refl eq_refl _ eq_refl _)) _);
    [cbn; lia | left; vm_compute; reflexivity | cbn; lia].
Defined.

(** X15. An entry without message id or without channel id (such are the
    entries that the scan has marked as consecutive) is never marked
    verified and never edited by the pass. *)
Theorem entry_without_ids_never_closed `{U : Unicode} (env : collaborators)
        (g : Z) (t : text) (p : ExcelImporter.excel_pred) :
  truthy (ExcelImporter.message_id p) = false
  \/ truthy (ExcelImporter.channel_id p) = false ->
  snd (excel_step env g t p) = []
  /\ ExcelImporter.verified (fst (excel_step env g t p))
     = ExcelImporter.verified p.
Proof.
  intros Hids.
  assert (Hups : forall q n w s v,
             ExcelImporter.message_id q = ExcelImporter.message_id p ->
             ExcelImporter.channel_id q = ExcelImporter.channel_id p ->
             update_prediction_status env q n w s v = (q, [])).
  { intros q n w s v Hm Hc. unfold update_prediction_status. rewrite Hm, Hc.
    destruct Hids as [-> | ->]; [reflexivity | now rewrite andb_false_r]. }
  assert (Hcheck : forall q c,
             ExcelImporter.message_id q = ExcelImporter.message_id p ->
             ExcelImporter.channel_id q = ExcelImporter.channel_id p ->
             snd (excel_check env g t q c) = []
             /\ ExcelImporter.verified (fst (excel_check env g t q c))
                = ExcelImporter.verified q).
  { intros q c Hm Hc. unfold excel_check.
    destruct (ExcelImporter.verify_excel_prediction _ _ _ _ _)
      as [[[| x s] |] cont];
      repeat match goal with
             | |- context [if ?b then _ else _] => destruct b
             end;
      rewrite ?Hups by assumption; cbn; split; reflexivity. }
  unfold excel_step.
  destruct (negb (ExcelImporter.launched p) || ExcelImporter.verified p);
    [now split |].
  destruct (g >? _).
  - destruct (skip_loop _ _ _ _ >? 2).
    + rewrite Hups by reflexivity. now split.
    + exact (Hcheck (set_current_offset p _) _ eq_refl eq_refl).
  - apply Hcheck; reflexivity.
Qed.

Lemma entry_without_ids_never_closed_witness :
  let p := ExcelImporter.mark_skipped (snd (Scenario.pending 57)) in
  snd (excel_step Scenario.env_ok 60 Scenario.msg_103 p) = []
  /\ ExcelImporter.verified (fst (excel_step Scenario.env_ok 60 Scenario.msg_103 p))
     = false.
Proof.
  intros p.
  apply (entry_without_ids_never_closed Scenario.env_ok 60 Scenario.msg_103 p).
  left. reflexivity.
Defined.

Lemma get_prediction_format_shape `{U : Unicode} (n : Z) (w : text) :
  ExcelImporter.get_prediction_format n w
  = (lit "🔵" ++ str n ++ mark_of w) ++ PENDING_TOKEN.
Proof.
  unfold ExcelImporter.get_prediction_format, mark_of.
  change (lit ":🅿️+6,5🔵statut :⏳") with (JOUEUR_MARK ++ PENDING_TOKEN).
  change (lit ":Ⓜ️-4,,5🔵statut :⏳") with (BANQUIER_MARK ++ PENDING_TOKEN).
  destruct (contains (lit "joueur") (lower w) || contains (lit "player") (lower w));
    [| destruct (contains (lit "banquier") (lower w)
                 || contains (lit "banker") (lower w))];
    now rewrite <- !app_assoc.
Qed.

Lemma mark_of_no_s `{U : Unicode} (w : text) :
  Forall (fun c => c <> 115%N) (mark_of w).
Proof.
  destruct marks_no_s as [Hj Hb]. unfold mark_of.
  repeat match goal with
         | |- context [if ?b then _ else _] => destruct b
         end; assumption.
Qed.

Lemma rsplit1_head_pending (pre : text) :
  Forall (fun c => c <> 115%N) pre ->
  rsplit1_head (pre ++ PENDING_TOKEN) PENDING_TOKEN = pre.
Proof.
  intros Hpre. unfold rsplit1_head.
  change PENDING_TOKEN with (115%N :: lit "tatut :⏳").
  rewrite (last_index_prefix 115%N (lit "tatut :⏳") pre _ Hpre 0%nat None).
  cbn [Nat.add].
  change (last_index (115%N :: lit "tatut :⏳") (115%N :: lit "tatut :⏳")
                     (List.length pre) None)
    with (Some (List.length pre)).
  apply firstn_prefix.
Qed.

(** X16. The text that the imported tracker sends to [edit_message] for the
    number [n], the winner [w] and the status [s] is the prediction text of
    [get_prediction_format] with the pending token replaced by the status
    line and nothing else touched; splitting at the last ["statut :⏳"] and
    replacing it give the same text. *)
Theorem imported_edit_replaces_status_only `{U : Unicode} (env : collaborators)
        (pred : ExcelImporter.excel_pred) (n : Z) (w s : text) (v : bool) :
  truthy (ExcelImporter.message_id pred) = true ->
  truthy (ExcelImporter.channel_id pred) = true ->
  snd (update_prediction_status env pred n w s v)
  = [(get_id (ExcelImporter.channel_id pred),
      get_id (ExcelImporter.message_id pred),
      lit "🔵" ++ str n ++ mark_of w ++ lit "statut :" ++ s)]
  /\ replace (ExcelImporter.get_prediction_format n w) PENDING_TOKEN
             (lit "statut :" ++ s)
     = lit "🔵" ++ str n ++ mark_of w ++ lit "statut :" ++ s.
Proof.
  intros Hm Hc.
  assert (Hpre : Forall (fun c => c <> 115%N) (lit "🔵" ++ str n ++ mark_of w)).
  { apply prediction_prefix_no_s, mark_of_no_s. }
  split.
  - unfold update_prediction_status. rewrite Hm, Hc. cbn [andb].
    rewrite get_prediction_format_shape, (rsplit1_head_pending _ Hpre).
    rewrite <- !app_assoc.
    destruct (edit_message env _ _ _); reflexivity.
  - rewrite get_prediction_format_shape. unfold replace.
    change PENDING_TOKEN with (115%N :: lit "tatut :⏳").
    rewrite (replace_from_prefix 115%N (lit "tatut :⏳") _ _ _ Hpre).
    cbn [replace_from starts_with lit]. cbn.
    now rewrite app_nil_r, <- !app_assoc.
Qed.

Lemma imported_edit_replaces_status_only_witness :
  snd (update_prediction_status Scenario.env_ok Scenario.excel_100 100
                                (lit "Joueur") ExcelImporter.FAILED true)
  = [(Scenario.display_channel, 7001,
      lit "🔵" ++ str 100 ++ mark_of (lit "Joueur") ++ lit "statut :"
      ++ ExcelImporter.FAILED)].
Proof.
  apply (imported_edit_replaces_status_only Scenario.env_ok Scenario.excel_100 100
           (lit "Joueur") ExcelImporter.FAILED true);
    reflexivity.
Defined.



(** ** The import *)

Section ImportFacts.
Context {U : Unicode}.
Variable replace_mode : bool.
Variable self_predictions : ExcelImporter.dict ExcelImporter.excel_pred.

Let step := ExcelImporter.import_row replace_mode self_predictions.

(** What one row does: it is passed over, or counted as already launched
    (fusion only), or counted as consecutive, or stored as a fresh entry
    under the decimal form of its number, which becomes the comparison
    point. *)
Lemma import_row_cases (st : ExcelImporter.import_state) (r : ExcelImporter.row) :
  (ExcelImporter.row_complete r = false /\ step st r = st)
  \/ (ExcelImporter.row_complete r = true
      /\ exists n,
          ExcelImporter.cell_numero r = Some n /\ n <> 0
          /\ ((replace_mode = false
               /\ ExcelImporter.launched_in self_predictions (str n) = true
               /\ ExcelImporter.imp_predictions (step st r)
                  = ExcelImporter.imp_predictions st
               /\ ExcelImporter.last_numero (step st r) = ExcelImporter.last_numero st
               /\ ExcelImporter.imported_count (step st r)
                  = ExcelImporter.imported_count st
               /\ ExcelImporter.skipped_count (step st r)
                  = ExcelImporter.skipped_count st + 1
               /\ ExcelImporter.consecutive_skipped (step st r)
                  = ExcelImporter.consecutive_skipped st)
              \/ (ExcelImporter.imp_predictions (step st r)
                  = ExcelImporter.imp_predictions st
                  /\ ExcelImporter.last_numero (step st r)
                     = ExcelImporter.last_numero st
                  /\ ExcelImporter.imported_count (step st r)
                     = ExcelImporter.imported_count st
                  /\ ExcelImporter.skipped_count (step st r)
                     = ExcelImporter.skipped_count st
                  /\ ExcelImporter.consecutive_skipped (step st r)
                     = ExcelImporter.consecutive_skipped st + 1)
              \/ (exists e,
                     ExcelImporter.fresh_entry (str n, e)
                     /\ ExcelImporter.numero e = n
                     /\ (replace_mode = false ->
                         ExcelImporter.launched_in self_predictions (str n) = false)
                     /\ ExcelImporter.imp_predictions (step st r)
                        = ExcelImporter.dict_set (str n) e
                                                 (ExcelImporter.imp_predictions st)
                     /\ ExcelImporter.last_numero (step st r) = Some n
                     /\ ExcelImporter.imported_count (step st r)
                        = ExcelImporter.imported_count st + 1
                     /\ ExcelImporter.skipped_count (step st r)
                        = ExcelImporter.skipped_count st
                     /\ ExcelImporter.consecutive_skipped (step st r)
                        = ExcelImporter.consecutive_skipped st))).
Proof.
  unfold step, ExcelImporter.import_row, ExcelImporter.row_complete,
    ExcelImporter.launched_in.
  destruct (ExcelImporter.cell_date r) as [[| c d] |];
    cbn [ExcelImporter.text_truthy negb orb andb]; try (left; now split).
  destruct (ExcelImporter.cell_numero r) as [n |];
    cbn [ExcelImporter.int_truthy negb orb andb]; try (left; now split).
  destruct (n =? 0) eqn:En; cbn [negb orb andb]; try (left; now split).
  destruct (ExcelImporter.cell_victoire r) as [[| c' v] |];
    cbn [ExcelImporter.text_truthy negb orb andb]; try (left; now split).
  right. split; [reflexivity |]. exists n. split; [reflexivity |].
  split; [lia |].
  destruct replace_mode; cbn [negb andb].
  - destruct (match ExcelImporter.last_numero st with
              | Some l => n =? l + 1
              | None => false
              end).
    + right. left. cbn. now repeat split.
    + right. right. eexists.
      repeat split; first [reflexivity | (cbn; lia) | discriminate].
  - destruct (match ExcelImporter.dict_get (str n) self_predictions with
              | Some p => ExcelImporter.launched p
              | None => false
              end) eqn:El.
    + left. cbn. now repeat split.
    + destruct (match ExcelImporter.last_numero st with
                | Some l => n =? l + 1
                | None => false
                end).
      * right. left. cbn. now repeat split.
      * right. right. eexists.
        repeat split;
          first [reflexivity | (cbn; lia) | (intros _; exact El)].
Qed.

Lemma dict_set_length {V : Type} (k : text) (v : V) (d : ExcelImporter.dict V) :
  (List.length (ExcelImporter.dict_set k v d) <= S (List.length d))%nat.
Proof.
  induction d as [| [k' v'] d IH]; simpl; [lia |].
  destruct (text_eqb k k'); simpl; lia.
Qed.

(** The invariants of the loop of [import_excel]. *)
Lemma import_fold_invariant :
  forall rows st,
    Forall ExcelImporter.fresh_entry (ExcelImporter.imp_predictions st) ->
    Forall (fun kv => replace_mode = false ->
                      ExcelImporter.launched_in self_predictions (fst kv) = false)
           (ExcelImporter.imp_predictions st) ->
    let st' := fold_left step rows st in
    Forall ExcelImporter.fresh_entry (ExcelImporter.imp_predictions st')
    /\ Forall (fun kv => replace_mode = false ->
                         ExcelImporter.launched_in self_predictions (fst kv) = false)
              (ExcelImporter.imp_predictions st')
    /\ ExcelImporter.imported_count st' + ExcelImporter.skipped_count st'
       + ExcelImporter.consecutive_skipped st'
       = ExcelImporter.imported_count st + ExcelImporter.skipped_count st
         + ExcelImporter.consecutive_skipped st
         + Z.of_nat (List.length (filter ExcelImporter.row_complete rows))
    /\ Z.of_nat (List.length (ExcelImporter.imp_predictions st'))
       - ExcelImporter.imported_count st'
       <= Z.of_nat (List.length (ExcelImporter.imp_predictions st))
          - ExcelImporter.imported_count st
    /\ (replace_mode = true ->
        ExcelImporter.skipped_count st' = ExcelImporter.skipped_count st).
Proof.
  induction rows as [| r rows IH]; intros st Hf Hl.
  - cbn. repeat split; auto; lia.
  - cbn [fold_left filter].
    destruct (import_row_cases st r) as [[Hc E] | (Hc & n & Hn & Hn0 & Hcase)].
    + rewrite E, Hc. now apply IH.
    + rewrite Hc. cbn [List.length].
      destruct Hcase as [(Hm & Hla & E1 & E2 & E3 & E4 & E5)
                        | [(E1 & E2 & E3 & E4 & E5)
                          | (e & Hfresh & Hnum & Hnl & E1 & E2 & E3 & E4 & E5)]].
      * specialize (IH (step st r)). rewrite E1 in IH.
        specialize (IH Hf Hl). cbv zeta in IH.
        destruct IH as (I1 & I2 & I3 & I4 & I5).
        repeat split; auto; try lia. intros Hr. congruence.
      * specialize (IH (step st r)). rewrite E1 in IH.
        specialize (IH Hf Hl). cbv zeta in IH.
        destruct IH as (I1 & I2 & I3 & I4 & I5).
        repeat split; auto; try lia. intros Hr. rewrite (I5 Hr). exact E4.
      * specialize (IH (step st r)). rewrite E1 in IH.
        assert (Hf' : Forall ExcelImporter.fresh_entry
                             (ExcelImporter.dict_set (str n) e
                                (ExcelImporter.imp_predictions st)))
          by (now apply dict_set_Forall).
        assert (Hl' : Forall (fun kv => replace_mode = false ->
                                        ExcelImporter.launched_in self_predictions
                                                                  (fst kv) = false)
                             (ExcelImporter.dict_set (str n) e
                                (ExcelImporter.imp_predictions st)))
          by (apply dict_set_Forall; [exact Hnl | exact Hl]).
        specialize (IH Hf' Hl'). cbv zeta in IH.
        destruct IH as (I1 & I2 & I3 & I4 & I5).
        pose proof (dict_set_length (str n) e (ExcelImporter.imp_predictions st)).
        repeat split; auto; try lia. intros Hr. rewrite (I5 Hr). exact E4.
Qed.
End ImportFacts.

Lemma dict_set_keys {V : Type} (k : text) (v : V) (d : ExcelImporter.dict V) :
  map fst (ExcelImporter.dict_set k v d) = map fst d
  \/ (~ In k (map fst d) /\ map fst (ExcelImporter.dict_set k v d) = map fst d ++ [k]).
Proof.
  induction d as [| [k' v'] d IH]; simpl.
  - right. split; [tauto | reflexivity].
  - destruct (text_eqb k k') eqn:E; simpl; [now left |].
    destruct IH as [-> | [Hn ->]]; [now left |].
    right. split; [| reflexivity].
    intros [<- | H]; [now rewrite text_eqb_refl in E | contradiction].
Qed.

Lemma dict_set_NoDup {V : Type} (k : text) (v : V) (d : ExcelImporter.dict V) :
  NoDup (map fst d) -> NoDup (map fst (ExcelImporter.dict_set k v d)).
Proof.
  intros Hd. destruct (dict_set_keys k v d) as [-> | [Hn ->]]; [exact Hd |].
  apply NoDup_app; [exact Hd | repeat constructor; intros [] |].
  intros x Hx [<- | []]. contradiction.
Qed.

Lemma import_fold_NoDup `{U : Unicode} (mode : bool)
      (self_predictions : ExcelImporter.dict ExcelImporter.excel_pred) :
  forall rows st,
    NoDup (map fst (ExcelImporter.imp_predictions st)) ->
    NoDup (map fst (ExcelImporter.imp_predictions
                      (fold_left (ExcelImporter.import_row mode self_predictions)
                                 rows st))).
Proof.
  induction rows as [| r rows IH]; intros st Hst; [exact Hst |].
  cbn [fold_left]. apply IH.
  destruct (import_row_cases mode self_predictions st r)
    as [[_ ->] | (_ & n & _ & _ & [(_ & _ & -> & _) | [(-> & _) | (e & _ & _ & _ & -> & _)]])];
    try exact Hst.
  now apply dict_set_NoDup.
Qed.

Lemma imported_entries_are_fresh_aux `{U : Unicode} (self : ExcelImporter.manager)
      (rows : list ExcelImporter.row) :
  Forall ExcelImporter.fresh_entry
         (ExcelImporter.predictions (fst (ExcelImporter.import_excel self rows true)))
  /\ NoDup (map fst (ExcelImporter.predictions
                       (fst (ExcelImporter.import_excel self rows true)))).
Proof.
  unfold ExcelImporter.import_excel.
  cbn [fst ExcelImporter.predictions]. unfold ExcelImporter.import_rows.
  split.
  - apply (import_fold_invariant true (ExcelImporter.predictions self) rows
                                 ExcelImporter.import_init);
      constructor.
  - apply import_fold_NoDup. constructor.
Qed.


(** X19. The counters that [import_excel] reports add up: every row with
    three truthy cells is counted once, as imported, as already launched or
    as consecutive; the rows with an empty cell are counted nowhere; no more
    entries are written than rows are counted as imported; and in
    replacement mode no row is counted as already launched. *)
Theorem import_counters_add_up `{U : Unicode} (self : ExcelImporter.manager)
        (rows : list ExcelImporter.row) (mode : bool) :
  let st := snd (ExcelImporter.import_excel self rows mode) in
  ExcelImporter.imported_count st + ExcelImporter.skipped_count st
  + ExcelImporter.consecutive_skipped st
  = Z.of_nat (List.length (filter ExcelImporter.row_complete rows))
  /\ Z.of_nat (List.length (ExcelImporter.imp_predictions st))
     <= ExcelImporter.imported_count st
  /\ (mode = true -> ExcelImporter.skipped_count st = 0).
Proof.
  cbv zeta. unfold ExcelImporter.import_excel. cbn [snd].
  unfold ExcelImporter.import_rows.
  destruct (import_fold_invariant mode (ExcelImporter.predictions self) rows
              ExcelImporter.import_init ltac:(constructor) ltac:(constructor))
    as (_ & _ & Hsum & Hlen & Hskip).
  cbn in Hsum, Hlen, Hskip. repeat split; try lia. exact Hskip.
Qed.

Lemma import_counters_add_up_witness :
  ExcelImporter.skipped_count
    (snd (ExcelImporter.import_excel Scenario.empty_manager Scenario.sheet true))
  = 0.
Proof.
  apply (import_counters_add_up Scenario.empty_manager Scenario.sheet true).
  reflexivity.
Defined.



Lemma dict_update_get_other {V : Type} (k : text) :
  forall (new d : ExcelImporter.dict V),
    ~ In k (map fst new) ->
    ExcelImporter.dict_get k (ExcelImporter.dict_update d new)
    = ExcelImporter.dict_get k d.
Proof.
  unfold ExcelImporter.dict_update.
  induction new as [| [k' v'] new IH]; intros d Hk; [reflexivity |].
  cbn [fold_left fst snd]. cbn [map fst] in Hk.
  rewrite IH by (intros H; apply Hk; now right).
  apply dict_get_set_other. intros ->. apply Hk. now left.
Qed.

(** X21. In fusion mode an entry that is already launched is out of reach
    of the import: whatever the sheet holds under its key, the entry is
    found unchanged afterwards. *)
Theorem fusion_import_keeps_launched `{U : Unicode} (self : ExcelImporter.manager)
        (rows : list ExcelImporter.row) (key : text) (p : ExcelImporter.excel_pred) :
  ExcelImporter.dict_get key (ExcelImporter.predictions self) = Some p ->
  ExcelImporter.launched p = true ->
  ExcelImporter.dict_get key
    (ExcelImporter.predictions (fst (ExcelImporter.import_excel self rows false)))
  = Some p.
Proof.
  intros Hget Hl. unfold ExcelImporter.import_excel.
  cbn [fst ExcelImporter.predictions]. unfold ExcelImporter.import_rows.
  rewrite dict_update_get_other; [exact Hget |].
  destruct (import_fold_invariant false (ExcelImporter.predictions self) rows
              ExcelImporter.import_init ltac:(constructor) ltac:(constructor))
    as (_ & Hnl & _).
  intros Hin. apply in_map_iff in Hin. destruct Hin as ([k v] & Hk & Hin).
  cbn [fst] in Hk. subst k.
  rewrite Forall_forall in Hnl. specialize (Hnl _ Hin eq_refl).
  unfold ExcelImporter.launched_in in Hnl. cbn [fst] in Hnl.
  rewrite Hget in Hnl. congruence.
Qed.

Lemma fusion_import_keeps_launched_witness :
  let self := {| ExcelImporter.predictions := [(str 100, Scenario.excel_100)];
                 ExcelImporter.last_launched_numero := Some 100 |} in
  ExcelImporter.dict_get (str 100)
    (ExcelImporter.predictions
       (fst (ExcelImporter.import_excel self (map Scenario.sheet_row [100; 102])
                                        false)))
  = Some Scenario.excel_100.
Proof.
  intros self.
  apply (fusion_import_keeps_launched self (map Scenario.sheet_row [100; 102])
           (str 100) Scenario.excel_100);
    reflexivity.
Defined.

(** ** Launching *)

Lemma NoDup_keys_In_get {V : Type} (k : text) (v : V) (d : ExcelImporter.dict V) :
  NoDup (map fst d) -> In (k, v) d -> ExcelImporter.dict_get k d = Some v.
Proof.
  induction d as [| [k' v'] d IH]; intros Hnd Hin; [contradiction |].
  cbn [map fst] in Hnd. inversion Hnd as [| ? ? Hk' Hd]; subst.
  cbn [ExcelImporter.dict_get]. destruct Hin as [E | Hin].
  - injection E as -> ->. now rewrite text_eqb_refl.
  - destruct (text_eqb k k') eqn:E.
    + apply text_eqb_eq in E. subst k'. exfalso. apply Hk'.
      apply in_map_iff. now exists (k, v).
    + now apply IH.
Qed.

(** X22. [mark_as_launched] on a key that is not there changes nothing.  On
    a key that is there it stores the message and channel ids with offset 0
    and the launch flag, makes the number of the entry the last launched
    number, and leaves the keys, their order and every other entry as they
    were; and when the keys are distinct, no later scan of
    [find_close_prediction] returns an entry under that key again. *)
Theorem mark_as_launched_effect (self : ExcelImporter.manager) (key : text)
        (msg_id chan_id : Z) :
  (ExcelImporter.dict_get key (ExcelImporter.predictions self) = None ->
   ExcelImporter.mark_as_launched self key msg_id chan_id = self)
  /\ (forall p,
         ExcelImporter.dict_get key (ExcelImporter.predictions self) = Some p ->
         let self' := ExcelImporter.mark_as_launched self key msg_id chan_id in
         ExcelImporter.dict_get key (ExcelImporter.predictions self')
         = Some (ExcelImporter.set_launched p msg_id chan_id)
         /\ ExcelImporter.last_launched_numero self' = Some (ExcelImporter.numero p)
         /\ map fst (ExcelImporter.predictions self')
            = map fst (ExcelImporter.predictions self)
         /\ (forall k, k <> key ->
                       ExcelImporter.dict_get k (ExcelImporter.predictions self')
                       = ExcelImporter.dict_get k (ExcelImporter.predictions self))
         /\ (NoDup (map fst (ExcelImporter.predictions self)) ->
             forall cur tol q,
               snd (ExcelImporter.find_close_prediction self' cur tol)
               <> Some (key, q))).
Proof.
  split.
  - intros Hn. unfold ExcelImporter.mark_as_launched. now rewrite Hn.
  - intros p Hp self'. subst self'. unfold ExcelImporter.mark_as_launched.
    rewrite Hp. cbn [ExcelImporter.predictions ExcelImporter.last_launched_numero].
    assert (Hkeys : map fst (ExcelImporter.dict_set key
                               (ExcelImporter.set_launched p msg_id chan_id)
                               (ExcelImporter.predictions self))
                    = map fst (ExcelImporter.predictions self))
      by (eapply dict_set_keys_present; exact Hp).
    repeat apply conj.
    + apply dict_get_set_same.
    + reflexivity.
    + exact Hkeys.
    + intros k Hk. now apply dict_get_set_other.
    + intros Hnd cur tol q E.
      rewrite find_close_prediction_unfold in E.
      cbn [snd ExcelImporter.predictions ExcelImporter.last_launched_numero] in E.
      pose proof (find_close_loop_result (Some (ExcelImporter.numero p)) cur tol
                    (ExcelImporter.dict_set key
                       (ExcelImporter.set_launched p msg_id chan_id)
                       (ExcelImporter.predictions self)) None None I) as Hres.
      rewrite E in Hres. destruct Hres as (Hc & [Hx | Hin] & _); [discriminate |].
      apply NoDup_keys_In_get in Hin; [| now rewrite Hkeys].
      rewrite dict_get_set_same in Hin. injection Hin as <-.
      unfold ExcelImporter.candidate, ExcelImporter.in_window in Hc.
      cbn in Hc. discriminate.
Qed.

Lemma mark_as_launched_effect_witness :
  let self := Scenario.manager_after 50 [57; 59] in
  ExcelImporter.dict_get (str 57)
    (ExcelImporter.predictions
       (ExcelImporter.mark_as_launched self (str 57) 7001 Scenario.display_channel))
  = Some (ExcelImporter.set_launched (snd (Scenario.pending 57)) 7001
                                     Scenario.display_channel)
  /\ ExcelImporter.mark_as_launched self (str 58) 7001 Scenario.display_channel
     = self.
Proof.
  intros self.
  destruct (mark_as_launched_effect self (str 57) 7001 Scenario.display_channel)
    as [_ Hthere].
  destruct (mark_as_launched_effect self (str 58) 7001 Scenario.display_channel)
    as [Hmissing _].
  split.
  - apply (Hthere (snd (Scenario.pending 57))). reflexivity.
  - apply Hmissing. reflexivity.
Defined.

(** ** Reports *)

Lemma insert_by_numero_perm (x : ExcelImporter.pending_item) :
  forall l, Permutation (ExcelImporter.insert_by_numero x l) (x :: l).
Proof.
  induction l as [| y l IH]; cbn; [reflexivity |].
  destruct (ExcelImporter.item_numero x <=? ExcelImporter.item_numero y);
    [reflexivity |].
  rewrite IH. apply perm_swap.
Qed.

Lemma sorted_by_numero_perm :
  forall l, Permutation (ExcelImporter.sorted_by_numero l) l.
Proof.
  induction l as [| x l IH]; cbn; [reflexivity |].
  rewrite insert_by_numero_perm. now constructor.
Qed.

Lemma insert_by_numero_sorted (x : ExcelImporter.pending_item) :
  forall l,
    Sorted (fun a b => ExcelImporter.item_numero a <= ExcelImporter.item_numero b) l ->
    Sorted (fun a b => ExcelImporter.item_numero a <= ExcelImporter.item_numero b)
           (ExcelImporter.insert_by_numero x l).
Proof.
  induction l as [| y l IH]; intros Hs; cbn.
  - repeat constructor.
  - destruct (ExcelImporter.item_numero x <=? ExcelImporter.item_numero y) eqn:E.
    + constructor; [exact Hs | constructor; lia].
    + inversion Hs as [| ? ? Hl Hhd]; subst.
      constructor; [now apply IH |].
      destruct l as [| z l]; cbn.
      * constructor. lia.
      * destruct (ExcelImporter.item_numero x <=? ExcelImporter.item_numero z);
          constructor; [lia |].
        inversion Hhd; assumption.
Qed.

Lemma filter_split_length {A : Type} (f : A -> bool) (l : list A) :
  (List.length (filter f l) + List.length (filter (fun x => negb (f x)) l)
   = List.length l)%nat.
Proof.
  induction l as [| x l IH]; cbn; [reflexivity |].
  destruct (f x); cbn; lia.
Qed.

(** X23. The report of [get_stats] and the list of
    [get_pending_predictions] agree: the pending count is the number of
    listed items and is not negative, launched and pending add up to the
    total; the list holds exactly the entries that are not launched, each
    once, in the order of their numbers. *)
Theorem pending_report_is_sorted_and_complete (self : ExcelImporter.manager) :
  let s := ExcelImporter.get_stats self in
  let l := ExcelImporter.get_pending_predictions self in
  ExcelImporter.stats_total s
  = ExcelImporter.stats_launched s + ExcelImporter.stats_pending s
  /\ ExcelImporter.stats_pending s = Z.of_nat (List.length l)
  /\ Sorted (fun a b => ExcelImporter.item_numero a <= ExcelImporter.item_numero b) l
  /\ Permutation l
       (map ExcelImporter.pending_of
            (filter (fun kv => negb (ExcelImporter.launched (snd kv)))
                    (ExcelImporter.predictions self))).
Proof.
  cbv zeta. unfold ExcelImporter.get_stats, ExcelImporter.get_pending_predictions.
  cbn [ExcelImporter.stats_total ExcelImporter.stats_launched
       ExcelImporter.stats_pending].
  split; [lia |]. split.
  - rewrite (Permutation_length (sorted_by_numero_perm _)), length_map.
    pose proof (filter_split_length
                  (fun kv : text * ExcelImporter.excel_pred =>
                     ExcelImporter.launched (snd kv))
                  (ExcelImporter.predictions self)) as H.
    cbv beta in H. lia.
  - split; [| apply sorted_by_numero_perm].
    induction (map ExcelImporter.pending_of _) as [| x l IH]; cbn;
      [constructor | now apply insert_by_numero_sorted].
Qed.

(** ** The configuration store *)

(** X24. [YamlDatabase]: a value written with [set_config] is the one that
    [get_config] reads back under the same key, the values of the other keys
    and the other sections of the data are as before; a key never written
    and every key after [reset_all_data] read as nothing. *)
Theorem yaml_config_round_trip (V : Type) (db : YamlManager.YamlDatabase V)
        (key : text) (value : V) :
  YamlManager.get_config V (YamlManager.set_config V db key value) key = Some value
  /\ (forall k, k <> key ->
                YamlManager.get_config V (YamlManager.set_config V db key value) k
                = YamlManager.get_config V db k)
  /\ (forall section, section <> YamlManager.CONFIG ->
                      ExcelImporter.dict_get section
                        (YamlManager.data V (YamlManager.set_config V db key value))
                      = ExcelImporter.dict_get section (YamlManager.data V db))
  /\ YamlManager.get_config V (YamlManager.reset_all_data V db) key = None
  /\ (ExcelImporter.dict_get YamlManager.CONFIG (YamlManager.data V db) = None ->
      YamlManager.get_config V db key = None).
Proof.
  unfold YamlManager.get_config, YamlManager.set_config, YamlManager.reset_all_data.
  destruct (ExcelImporter.dict_get YamlManager.CONFIG (YamlManager.data V db))
    as [config |] eqn:Hc.
  - rewrite Hc. cbn [YamlManager.data].
    rewrite dict_get_set_same.
    repeat apply conj.
    + apply dict_get_set_same.
    + intros k Hk. now apply dict_get_set_other.
    + intros section Hs. now apply dict_get_set_other.
    + reflexivity.
    + discriminate.
  - rewrite dict_get_set_same. cbn [YamlManager.data].
    rewrite dict_get_set_same.
    repeat apply conj.
    + apply dict_get_set_same.
    + intros k Hk. now rewrite dict_get_set_other.
    + intros section Hs. rewrite !dict_get_set_other by exact Hs. reflexivity.
    + reflexivity.
    + reflexivity.
Qed.

Lemma yaml_config_round_trip_witness :
  let db := {| YamlManager.data := [] |} in
  YamlManager.get_config Z
    (YamlManager.set_config Z (YamlManager.set_config Z db (lit "a_offset") 1)
                            (lit "stat_channel") (-1001))
    (lit "a_offset")
  = Some 1.
Proof.
  intros db.
  destruct (yaml_config_round_trip Z (YamlManager.set_config Z db (lit "a_offset") 1)
              (lit "stat_channel") (-1001)) as (_ & Hother & _).
  rewrite Hother by (vm_compute; discriminate).
  apply (yaml_config_round_trip Z db (lit "a_offset") 1).
Defined.

(** ** Commands and what follows from them *)

(** X25. [/a] from a sender who may configure accepts every run of digits,
    with no upper bound (unlike [/r]): the value becomes [a_offset], the
    registry and [r_offset] stay as they are, the file holds the value once
    the write goes through; and the next message that triggers a prediction
    registers it for its game number plus that value.  From another sender
    the command changes nothing. *)
Theorem a_offset_unbounded_and_used `{U : Unicode} (env : collaborators)
        (ADMIN_ID : option Z) (sender_id : Z) (digits : text)
        (ev : event) (w : world) :
  digits <> [] ->
  let result := set_a_offset env ADMIN_ID sender_id (Some digits) w in
  (truthy ADMIN_ID = true -> sender_id <> get_id ADMIN_ID ->
   result = (w, NotAdministrator))
  /\ (truthy ADMIN_ID = false \/ sender_id = get_id ADMIN_ID ->
      let w1 := fst result in
      let w2 := handle_new_message env ev w1 in
      a_offset w1 = int_of digits
      /\ r_offset w1 = r_offset w
      /\ active_predictions w1 = active_predictions w
      /\ (config_writable env = true ->
          option_map saved_a_offset (config_file w1) = Some (int_of digits))
      /\ (map fst (active_predictions w2) = map fst (active_predictions w)
          \/ exists g,
              extract_game_number env (raw_text ev) = Some g
              /\ map fst (active_predictions w2)
                 = map fst (active_predictions w) ++ [g + int_of digits])).
Proof.
  intros Hd result. subst result. unfold set_a_offset.
  destruct digits as [| d ds]; [contradiction |].
  split.
  - intros Ha Hs. rewrite Ha.
    destruct (Z.eqb_spec sender_id (get_id ADMIN_ID)); [contradiction | reflexivity].
  - intros Hadmin.
    assert (Hgate : truthy ADMIN_ID && negb (sender_id =? get_id ADMIN_ID) = false).
    { destruct Hadmin as [-> | ->]; [reflexivity |].
      rewrite Z.eqb_refl. apply andb_false_r. }
    rewrite Hgate. cbn [fst].
    set (w1 := save_config env (with_a_offset w (int_of (d :: ds)))).
    assert (Ha : a_offset w1 = int_of (d :: ds))
      by (subst w1; unfold save_config; destruct (config_writable env); reflexivity).
    assert (Hact : active_predictions w1 = active_predictions w)
      by (subst w1; now rewrite save_config_active).
    cbv zeta. repeat apply conj.
    + exact Ha.
    + subst w1. now rewrite save_config_r_offset.
    + exact Hact.
    + intros Hw. subst w1. unfold save_config. now rewrite Hw.
    + destruct (handle_new_message_outcome env ev w1)
        as [E | (g & Hg & Hg0 & Hout)].
      { left. now rewrite E, Hact. }
      cbv zeta in Hout.
      destruct Hout as [E | (sent_id & display & _ & _ & _ & _ & _ & _ & E)].
      { left. now rewrite E, verify_pass_keys, Hact. }
      right. exists g. split; [exact Hg |].
      rewrite E, save_config_active. unfold register.
      cbn [active_predictions with_active].
      destruct (verify_pass_frame env g (raw_text ev) w1) as (_ & _ & Ha' & _).
      rewrite map_app, verify_pass_keys, Hact, Ha', Ha. reflexivity.
Qed.

Lemma a_offset_unbounded_and_used_witness :
  let w1 := fst (set_a_offset Scenario.env_ok None 42 (Some (lit "250"))
                              Scenario.world0) in
  a_offset w1 = int_of (lit "250")
  /\ (map fst (active_predictions
                 (handle_new_message Scenario.env_ok
                    (Scenario.from_source Scenario.msg_881_total7) w1))
      = map fst (active_predictions Scenario.world0)
      \/ exists g,
          extract_game_number Scenario.env_ok
            (raw_text (Scenario.from_source Scenario.msg_881_total7)) = Some g
          /\ map fst (active_predictions
                        (handle_new_message Scenario.env_ok
                           (Scenario.from_source Scenario.msg_881_total7) w1))
             = map fst (active_predictions Scenario.world0)
               ++ [g + int_of (lit "250")]).
Proof.
  intros w1.
  destruct (a_offset_unbounded_and_used Scenario.env_ok None 42 (lit "250")
              (Scenario.from_source Scenario.msg_881_total7) Scenario.world0)
    as [_ Hauth]; [vm_compute; discriminate |].
  destruct (Hauth (or_introl eq_refl)) as (Ha & _ & _ & _ & Hnext).
  split; [exact Ha | exact Hnext].
Defined.

(** X26. The last launched number outlives [clear_predictions] and a
    replacing import: in the sheet imported after them, an entry whose
    number follows the last launched number is still set aside by the first
    scan whose window holds it (marked as launched and consecutive), and
    that scan does not return it. *)
Theorem suppression_outlives_clear_and_import `{U : Unicode}
        (self : ExcelImporter.manager) (rows : list ExcelImporter.row)
        (l cur tol : Z) (i : nat) (key : text) (p : ExcelImporter.excel_pred) :
  ExcelImporter.last_launched_numero self = Some l -> l <> 0 ->
  let m := fst (ExcelImporter.import_excel
                  (ExcelImporter.clear_predictions self) rows true) in
  nth_error (ExcelImporter.predictions m) i = Some (key, p) ->
  ExcelImporter.numero p = l + 1 ->
  0 <= l + 1 - cur <= tol ->
  nth_error
    (ExcelImporter.predictions (fst (ExcelImporter.find_close_prediction m cur tol)))
    i
  = Some (key, ExcelImporter.mark_skipped p)
  /\ forall k q,
      snd (ExcelImporter.find_close_prediction m cur tol) = Some (k, q) ->
      ExcelImporter.numero q <> l + 1.
Proof.
  intros Hl Hl0 m Hi Hn Hw.
  assert (Hfresh : ExcelImporter.fresh_entry (key, p)).
  { destruct (imported_entries_are_fresh_aux
                (ExcelImporter.clear_predictions self) rows) as [Hf _].
    rewrite Forall_forall in Hf. apply Hf. eapply nth_error_In. exact Hi. }
  assert (Hlast : ExcelImporter.last_launched_numero m = Some l) by exact Hl.
  rewrite find_close_prediction_unfold.
  cbn [fst snd ExcelImporter.predictions ExcelImporter.last_launched_numero].
  rewrite Hlast. split.
  - rewrite find_close_loop_entries, nth_error_map, Hi. cbn [option_map].
    unfold ExcelImporter.after_scan, ExcelImporter.suppressed,
      ExcelImporter.in_window, ExcelImporter.is_consecutive_to_last.
    cbn [fst snd].
    destruct Hfresh as (_ & _ & Hla & _). cbn [snd] in Hla.
    rewrite Hla, Hn. cbn [negb andb].
    destruct ((0 <=? l + 1 - cur) && (l + 1 - cur <=? tol)) eqn:E; [| lia].
    destruct (l =? 0) eqn:E0; [lia |].
    rewrite Z.eqb_refl. reflexivity.
  - intros k q E.
    pose proof (find_close_loop_result (Some l) cur tol
                  (ExcelImporter.predictions m) None None I) as Hres.
    rewrite E in Hres. destruct Hres as (Hc & _).
    unfold ExcelImporter.candidate, ExcelImporter.is_consecutive_to_last in Hc.
    apply andb_prop in Hc. destruct Hc as [_ Hc].
    destruct (l =? 0) eqn:E0; [lia |]. cbn [negb andb] in Hc.
    destruct (Z.eqb_spec (ExcelImporter.numero q) (l + 1)); [discriminate | assumption].
Qed.

Lemma suppression_outlives_clear_and_import_witness :
  let m := fst (ExcelImporter.import_excel
                  (ExcelImporter.clear_predictions (Scenario.manager_after 56 [70]))
                  (map Scenario.sheet_row [57; 59]) true) in
  nth_error
    (ExcelImporter.predictions (fst (ExcelImporter.find_close_prediction m 55 4)))
    0
  = Some (str 57, ExcelImporter.mark_skipped (snd (Scenario.pending 57))).
Proof.
  intros m.
  refine (proj1 (suppression_outlives_clear_and_import
                   (U := ascii_tables) (Scenario.manager_after 56 [70])
                   (map Scenario.sheet_row [57; 59]) 56 55 4 0%nat (str 57)
                   (snd (Scenario.pending 57)) eq_refl _ _ eq_refl _));
    first [reflexivity | lia].
Defined.

(** X27. A pass of [verify_excel_predictions] never adds, removes or
    reorders an imported prediction and keeps the last launched number; it
    leaves the live registry, the channels, [a_offset], [r_offset] and the
    configuration file alone, and only appends to the edit requests. *)
Theorem imported_pass_only_updates_entries `{U : Unicode} (env : collaborators)
        (g : Z) (t : text) (w : world) :
  let w' := verify_excel_predictions env g t w in
  map fst (ExcelImporter.predictions (excel_manager w'))
  = map fst (ExcelImporter.predictions (excel_manager w))
  /\ ExcelImporter.last_launched_numero (excel_manager w')
     = ExcelImporter.last_launched_numero (excel_manager w)
  /\ active_predictions w' = active_predictions w
  /\ detected_stat_channel w' = detected_stat_channel w
  /\ detected_display_channel w' = detected_display_channel w
  /\ a_offset w' = a_offset w
  /\ r_offset w' = r_offset w
  /\ config_file w' = config_file w
  /\ exists reqs, edits w' = edits w ++ reqs.
Proof.
  cbv zeta. split.
  - rewrite excel_pass_entries, map_map. reflexivity.
  - unfold verify_excel_predictions.
    destruct (excel_loop env g t _) as [items reqs].
    cbn. repeat split. now exists reqs.
Qed.
